(** * Fax job lifecycle and status reconciliation (functions/index.js)

    A shallow embedding of the Cloud Functions [sendFax], [sendFaxDirect]
    and [monitorFaxStatus], and of the pieces of the JavaScript runtime
    they call on strings and dates.

    Modelling conventions.
    - A JavaScript string is a [string]; each [ascii] stands for one code
      unit below 256.
    - A Firestore document is a finite map from field names to values, a
      collection a finite map from document ids to documents.  Document
      ids are opaque strings and the store itself never rejects a call;
      the mail transport may reject.
    - [FieldValue.serverTimestamp()] is the server's time at the write; it
      is an explicit argument of every operation that writes.
    - Handlers run in a small state-and-exception monad over a [world]
      that also records the order of the side effects. *)

From Stdlib Require Import ZArith Lia Ascii String.
From stdpp Require Import base strings gmap sorting.

(** ** JavaScript string primitives *)

Module Js.

(** Code units below 256 that [String.prototype.trim] removes:
    TAB, LF, VT, FF, CR, SPACE and NBSP. *)
Definition is_space (c : ascii) : bool :=
  let n := N_of_ascii c in
  ((9 <=? n) && (n <=? 13) || (n =? 32) || (n =? 160))%N.

(** [\d] *)
Definition is_digit (c : ascii) : bool :=
  let n := N_of_ascii c in ((48 <=? n) && (n <=? 57))%N.

(** [\w] is [[A-Za-z0-9_]] (no [i] or [u] flag). *)
Definition is_word (c : ascii) : bool :=
  let n := N_of_ascii c in
  ((48 <=? n) && (n <=? 57) || (65 <=? n) && (n <=? 90)
   || (97 <=? n) && (n <=? 122) || (n =? 95))%N.

Definition is_empty (s : string) : bool :=
  match s with EmptyString => true | String _ _ => false end.

(** A string is truthy when it is not empty. *)
Definition truthy (s : string) : bool := negb (is_empty s).

(** [a || b] on values that are a string or [undefined]. *)
Definition or_else (a b : option string) : option string :=
  match a with
  | Some s => if truthy s then a else b
  | None => b
  end.

(** [a || 'lit'] *)
Definition or_default (a : option string) (d : string) : string :=
  match a with
  | Some s => if truthy s then s else d
  | None => d
  end.

(** The longest prefix whose code units satisfy [p], and what follows it:
    a greedy character class. *)
Fixpoint span (p : ascii -> bool) (s : string) : string * string :=
  match s with
  | EmptyString => (EmptyString, EmptyString)
  | String c r =>
      if p c then let '(a, b) := span p r in (String c a, b)
      else (EmptyString, s)
  end.

Fixpoint all_chars (p : ascii -> bool) (s : string) : bool :=
  match s with
  | EmptyString => true
  | String c r => p c && all_chars p r
  end.

(** [s.replace(/[set]/g, '')] for a class of single characters, and
    [s.replace(/\D/g, '')]: keep the code units that [keep] accepts. *)
Fixpoint filter_chars (keep : ascii -> bool) (s : string) : string :=
  match s with
  | EmptyString => EmptyString
  | String c r =>
      if keep c then String c (filter_chars keep r) else filter_chars keep r
  end.

(** [toUpperCase] on the letters [a] to [z]; among the code units below
    256 it turns no other into a letter of [A] to [Z], but for the sharp s,
    which becomes [SS]. *)
Definition upper_ascii (c : ascii) : ascii :=
  let n := N_of_ascii c in
  if ((97 <=? n) && (n <=? 122))%N then ascii_of_N (n - 32) else c.

Fixpoint map_chars (f : ascii -> ascii) (s : string) : string :=
  match s with
  | EmptyString => EmptyString
  | String c r => String (f c) (map_chars f r)
  end.

Fixpoint trim_start (s : string) : string :=
  match s with
  | EmptyString => EmptyString
  | String c r => if is_space c then trim_start r else s
  end.

Fixpoint trim_end (s : string) : string :=
  match s with
  | EmptyString => EmptyString
  | String c r =>
      let r' := trim_end r in
      if is_space c && is_empty r' then EmptyString else String c r'
  end.

(** [s.trim()] *)
Definition trim (s : string) : string := trim_end (trim_start s).

(** [s.split(sep)] for a one-character separator; the result is never
    empty. *)
Fixpoint split (sep : ascii) (s : string) : list string :=
  match s with
  | EmptyString => [EmptyString]
  | String c r =>
      if Ascii.eqb c sep then EmptyString :: split sep r
      else match split sep r with
           | h :: t => String c h :: t
           | [] => [String c EmptyString]
           end
  end.

(** [s.slice(0, n)] *)
Fixpoint slice0 (n : nat) (s : string) : string :=
  match n, s with
  | S n', String c r => String c (slice0 n' r)
  | _, _ => EmptyString
  end.

(** If [s] starts with [p], what follows [p]. *)
Fixpoint after_prefix (p s : string) : option string :=
  match p, s with
  | EmptyString, _ => Some s
  | String a p', String b s' =>
      if Ascii.eqb a b then after_prefix p' s' else None
  | String _ _, EmptyString => None
  end.

(** [s.replace(/\.$/, '')]: without the [m] flag [$] is the end of the
    input. *)
Fixpoint strip_final_period (s : string) : string :=
  match s with
  | EmptyString => EmptyString
  | String c r =>
      if is_empty r then (if Ascii.eqb c "." then EmptyString else s)
      else String c (strip_final_period r)
  end.

(** After a ["<"], the text that follows the first [">"] if there is
    one: what [[^>]*>] leaves. *)
Fixpoint after_gt (s : string) : option string :=
  match s with
  | EmptyString => None
  | String c r => if Ascii.eqb c ">" then Some r else after_gt r
  end.

(** [s.replace(/<[^>]*>/g, '')].  [in_tag] is true while the scan is
    inside a tag whose closing [">"] is known to lie ahead. *)
Fixpoint strip_tags_from (in_tag : bool) (s : string) : string :=
  match s with
  | EmptyString => EmptyString
  | String c r =>
      if in_tag then strip_tags_from (negb (Ascii.eqb c ">")) r
      else if Ascii.eqb c "<" then
        match after_gt r with
        | Some _ => strip_tags_from true r
        | None => String c (strip_tags_from false r)
        end
      else String c (strip_tags_from false r)
  end.

Definition strip_tags (s : string) : string := strip_tags_from false s.

End Js.

(** ** [Date.prototype.toISOString] and the tracking id *)

Module JsDate.

Local Open Scope Z_scope.

(** The UTC calendar fields of a [Date]; [month] is the calendar month
    1..12 as printed. *)
Record utc := {
  year : Z; month : Z; day : Z;
  hours : Z; minutes : Z; seconds : Z; millis : Z
}.

(** The decimal digit of [n] at the units place, as a code unit. *)
Definition digit (n : Z) : ascii := ascii_of_N (Z.to_N (48 + n mod 10)).

Definition pad2 (n : Z) : string := String (digit (n / 10)) (String (digit n) "").
Definition pad3 (n : Z) : string := String (digit (n / 100)) (pad2 n).
Definition pad4 (n : Z) : string := String (digit (n / 1000)) (pad3 n).
Definition pad6 (n : Z) : string :=
  String (digit (n / 100000)) (String (digit (n / 10000)) (pad4 n)).

(** Years 0..9999 print with four digits, all others with a sign and six
    digits. *)
Definition iso_year (y : Z) : string :=
  if (0 <=? y) && (y <=? 9999) then pad4 y
  else (if y <? 0 then "-" else "+") +:+ pad6 (Z.abs y).

(** [YYYY-MM-DDTHH:mm:ss.sssZ] *)
Definition toISOString (d : utc) : string :=
  iso_year (year d) +:+ "-" +:+ pad2 (month d) +:+ "-" +:+ pad2 (day d)
  +:+ "T" +:+ pad2 (hours d) +:+ ":" +:+ pad2 (minutes d) +:+ ":"
  +:+ pad2 (seconds d) +:+ "." +:+ pad3 (millis d) +:+ "Z".

End JsDate.

(** The class [[-:T.Z]]. *)
Definition is_separator (c : ascii) : bool :=
  Ascii.eqb c "-" || Ascii.eqb c ":" || Ascii.eqb c "T"
  || Ascii.eqb c "." || Ascii.eqb c "Z".

(** [`WEB-${new Date().toISOString().replace(/[-:T.Z]/g, '').slice(0, 14)}`]
    where [now] is the value of [new Date()]. *)
Definition generateTrackingId (now : JsDate.utc) : string :=
  "WEB-" +:+
  Js.slice0 14
    (Js.filter_chars (fun c => negb (is_separator c)) (JsDate.toISOString now)).

(** The UTC instant written [YYYYMMDDHHMMSS], without separators. *)
Definition stamp14 (d : JsDate.utc) : string :=
  JsDate.pad4 (JsDate.year d) +:+ JsDate.pad2 (JsDate.month d)
  +:+ JsDate.pad2 (JsDate.day d) +:+ JsDate.pad2 (JsDate.hours d)
  +:+ JsDate.pad2 (JsDate.minutes d) +:+ JsDate.pad2 (JsDate.seconds d).

(** [^WEB-\d{14}$] *)
Definition is_tracking_id (s : string) : bool :=
  match Js.after_prefix "WEB-" s with
  | Some r => Nat.eqb (String.length r) 14 && Js.all_chars Js.is_digit r
  | None => false
  end.

(** ** The record store *)

Inductive value :=
  | VStr (s : string)
  | VTime (t : Z).

Abbreviation document := (gmap string value).
Abbreviation collection := (gmap string document).

(** An object literal. *)
Definition obj (fields : list (string * value)) : document :=
  list_to_map fields.

(** [doc(id).set(data)]: the document becomes [data]. *)
Definition doc_set (id : string) (data : document) (c : collection) : collection :=
  <[id := data]> c.

(** [doc(id).set(data, { merge: true })]: the fields of [data] are
    written over the stored document, which is created when absent. *)
Definition doc_set_merge (id : string) (data : document) (c : collection) : collection :=
  <[id := data ∪ default ∅ (c !! id)]> c.

(** A field of a stored document. *)
Definition field (c : collection) (id name : string) : option value :=
  c !! id ≫= fun d => d !! name.

(** A document of the [stores] collection, as the seed script writes it. *)
Record store := {
  st_storeNumber : string;
  st_location : string;
  st_faxNumber : string
}.

Record mail := {
  mail_from : string;
  mail_to : string;
  mail_subject : string;
  mail_text : string;
  att_filename : string;
  att_content : string
}.

(** A document of the [fax_log] collection. *)
Record log_entry := {
  log_storeNumber : option string;
  log_location : string;
  log_faxNumber : string;
  log_fileName : string;
  log_type : string;
  log_sentAt : Z;
  log_status : string
}.

(** ** Effects *)

Inductive event :=
  | EvJobSet (id : string) (data : document)
  | EvJobMerge (id : string) (data : document)
  | EvSendMail (m : mail) (delivered : bool)
  | EvLogAdd (e : log_entry).

Record world := {
  faxJobs : collection;
  fax_log : list log_entry;
  trace : list event
}.

Inductive outcome (A : Type) :=
  | Done (a : A)
  | Throw (msg : string).
Arguments Done {A} a.
Arguments Throw {A} msg.

Definition M (A : Type) : Type := world -> outcome A * world.

Definition ret {A} (a : A) : M A := fun w => (Done a, w).

Definition bind {A B} (m : M A) (k : A -> M B) : M B :=
  fun w =>
    match m w with
    | (Done a, w') => k a w'
    | (Throw msg, w') => (Throw msg, w')
    end.

Notation "'let*' x ':=' m 'in' k" := (bind m (fun x => k))
  (at level 10, x pattern, m at level 200, k at level 200).

(** [throw new Error(msg)] *)
Definition throw {A} (msg : string) : M A := fun w => (Throw msg, w).

(** [try { m } catch (error) { h(error.message) }] *)
Definition try_catch {A} (m : M A) (h : string -> M A) : M A :=
  fun w =>
    match m w with
    | (Done a, w') => (Done a, w')
    | (Throw msg, w') => h msg w'
    end.

Definition emit (ev : event) (w : world) : world :=
  {| faxJobs := faxJobs w; fax_log := fax_log w; trace := trace w ++ [ev] |}.

Definition jobs_set (id : string) (data : document) : M unit :=
  fun w =>
    (Done tt,
     emit (EvJobSet id data)
       {| faxJobs := doc_set id data (faxJobs w);
          fax_log := fax_log w; trace := trace w |}).

Definition jobs_set_merge (id : string) (data : document) : M unit :=
  fun w =>
    (Done tt,
     emit (EvJobMerge id data)
       {| faxJobs := doc_set_merge id data (faxJobs w);
          fax_log := fax_log w; trace := trace w |}).

Definition log_add (e : log_entry) : M unit :=
  fun w =>
    (Done tt,
     emit (EvLogAdd e)
       {| faxJobs := faxJobs w; fax_log := fax_log w ++ [e]; trace := trace w |}).

(** [transporter.sendMail(m)]; [failure] is the message of the error the
    transport rejects with, if it does. *)
Definition sendMail (failure : option string) (m : mail) : M unit :=
  fun w =>
    match failure with
    | None => (Done tt, emit (EvSendMail m true) w)
    | Some msg => (Throw msg, emit (EvSendMail m false) w)
    end.

(** ** Configuration, requests and responses *)

(** [functions.config()] and [process.env]; an unset key is [None]. *)
Record config := {
  smtp_from : option string;
  SMTP_FROM : option string;
  fax_gateway_email : option string;
  FAX_GATEWAY_EMAIL : option string
}.

Definition getFromEmail (c : config) : string :=
  Js.or_default (Js.or_else (smtp_from c) (SMTP_FROM c)) "handbook@company.com".

Definition getFaxGatewayEmail (c : config) : option string :=
  Js.or_else (fax_gateway_email c) (FAX_GATEWAY_EMAIL c).

(** What one invocation of a handler reads from outside the request:
    the configuration, the [stores] collection, [new Date()], the server
    time of the [faxJobs] write and of the [fax_log] write, whether the
    mail transport rejects, and what the Firestore client does with a
    string that is the id of no document of [stores]:
    [doc_refused id] is the message of the error that
    [db.collection('stores').doc(id).get()] throws, if it throws (as it
    does for [a/b], which is no document path). *)
Record env := {
  cfg : config;
  stores : gmap string store;
  now : JsDate.utc;
  job_time : Z;
  log_time : Z;
  mail_failure : option string;
  doc_refused : string -> option string
}.

(** [req.method] and the fields of [req.body]; a missing field is
    [None]. *)
Record request := {
  method : string;
  storeNumber : option string;
  faxNumber : option string;
  pdfBase64 : option string;
  fileName : option string;
  type : option string
}.

Inductive body :=
  | ErrorBody (error : string) (details : option string)
  | StoreSent (message trackingId storeNumber location : string)
  | DirectSent (message trackingId faxNumber : string).

(** [res.status(code).json(body)] *)
Record response := { code : nat; json : body }.

Definition returned_trackingId (r : response) : option string :=
  match json r with
  | ErrorBody _ _ => None
  | StoreSent _ t _ _ => Some t
  | DirectSent _ t _ => Some t
  end.

(** ** sendFax *)

(** [sendFax] and [sendFaxDirect] below are the functions that the
    exported functions hand to [corsHandler]; the exported functions
    themselves are in the module [exports]. *)

Definition pendingStoreJob (c : config) (trackingId storeNumber : string) (t : Z) : document :=
  obj [("trackingId", VStr trackingId);
       ("status", VStr "Pending");
       ("requesterEmail", VStr (getFromEmail c));
       ("storeNumber", VStr storeNumber);
       ("createdAt", VTime t);
       ("updatedAt", VTime t)].

Definition storeMail (c : config) (gatewayEmail trackingId storeNumber : string)
    (st : store) (fileName pdfBase64 : string) : mail :=
  {| mail_from := getFromEmail c;
     mail_to := gatewayEmail;
     mail_subject := storeNumber +:+ " " +:+ trackingId;
     mail_text := "Handbook Acknowledgement for " +:+ st_location st
                  +:+ " (" +:+ storeNumber +:+ ")";
     att_filename := fileName;
     att_content := pdfBase64 |}.

Definition storeLog (e : env) (storeNumber : string) (st : store)
    (fileName : string) (type : option string) : log_entry :=
  {| log_storeNumber := Some storeNumber;
     log_location := st_location st;
     log_faxNumber := st_faxNumber st;
     log_fileName := fileName;
     log_type := Js.or_default type "unknown";
     log_sentAt := log_time e;
     log_status := "sent" |}.

Definition sendFax (e : env) (req : request) : M response :=
  if negb (String.eqb (method req) "POST") then
    ret {| code := 405; json := ErrorBody "Method not allowed" None |}
  else
    try_catch
      (match storeNumber req, pdfBase64 req, fileName req with
       | Some sn, Some pdf, Some fn =>
           if negb (Js.truthy sn) || negb (Js.truthy pdf) || negb (Js.truthy fn) then
             ret {| code := 400;
                    json := ErrorBody "Missing required fields: storeNumber, pdfBase64, fileName" None |}
           else
             (* db.collection('stores').doc(storeNumber).get(): the document
                of the directory under this id, if there is one; for any
                other string, the error of the client or no document *)
             match stores e !! sn with
             | None =>
                 match doc_refused e sn with
                 | Some msg => throw msg
                 | None =>
                     ret {| code := 404;
                            json := ErrorBody ("Store " +:+ sn +:+ " not found") None |}
                 end
             | Some st =>
                 match getFaxGatewayEmail (cfg e) with
                 | Some gatewayEmail =>
                     if negb (Js.truthy gatewayEmail) then
                       ret {| code := 500;
                              json := ErrorBody "Fax gateway email not configured" None |}
                     else
                       let trackingId := generateTrackingId (now e) in
                       let* _ := jobs_set trackingId
                                   (pendingStoreJob (cfg e) trackingId sn (job_time e)) in
                       let* _ := sendMail (mail_failure e)
                                   (storeMail (cfg e) gatewayEmail trackingId sn st fn pdf) in
                       let* _ := log_add (storeLog e sn st fn (type req)) in
                       ret {| code := 200;
                              json := StoreSent
                                        ("Fax sent to " +:+ st_location st
                                         +:+ " (" +:+ sn +:+ ")")
                                        trackingId (st_storeNumber st) (st_location st) |}
                 | None =>
                     ret {| code := 500;
                            json := ErrorBody "Fax gateway email not configured" None |}
                 end
             end
       | _, _, _ =>
           ret {| code := 400;
                  json := ErrorBody "Missing required fields: storeNumber, pdfBase64, fileName" None |}
       end)
      (fun msg =>
         ret {| code := 500; json := ErrorBody "Failed to send fax" (Some msg) |}).

(** ** sendFaxDirect *)

Definition pendingDirectJob (c : config) (trackingId cleanFaxNumber : string) (t : Z) : document :=
  obj [("trackingId", VStr trackingId);
       ("status", VStr "Pending");
       ("faxNumber", VStr cleanFaxNumber);
       ("requesterEmail", VStr (getFromEmail c));
       ("createdAt", VTime t);
       ("updatedAt", VTime t)].

Definition directMail (c : config) (gatewayEmail trackingId cleanFaxNumber : string)
    (fileName pdfBase64 : string) : mail :=
  {| mail_from := getFromEmail c;
     mail_to := gatewayEmail;
     mail_subject := "Fax#" +:+ cleanFaxNumber +:+ " " +:+ trackingId;
     mail_text := "Handbook Acknowledgement sent to fax number " +:+ cleanFaxNumber;
     att_filename := fileName;
     att_content := pdfBase64 |}.

Definition directLog (e : env) (cleanFaxNumber fileName : string)
    (type : option string) : log_entry :=
  {| log_storeNumber := None;
     log_location := "Direct Fax";
     log_faxNumber := cleanFaxNumber;
     log_fileName := fileName;
     log_type := Js.or_default type "unknown";
     log_sentAt := log_time e;
     log_status := "sent" |}.

Definition sendFaxDirect (e : env) (req : request) : M response :=
  if negb (String.eqb (method req) "POST") then
    ret {| code := 405; json := ErrorBody "Method not allowed" None |}
  else
    try_catch
      (match faxNumber req, pdfBase64 req, fileName req with
       | Some fx, Some pdf, Some fn =>
           if negb (Js.truthy fx) || negb (Js.truthy pdf) || negb (Js.truthy fn) then
             ret {| code := 400;
                    json := ErrorBody "Missing required fields: faxNumber, pdfBase64, fileName" None |}
           else
             let cleanFaxNumber := Js.filter_chars Js.is_digit fx in
             if Nat.ltb (String.length cleanFaxNumber) 10 then
               ret {| code := 400;
                      json := ErrorBody "Invalid fax number - must be at least 10 digits" None |}
             else
               match getFaxGatewayEmail (cfg e) with
               | Some gatewayEmail =>
                   if negb (Js.truthy gatewayEmail) then
                     ret {| code := 500;
                            json := ErrorBody "Fax gateway email not configured" None |}
                   else
                     let trackingId := generateTrackingId (now e) in
                     let* _ := jobs_set trackingId
                                 (pendingDirectJob (cfg e) trackingId cleanFaxNumber (job_time e)) in
                     let* _ := sendMail (mail_failure e)
                                 (directMail (cfg e) gatewayEmail trackingId cleanFaxNumber fn pdf) in
                     let* _ := log_add (directLog e cleanFaxNumber fn (type req)) in
                     ret {| code := 200;
                            json := DirectSent ("Fax sent to " +:+ cleanFaxNumber)
                                      trackingId cleanFaxNumber |}
               | None =>
                   ret {| code := 500;
                          json := ErrorBody "Fax gateway email not configured" None |}
               end
       | _, _, _ =>
           ret {| code := 400;
                  json := ErrorBody "Missing required fields: faxNumber, pdfBase64, fileName" None |}
       end)
      (fun msg =>
         ret {| code := 500; json := ErrorBody "Failed to send fax" (Some msg) |}).

(** ** monitorFaxStatus *)

(** An unread message as the loop body sees it: [subject] is
    [(header.body.subject || [''])[0]] and [text] is [textPart.body || '']. *)
Record message := { msg_subject : string; msg_text : string }.

(** The pattern [FAXDONE:([^:]+):(\w+)] tried at the start of [s]; both
    groups are greedy, and giving back part of the first one never helps
    since the next code unit must be [":"]. *)
Definition match_here (s : string) : option (string * string) :=
  match Js.after_prefix "FAXDONE:" s with
  | None => None
  | Some r =>
      let '(g1, r1) := Js.span (fun c => negb (Ascii.eqb c ":")) r in
      if Js.is_empty g1 then None
      else match r1 with
           | EmptyString => None
           | String c r2 =>
               if Ascii.eqb c ":" then
                 let '(g2, _) := Js.span Js.is_word r2 in
                 if Js.is_empty g2 then None else Some (g1, g2)
               else None
           end
  end.

(** [subject.match(/FAXDONE:([^:]+):(\w+)/)]: the leftmost position at
    which the pattern matches; the result is [(match[1], match[2])]. *)
Fixpoint subject_match (s : string) : option (string * string) :=
  match match_here s with
  | Some g => Some g
  | None =>
      match s with
      | EmptyString => None
      | String _ r => subject_match r
      end
  end.

Definition newline : ascii := "010"%char.

(** The constants bound at lines 373 to 380. *)
Record completion := {
  c_faxKey : string;
  c_status : string;
  c_requesterEmail : string;
  c_trackingId : string
}.

(** The constant [cleanLine] of line 377, from [textPart.body || '']. *)
Definition cleanLineOf (text : string) : string :=
  let body := Js.trim text in
  let firstLine := Js.trim (default "" (Js.split newline body !! 0%nat)) in
  Js.strip_tags firstLine.

Definition parseCompletion (m : message) : option completion :=
  let subject := msg_subject m in
  match subject_match subject with
  | None => None
  | Some (match1, match2) =>
      let faxKey := Js.trim match1 in
      let status := Js.trim match2 in
      let cleanLine := cleanLineOf (msg_text m) in
      let parts := Js.split "|" cleanLine in
      let requesterEmail := Js.trim (Js.or_default (parts !! 0%nat) "") in
      let trackingId :=
        Js.strip_final_period (Js.trim (Js.or_default (parts !! 1%nat) "")) in
      Some {| c_faxKey := faxKey; c_status := status;
              c_requesterEmail := requesterEmail; c_trackingId := trackingId |}
  end.

Definition updateByFaxKey (p : completion) (t : Z) : document :=
  obj [("faxKey", VStr (c_faxKey p));
       ("status", VStr (c_status p));
       ("requesterEmail", VStr (c_requesterEmail p));
       ("updatedAt", VTime t)].

Definition updateByTrackingId (p : completion) (t : Z) : document :=
  obj [("faxKey", VStr (c_faxKey p));
       ("trackingId", VStr (c_trackingId p));
       ("status", VStr (c_status p));
       ("requesterEmail", VStr (c_requesterEmail p));
       ("updatedAt", VTime t)].

(** The body of the [for] loop for one message; [t_key] and [t_track]
    are the server times of its two writes.  The writes are those of the
    program for keys that [doc] takes as they stand ([plain_completion]
    below); for another key [doc(key)] throws and the [catch] ends the
    work on the message, which this definition does not follow. *)
Definition processMessage (t_key t_track : Z) (m : message) : M unit :=
  try_catch
    (match parseCompletion m with
     | None => ret tt
     | Some p =>
         let* _ := jobs_set_merge (c_faxKey p) (updateByFaxKey p t_key) in
         if Js.truthy (c_trackingId p) then
           jobs_set_merge (c_trackingId p) (updateByTrackingId p t_track)
         else ret tt
     end)
    (fun _ => ret tt).

(** One sweep over the unread messages the search returned, in order. *)
Fixpoint monitorFaxStatus (messages : list (Z * Z * message)) : M unit :=
  match messages with
  | [] => ret tt
  | (t_key, t_track, m) :: rest =>
      let* _ := processMessage t_key t_track m in monitorFaxStatus rest
  end.

(** ** The webhook channel *)

(** Modelled from the spec: the handler [faxWebhook] is not among the
    sources; section 4.3 has it merge-write onto the job keyed by
    [trackingId], setting [status], [faxKey] if supplied and [updatedAt],
    and leaving every other field untouched. *)
Definition applyWebhookUpdate (t : Z) (trackingId status : string)
    (faxKey : option string) : M unit :=
  jobs_set_merge trackingId
    (obj (("status", VStr status)
          :: match faxKey with
             | Some k => [("faxKey", VStr k)]
             | None => []
             end
          ++ [("updatedAt", VTime t)])).

(** ** Running a handler *)

Definition result_of {A} (r : outcome A * world) : outcome A := fst r.
Definition world_of {A} (r : outcome A * world) : world := snd r.

(** The [faxJobs] collection after [m] has run from [w]. *)
Definition jobs_after {A} (m : M A) (w : world) : collection := faxJobs (snd (m w)).

Definition empty_world : world := {| faxJobs := ∅; fax_log := []; trace := [] |}.

(** ** Predicates used by the statements *)

(** A store-send request that passes every check of [sendFax] before the
    tracking id is generated. *)
Definition valid_store_request (e : env) (req : request)
    (sn pdf fn : string) (st : store) (gw : string) : Prop :=
  method req = "POST" /\
  storeNumber req = Some sn /\ pdfBase64 req = Some pdf /\ fileName req = Some fn /\
  sn <> "" /\ pdf <> "" /\ fn <> "" /\
  stores e !! sn = Some st /\
  getFaxGatewayEmail (cfg e) = Some gw /\ gw <> "".

(** A direct-send request that passes every check of [sendFaxDirect]. *)
Definition valid_direct_request (e : env) (req : request)
    (fx pdf fn : string) (gw : string) : Prop :=
  method req = "POST" /\
  faxNumber req = Some fx /\ pdfBase64 req = Some pdf /\ fileName req = Some fn /\
  fx <> "" /\ pdf <> "" /\ fn <> "" /\
  (10 <= String.length (Js.filter_chars Js.is_digit fx))%nat /\
  getFaxGatewayEmail (cfg e) = Some gw /\ gw <> "".

(** The events [after] extend [before] by the creation of the job
    [tid], then the dispatch of [m], then at most audit-log entries. *)
Definition created_then_dispatched (before after : list event)
    (tid : string) (job : document) (m : mail) : Prop :=
  exists ok rest,
    after = before ++ EvJobSet tid job :: EvSendMail m ok :: rest /\
    Forall (fun ev => match ev with EvLogAdd _ => True | _ => False end) rest.

Definition four_digit_year (d : JsDate.utc) : Prop :=
  (0 <= JsDate.year d <= 9999)%Z.

(** Two instants within the same clock second. *)
Definition same_second (d1 d2 : JsDate.utc) : Prop :=
  JsDate.year d1 = JsDate.year d2 /\ JsDate.month d1 = JsDate.month d2 /\
  JsDate.day d1 = JsDate.day d2 /\ JsDate.hours d1 = JsDate.hours d2 /\
  JsDate.minutes d1 = JsDate.minutes d2 /\ JsDate.seconds d1 = JsDate.seconds d2.

Definition is_terminal (s : string) : bool :=
  String.eqb s "Success" || String.eqb s "Failed".

Definition is_lifecycle_status (s : string) : bool :=
  String.eqb s "Pending" || is_terminal s.

(** What a status written by this code looks like: a non-empty run of
    [\w] code units. *)
Definition is_status_word (s : string) : bool :=
  Js.truthy s && Js.all_chars Js.is_word s.

(** Every stored [status] field is a string that is a status word. *)
Definition statuses_are_words (c : collection) : Prop :=
  forall id v, field c id "status" = Some v ->
    exists s, v = VStr s /\ is_status_word s = true.

(** The fields that a polled update may write. *)
Definition polled_fields : list string :=
  ["faxKey"; "trackingId"; "status"; "requesterEmail"; "updatedAt"].

(** Two collections that agree on every field but [updatedAt]. *)
Definition same_up_to_updatedAt (c1 c2 : collection) : Prop :=
  forall id, delete "updatedAt" <$> (c1 !! id) = delete "updatedAt" <$> (c2 !! id).

(** ** getStores *)

(** One element of the answer: [{ id: doc.id, ...doc.data() }]. *)
Record store_entry := { entry_id : string; entry_data : store }.

(** The order of [orderBy('storeNumber')]: ascending in the field, by code
    units, documents with equal fields in the order of their ids. *)
Definition entry_le (a b : string * store) : Prop :=
  (String.le (st_storeNumber a.2) (st_storeNumber b.2)
   /\ st_storeNumber a.2 <> st_storeNumber b.2)
  \/ (st_storeNumber a.2 = st_storeNumber b.2 /\ String.le a.1 b.1).

#[global] Instance entry_le_dec : RelDecision entry_le.
Proof. intros a b. unfold entry_le. apply _. Defined.

(** [db.collection('stores').orderBy('storeNumber').get()] *)
Definition orderByStoreNumber (c : gmap string store) : list (string * store) :=
  merge_sort entry_le (map_to_list c).

Inductive stores_body :=
  | StoresError (error : string) (details : option string)
  | StoresListed (count : nat) (listed : list store_entry).

Record stores_response := { s_code : nat; s_json : stores_body }.

Definition getStores (e : env) (req : request) : M stores_response :=
  if negb (String.eqb (method req) "GET") then
    ret {| s_code := 405; s_json := StoresError "Method not allowed" None |}
  else
    try_catch
      (let snapshot := orderByStoreNumber (stores e) in
       let stores :=
         map (fun doc => {| entry_id := doc.1; entry_data := doc.2 |}) snapshot in
       ret {| s_code := 200; s_json := StoresListed (length stores) stores |})
      (fun msg =>
         ret {| s_code := 500;
                s_json := StoresError "Failed to fetch stores" (Some msg) |}).

(** ** The exported functions *)

(** [req.method.toUpperCase() === 'OPTIONS'], by which the [cors] package
    tells a preflight request; no sharp s turns a method into [OPTIONS],
    which holds no [SS]. *)
Definition is_preflight (req : request) : bool :=
  String.eqb (Js.map_chars Js.upper_ascii (method req)) "OPTIONS".

(** What a client gets from an exported function: status 204 without a
    body, or the answer of the function that [corsHandler] calls. *)
Inductive answer (A : Type) :=
  | NoContent
  | Answer (resp : A).
Arguments NoContent {A}.
Arguments Answer {A} resp.

(** [corsHandler(req, res, next)] with [cors({ origin: true })]: a
    preflight request is answered 204 and [next] is not called; any other
    request goes on to [next], with headers on [res] that are not
    modelled. *)
Definition corsHandler {A} (req : request) (next : M A) : M (answer A) :=
  if is_preflight req then ret NoContent
  else let* resp := next in ret (Answer resp).

(** [exports.sendFax], [exports.sendFaxDirect] and [exports.getStores] *)
Definition exports_sendFax (e : env) (req : request) : M (answer response) :=
  corsHandler req (sendFax e req).

Definition exports_sendFaxDirect (e : env) (req : request) : M (answer response) :=
  corsHandler req (sendFaxDirect e req).

Definition exports_getStores (e : env) (req : request) : M (answer stores_response) :=
  corsHandler req (getStores e req).

(** The entries of a listing ascend in their store numbers. *)
Definition ascending (l : list store_entry) : Prop :=
  StronglySorted
    (fun a b => String.le (st_storeNumber (entry_data a)) (st_storeNumber (entry_data b)))
    l.

(** ** Document ids *)

(** An id that names a document as it stands: not empty, short of the
    limit of 1500 bytes whatever the encoding of its code units, without
    [/], and neither [.], [..] nor of the reserved form [__.*__].  With
    such an id [collection.doc(id)] is the document [id] of the
    collection.  Other ids are refused by the client library or by the
    server, or name a document of a subcollection; the store does not
    model them. *)
Definition plain_id_char (c : ascii) : bool :=
  negb (Ascii.eqb c "/" || Ascii.eqb c "." || Ascii.eqb c "_").

Definition plain_id (k : string) : bool :=
  negb (Js.is_empty k) && (String.length k <=? 750) && Js.all_chars plain_id_char k.

(** A completion whose writes go to the documents that its keys name:
    the fax key is a plain id, and so is the tracking id unless it is
    empty, in which case it is not written.  For other keys
    [db.collection('faxJobs').doc(key)] throws or leads elsewhere, the
    [catch] of the loop body takes over, and the merge-writes of
    [processMessage] do not describe what is stored. *)
Definition plain_completion (p : completion) : Prop :=
  plain_id (c_faxKey p) = true /\
  (c_trackingId p = "" \/ plain_id (c_trackingId p) = true).

(** ** The seed script *)

(** [storesData.slice(i, j)] *)
Definition slice {A} (i j : nat) (l : list A) : list A := take (j - i) (drop i l).

Definition batchSize : nat := 500.

(** A committed batch: [batch.set(db.collection('stores').doc(store.storeNumber),
    { storeNumber, location, faxNumber })] for every store of the chunk, in
    order. *)
Definition commitBatch (chunk : list store) (c : gmap string store) : gmap string store :=
  foldl (fun acc st => <[st_storeNumber st := st]> acc) c chunk.

Record seed_state := { seeded : gmap string store; totalWritten : nat }.

(** The store numbers of a chunk are all plain ids. *)
Definition plain_stores (chunk : list store) : bool :=
  forallb (fun st => plain_id (st_storeNumber st)) chunk.

(** The [for] loop from index [i]; [commit_fails k] tells whether the
    commit of the batch number [k] (from 0) is rejected, upon which the
    script exits with code 1.  The result is the exit code and the state;
    [None] when the fuel runs out, or when a store number of the chunk is
    no plain id, so that what [doc(store.storeNumber)] does is not
    modelled. *)
Fixpoint seed_loop (fuel : nat) (commit_fails : nat -> bool) (storesData : list store)
    (i : nat) (st : seed_state) : option (nat * seed_state) :=
  if i <? length storesData then
    match fuel with
    | O => None
    | S fuel' =>
        let chunk := slice i (i + batchSize) storesData in
        if negb (plain_stores chunk) then None
        else if commit_fails (i / batchSize) then Some (1, st)
        else
          seed_loop fuel' commit_fails storesData (i + batchSize)
            {| seeded := commitBatch chunk (seeded st);
               totalWritten := totalWritten st + length chunk |}
    end
  else Some (0, st).

(** [seedStores()]; [file] is the parsed content of [stores.json], [None]
    when the file is missing. *)
Definition seedStores (file : option (list store)) (commit_fails : nat -> bool)
    (c : gmap string store) : option (nat * seed_state) :=
  match file with
  | None => Some (1, {| seeded := c; totalWritten := 0 |})
  | Some storesData =>
      seed_loop (length storesData) commit_fails storesData 0
        {| seeded := c; totalWritten := 0 |}
  end.

(** ** The send handlers of the second copy of index.js *)

(** The second copy of [sendFax] and [sendFaxDirect] has no tracking id:
    no [faxJobs] write, a subject that is the destination alone, and no
    [trackingId] in the answer. *)
Inductive plain_body :=
  | PlainError (error : string) (details : option string)
  | PlainStoreSent (message storeNumber location : string)
  | PlainDirectSent (message faxNumber : string).

Record plain_response := { p_code : nat; p_json : plain_body }.

Definition plainStoreMail (c : config) (gatewayEmail storeNumber : string)
    (st : store) (fileName pdfBase64 : string) : mail :=
  {| mail_from := getFromEmail c;
     mail_to := gatewayEmail;
     mail_subject := storeNumber;
     mail_text := "Handbook Acknowledgement for " +:+ st_location st
                  +:+ " (" +:+ storeNumber +:+ ")";
     att_filename := fileName;
     att_content := pdfBase64 |}.

Definition sendFaxPlain (e : env) (req : request) : M plain_response :=
  if negb (String.eqb (method req) "POST") then
    ret {| p_code := 405; p_json := PlainError "Method not allowed" None |}
  else
    try_catch
      (match storeNumber req, pdfBase64 req, fileName req with
       | Some sn, Some pdf, Some fn =>
           if negb (Js.truthy sn) || negb (Js.truthy pdf) || negb (Js.truthy fn) then
             ret {| p_code := 400;
                    p_json := PlainError "Missing required fields: storeNumber, pdfBase64, fileName" None |}
           else
             (* db.collection('stores').doc(storeNumber).get(): the document
                of the directory under this id, if there is one; for any
                other string, the error of the client or no document *)
             match stores e !! sn with
             | None =>
                 match doc_refused e sn with
                 | Some msg => throw msg
                 | None =>
                     ret {| p_code := 404;
                            p_json := PlainError ("Store " +:+ sn +:+ " not found") None |}
                 end
             | Some st =>
                 match getFaxGatewayEmail (cfg e) with
                 | Some gatewayEmail =>
                     if negb (Js.truthy gatewayEmail) then
                       ret {| p_code := 500;
                              p_json := PlainError "Fax gateway email not configured" None |}
                     else
                       let* _ := sendMail (mail_failure e)
                                   (plainStoreMail (cfg e) gatewayEmail sn st fn pdf) in
                       let* _ := log_add (storeLog e sn st fn (type req)) in
                       ret {| p_code := 200;
                              p_json := PlainStoreSent
                                          ("Fax sent to " +:+ st_location st
                                           +:+ " (" +:+ sn +:+ ")")
                                          (st_storeNumber st) (st_location st) |}
                 | None =>
                     ret {| p_code := 500;
                            p_json := PlainError "Fax gateway email not configured" None |}
                 end
             end
       | _, _, _ =>
           ret {| p_code := 400;
                  p_json := PlainError "Missing required fields: storeNumber, pdfBase64, fileName" None |}
       end)
      (fun msg =>
         ret {| p_code := 500; p_json := PlainError "Failed to send fax" (Some msg) |}).

Definition plainDirectMail (c : config) (gatewayEmail cleanFaxNumber : string)
    (fileName pdfBase64 : string) : mail :=
  {| mail_from := getFromEmail c;
     mail_to := gatewayEmail;
     mail_subject := "Fax#" +:+ cleanFaxNumber;
     mail_text := "Handbook Acknowledgement sent to fax number " +:+ cleanFaxNumber;
     att_filename := fileName;
     att_content := pdfBase64 |}.

Definition sendFaxDirectPlain (e : env) (req : request) : M plain_response :=
  if negb (String.eqb (method req) "POST") then
    ret {| p_code := 405; p_json := PlainError "Method not allowed" None |}
  else
    try_catch
      (match faxNumber req, pdfBase64 req, fileName req with
       | Some fx, Some pdf, Some fn =>
           if negb (Js.truthy fx) || negb (Js.truthy pdf) || negb (Js.truthy fn) then
             ret {| p_code := 400;
                    p_json := PlainError "Missing required fields: faxNumber, pdfBase64, fileName" None |}
           else
             let cleanFaxNumber := Js.filter_chars Js.is_digit fx in
             if Nat.ltb (String.length cleanFaxNumber) 10 then
               ret {| p_code := 400;
                      p_json := PlainError "Invalid fax number - must be at least 10 digits" None |}
             else
               match getFaxGatewayEmail (cfg e) with
               | Some gatewayEmail =>
                   if negb (Js.truthy gatewayEmail) then
                     ret {| p_code := 500;
                            p_json := PlainError "Fax gateway email not configured" None |}
                   else
                     let* _ := sendMail (mail_failure e)
                                 (plainDirectMail (cfg e) gatewayEmail cleanFaxNumber fn pdf) in
                     let* _ := log_add (directLog e cleanFaxNumber fn (type req)) in
                     ret {| p_code := 200;
                            p_json := PlainDirectSent ("Fax sent to " +:+ cleanFaxNumber)
                                        cleanFaxNumber |}
               | None =>
                   ret {| p_code := 500;
                          p_json := PlainError "Fax gateway email not configured" None |}
               end
       | _, _, _ =>
           ret {| p_code := 400;
                  p_json := PlainError "Missing required fields: faxNumber, pdfBase64, fileName" None |}
       end)
      (fun msg =>
         ret {| p_code := 500; p_json := PlainError "Failed to send fax" (Some msg) |}).

(** An answer of the tracking handlers without its tracking id. *)
Definition without_trackingId (r : response) : plain_response :=
  {| p_code := code r;
     p_json := match json r with
               | ErrorBody err details => PlainError err details
               | StoreSent msg _ sn loc => PlainStoreSent msg sn loc
               | DirectSent msg _ fx => PlainDirectSent msg fx
               end |}.

(** ** Predicates for the remaining behaviour of the handlers *)

(** A value that [!v] and [v || w] treat as missing: [undefined] or the
    empty string. *)
Definition falsy (o : option string) : bool :=
  match o with
  | Some s => Js.is_empty s
  | None => true
  end.

(** A response that reports a refusal decided before any effect: an
    error body without [details]. *)
Definition is_refusal (r : response) : Prop :=
  exists err, json r = ErrorBody err None /\
    (code r = 400 \/ code r = 404 \/ code r = 405 \/ code r = 500)%nat.

Definition is_mail_event (ev : event) : bool :=
  match ev with EvSendMail _ _ => true | _ => false end.

(** A code unit that the parsing of a notice body passes through: not
    the field separator, not the start of a tag, not a line feed. *)
Definition ordinary (c : ascii) : bool :=
  negb (Ascii.eqb c "|" || Ascii.eqb c "<" || Ascii.eqb c newline).

(** An ordinary code unit that is not white space either. *)
Definition solid (c : ascii) : bool := negb (Js.is_space c) && ordinary c.

(** The fields of an instant within their calendar ranges, the year
    within the four-digit years. *)
Definition calendar_fields (d : JsDate.utc) : Prop :=
  (0 <= JsDate.year d <= 9999 /\ 1 <= JsDate.month d <= 12 /\
   1 <= JsDate.day d <= 31 /\ 0 <= JsDate.hours d <= 23 /\
   0 <= JsDate.minutes d <= 59 /\ 0 <= JsDate.seconds d <= 59)%Z.

(** ** Sample data *)

Module Sample.

Definition cfg0 : config :=
  {| smtp_from := None; SMTP_FROM := None;
     fax_gateway_email := Some "fax@gateway.example"; FAX_GATEWAY_EMAIL := None |}.

Definition albany : store :=
  {| st_storeNumber := "#023"; st_location := "Albany"; st_faxNumber := "15419243633" |}.

(** 2026-02-05T12:50:13.007Z *)
Definition now0 : JsDate.utc :=
  {| JsDate.year := 2026; JsDate.month := 2; JsDate.day := 5;
     JsDate.hours := 12; JsDate.minutes := 50; JsDate.seconds := 13;
     JsDate.millis := 7 |}.

(** 2026-02-05T12:50:13.940Z *)
Definition now1 : JsDate.utc :=
  {| JsDate.year := 2026; JsDate.month := 2; JsDate.day := 5;
     JsDate.hours := 12; JsDate.minutes := 50; JsDate.seconds := 13;
     JsDate.millis := 940 |}.

(** The error of the Firestore client for a path that is no document
    path, and a client that refuses [a/b] with it. *)
Definition dquote : ascii := "034"%char.
Definition quoted (s : string) : string := String dquote (s +:+ String dquote "").

Definition not_a_document (id : string) : string :=
  "Value for argument " +:+ quoted "documentPath"
  +:+ " must point to a document, but was " +:+ quoted id
  +:+ ". Your path does not contain an even number of components.".

Definition client_refusal (id : string) : option string :=
  if String.eqb id "a/b" then Some (not_a_document id) else None.

Definition env0 : env :=
  {| cfg := cfg0; stores := {["#023" := albany]}; now := now0;
     job_time := 100; log_time := 101; mail_failure := None;
     doc_refused := client_refusal |}.

Definition env1 : env :=
  {| cfg := cfg0; stores := {["#023" := albany]}; now := now1;
     job_time := 102; log_time := 103; mail_failure := None;
     doc_refused := client_refusal |}.

Definition env_rejecting : env :=
  {| cfg := cfg0; stores := {["#023" := albany]}; now := now0;
     job_time := 100; log_time := 101;
     mail_failure := Some "connect ECONNREFUSED";
     doc_refused := client_refusal |}.

Definition req_store : request :=
  {| method := "POST"; storeNumber := Some "#023"; faxNumber := None;
     pdfBase64 := Some "JVBERi0="; fileName := Some "Ack.pdf";
     type := Some "signed" |}.

Definition req_unknown_store : request :=
  {| method := "POST"; storeNumber := Some "#999"; faxNumber := None;
     pdfBase64 := Some "JVBERi0="; fileName := Some "Ack.pdf";
     type := Some "signed" |}.

Definition req_slash_store : request :=
  {| method := "POST"; storeNumber := Some "a/b"; faxNumber := None;
     pdfBase64 := Some "JVBERi0="; fileName := Some "Ack.pdf";
     type := Some "signed" |}.

Definition req_direct : request :=
  {| method := "POST"; storeNumber := None; faxNumber := Some "1 (555) 341-2222";
     pdfBase64 := Some "JVBERi0="; fileName := Some "Blank.pdf";
     type := None |}.

Definition tid0 : string := "WEB-20260205125013".

Definition notice (subject : string) : message :=
  {| msg_subject := subject; msg_text := "user@x.com|WEB-20260205125013." |}.

Definition msg_success : message := notice "FAXDONE:K1:Success".
Definition msg_pending : message := notice "FAXDONE:K1:Pending".
Definition msg_spaced : message := notice "FAXDONE: K1 :Success".
Definition msg_bogus : message := notice "FAXDONE:K1:Bogus".
Definition msg_two_notices : message := notice "FAXDONE:A:B FAXDONE:K1:Success".

(** The world in which the store job of the samples was created, and the
    one in which the webhook then reported it successful. *)
Definition w_created : world := world_of (sendFax env0 req_store empty_world).
Definition w_webhook : world :=
  world_of (applyWebhookUpdate 200 tid0 "Success" (Some "K1") w_created).

(** What the sample notices parse to. *)
Definition parsed (status : string) : completion :=
  {| c_faxKey := "K1"; c_status := status;
     c_requesterEmail := "user@x.com"; c_trackingId := tid0 |}.

Definition eugene : store :=
  {| st_storeNumber := "#005"; st_location := "Eugene"; st_faxNumber := "15415550105" |}.

(** A directory of two stores. *)
Definition env_two_stores : env :=
  {| cfg := cfg0; stores := {["#023" := albany; "#005" := eugene]}; now := now0;
     job_time := 100; log_time := 101; mail_failure := None;
     doc_refused := client_refusal |}.

Definition req_list : request :=
  {| method := "GET"; storeNumber := None; faxNumber := None;
     pdfBase64 := None; fileName := None; type := None |}.

(** The preflight request of a browser. *)
Definition req_preflight : request :=
  {| method := "OPTIONS"; storeNumber := None; faxNumber := None;
     pdfBase64 := None; fileName := None; type := None |}.

(** Requests that the handlers refuse. *)
Definition req_empty_name : request :=
  {| method := "POST"; storeNumber := Some "#023"; faxNumber := Some "15553412222";
     pdfBase64 := Some "JVBERi0="; fileName := Some "";
     type := Some "signed" |}.

Definition req_short : request :=
  {| method := "POST"; storeNumber := None; faxNumber := Some "555-1234";
     pdfBase64 := Some "JVBERi0="; fileName := Some "Blank.pdf";
     type := None |}.

(** [req_direct] with its fax number written as digits only. *)
Definition req_direct_digits : request :=
  {| method := "POST"; storeNumber := None; faxNumber := Some "15553412222";
     pdfBase64 := Some "JVBERi0="; fileName := Some "Blank.pdf";
     type := None |}.

(** A configuration whose [functions.config()] values are empty and whose
    environment variables name the sender, with no gateway anywhere. *)
Definition cfg_no_gateway : config :=
  {| smtp_from := Some ""; SMTP_FROM := Some "ack@corp.example";
     fax_gateway_email := None; FAX_GATEWAY_EMAIL := Some "" |}.

(** The same with the gateway in [FAX_GATEWAY_EMAIL]. *)
Definition cfg_from_env : config :=
  {| smtp_from := Some ""; SMTP_FROM := Some "ack@corp.example";
     fax_gateway_email := Some ""; FAX_GATEWAY_EMAIL := Some "fax@env.example" |}.

Definition env_no_gateway : env :=
  {| cfg := cfg_no_gateway; stores := {["#023" := albany]}; now := now0;
     job_time := 100; log_time := 101; mail_failure := None;
     doc_refused := client_refusal |}.

(** Messages that are not completion notices, or carry no tracking id. *)
Definition msg_other : message := notice "Out of office".
Definition msg_no_id : message :=
  {| msg_subject := "FAXDONE:K1:Success"; msg_text := "user@x.com" |}.

(** Store files for the seed script: one of two stores, one of two
    batches; and what [batch.commit()] does. *)
Definition store_file : list store := [albany; eugene].
Definition long_file : list store := replicate 500 albany ++ [eugene].
Definition every_commit_accepted : nat -> bool := fun _ => false.
Definition second_commit_rejected : nat -> bool := fun n => Nat.eqb n 1.

End Sample.

(** * Properties *)

(** ** Strings *)

Example trim_ex : Js.trim "  K1 " = "K1" /\ Js.trim "a b" = "a b" /\ Js.trim "   " = "".
Proof. repeat split. Qed.

Example split_ex : Js.split "|" "a|b||c" = ["a"; "b"; ""; "c"] /\ Js.split "|" "" = [""].
Proof. repeat split. Qed.

Example strip_tags_ex :
  Js.strip_tags "<p>user@x.com|<b>WEB-1</b>.</p> a < b" = "user@x.com|WEB-1. a < b".
Proof. reflexivity. Qed.

Example strip_final_period_ex :
  Js.strip_final_period "WEB-1.." = "WEB-1." /\ Js.strip_final_period "." = ""
  /\ Js.strip_final_period "WEB-1" = "WEB-1".
Proof. repeat split. Qed.

Example subject_match_ex :
  subject_match "Fwd: FAXDONE:20260205-125013:Success!" = Some ("20260205-125013", "Success")
  /\ subject_match "FAXDONE::x" = None
  /\ subject_match "FAXDONE:K1:" = None
  /\ subject_match "FAXDONE:FAXDONE:K:S" = Some ("FAXDONE", "K").
Proof. repeat split. Qed.

Example toISOString_ex :
  JsDate.toISOString Sample.now0 = "2026-02-05T12:50:13.007Z"
  /\ generateTrackingId Sample.now0 = "WEB-20260205125013".
Proof. split; reflexivity. Qed.

(** Beyond the year 9999 the expanded year keeps its sign through the
    replace, and the slice is no longer a run of digits. *)
Example expanded_year_ex :
  generateTrackingId
    {| JsDate.year := 10000; JsDate.month := 2; JsDate.day := 5;
       JsDate.hours := 12; JsDate.minutes := 50; JsDate.seconds := 13;
       JsDate.millis := 7 |}
  = "WEB-+0100000205125".
Proof. reflexivity. Qed.

Example parseCompletion_ex :
  parseCompletion
    {| msg_subject := "FAXDONE:K1:Success";
       msg_text := " <p>user@x.com | WEB-20260205125013. </p>" |}
  = Some {| c_faxKey := "K1"; c_status := "Success";
            c_requesterEmail := "user@x.com";
            c_trackingId := "WEB-20260205125013" |}.
Proof. reflexivity. Qed.

Lemma append_cons (c : ascii) (s t : string) :
  String c s +:+ t = String c (s +:+ t).
Proof. reflexivity. Qed.

Lemma append_empty (t : string) : "" +:+ t = t.
Proof. reflexivity. Qed.

Ltac norm_append := repeat (rewrite append_cons || rewrite append_empty).

Lemma truthy_nonempty (s : string) : s <> "" -> Js.truthy s = true.
Proof. destruct s; [congruence | reflexivity]. Qed.

Lemma truthy_true_nonempty (s : string) : Js.truthy s = true -> s <> "".
Proof. destruct s; [discriminate | congruence]. Qed.

(** ** The send handlers on valid requests *)

Ltac run_effects :=
  unfold try_catch, bind, jobs_set, jobs_set_merge, sendMail, log_add, ret, throw, emit;
  cbn [fst snd faxJobs fax_log trace].

Section ValidStoreSend.
Variables (e : env) (req : request) (w : world).
Variables (sn pdf fn gw : string) (st : store).
Hypothesis Hvalid : valid_store_request e req sn pdf fn st gw.

Lemma sendFax_valid :
  sendFax e req w =
    let trackingId := generateTrackingId (now e) in
    try_catch
      (let* _ := jobs_set trackingId
                   (pendingStoreJob (cfg e) trackingId sn (job_time e)) in
       let* _ := sendMail (mail_failure e)
                   (storeMail (cfg e) gw trackingId sn st fn pdf) in
       let* _ := log_add (storeLog e sn st fn (type req)) in
       ret {| code := 200;
              json := StoreSent ("Fax sent to " +:+ st_location st +:+ " (" +:+ sn +:+ ")")
                        trackingId (st_storeNumber st) (st_location st) |})
      (fun msg => ret {| code := 500; json := ErrorBody "Failed to send fax" (Some msg) |})
      w.
Proof.
  destruct Hvalid as (H1 & H2 & H3 & H4 & H5 & H6 & H7 & H8 & H9 & H10).
  unfold sendFax. rewrite H1, H2, H3, H4.
  rewrite (String.eqb_refl "POST"). cbn [negb].
  rewrite !truthy_nonempty by assumption. cbn [negb orb].
  rewrite H8, H9, truthy_nonempty by assumption. reflexivity.
Qed.
End ValidStoreSend.

Section ValidDirectSend.
Variables (e : env) (req : request) (w : world).
Variables (fx pdf fn gw : string).
Hypothesis Hvalid : valid_direct_request e req fx pdf fn gw.

Lemma sendFaxDirect_valid :
  sendFaxDirect e req w =
    let cleanFaxNumber := Js.filter_chars Js.is_digit fx in
    let trackingId := generateTrackingId (now e) in
    try_catch
      (let* _ := jobs_set trackingId
                   (pendingDirectJob (cfg e) trackingId cleanFaxNumber (job_time e)) in
       let* _ := sendMail (mail_failure e)
                   (directMail (cfg e) gw trackingId cleanFaxNumber fn pdf) in
       let* _ := log_add (directLog e cleanFaxNumber fn (type req)) in
       ret {| code := 200;
              json := DirectSent ("Fax sent to " +:+ cleanFaxNumber)
                        trackingId cleanFaxNumber |})
      (fun msg => ret {| code := 500; json := ErrorBody "Failed to send fax" (Some msg) |})
      w.
Proof.
  destruct Hvalid as (H1 & H2 & H3 & H4 & H5 & H6 & H7 & H8 & H9 & H10).
  unfold sendFaxDirect. rewrite H1, H2, H3, H4.
  rewrite (String.eqb_refl "POST"). cbn [negb].
  rewrite !truthy_nonempty by assumption. cbn [negb orb].
  apply Nat.ltb_ge in H8. rewrite H8.
  rewrite H9, truthy_nonempty by assumption. reflexivity.
Qed.
End ValidDirectSend.

Lemma pendingStoreJob_status c tid sn t :
  pendingStoreJob c tid sn t !! "status" = Some (VStr "Pending").
Proof. reflexivity. Qed.

Lemma pendingDirectJob_status c tid fx t :
  pendingDirectJob c tid fx t !! "status" = Some (VStr "Pending").
Proof. reflexivity. Qed.

(** Once the checks are passed, both handlers run the same three effects;
    the case split is on whether the transport delivers. *)
Ltac creation_first e :=
  unfold created_then_dispatched, world_of, result_of; run_effects;
  destruct (mail_failure e) as [err|]; cbn [fst snd faxJobs fax_log trace];
  repeat split;
  [ exists false, []; rewrite <- !app_assoc; split; [reflexivity | constructor]
  | unfold doc_set; apply lookup_insert_eq
  | intros resp t [= <-]; discriminate
  | eexists true, [_]; rewrite <- !app_assoc; split; [reflexivity | repeat constructor]
  | unfold doc_set; apply lookup_insert_eq
  | intros resp t [= <-] [= <-]; reflexivity ].

(** C3. For every valid send request, store or direct, the first effect
    of the handler is the creation of the job keyed by the freshly
    generated tracking id with status Pending; the dispatch of the email
    comes next, and nothing but the audit log follows.  A tracking id that
    the handler returns is the key of that job, which is still there and
    still Pending. *)
Theorem pending_job_created_before_dispatch (e : env) (w : world) :
  (forall req sn pdf fn st gw,
     valid_store_request e req sn pdf fn st gw ->
     let tid := generateTrackingId (now e) in
     let job := pendingStoreJob (cfg e) tid sn (job_time e) in
     let r := sendFax e req w in
     created_then_dispatched (trace w) (trace (world_of r)) tid job
       (storeMail (cfg e) gw tid sn st fn pdf) /\
     job !! "status" = Some (VStr "Pending") /\
     faxJobs (world_of r) !! tid = Some job /\
     forall resp t, result_of r = Done resp ->
       returned_trackingId resp = Some t -> t = tid)
  /\
  (forall req fx pdf fn gw,
     valid_direct_request e req fx pdf fn gw ->
     let tid := generateTrackingId (now e) in
     let job := pendingDirectJob (cfg e) tid (Js.filter_chars Js.is_digit fx) (job_time e) in
     let r := sendFaxDirect e req w in
     created_then_dispatched (trace w) (trace (world_of r)) tid job
       (directMail (cfg e) gw tid (Js.filter_chars Js.is_digit fx) fn pdf) /\
     job !! "status" = Some (VStr "Pending") /\
     faxJobs (world_of r) !! tid = Some job /\
     forall resp t, result_of r = Done resp ->
       returned_trackingId resp = Some t -> t = tid).
Proof.
  split.
  - intros req sn pdf fn st gw Hv tid job r. subst r.
    rewrite (sendFax_valid _ _ _ _ _ _ _ _ Hv). cbv zeta. fold tid. fold job.
    creation_first e.
  - intros req fx pdf fn gw Hv tid job r. subst r.
    rewrite (sendFaxDirect_valid _ _ _ _ _ _ _ Hv). cbv zeta. fold tid. fold job.
    creation_first e.
Qed.

(** ** The tracking id *)

Lemma digit_char_cases (n : Z) :
  In (JsDate.digit n)
     ["0"; "1"; "2"; "3"; "4"; "5"; "6"; "7"; "8"; "9"]%char.
Proof.
  unfold JsDate.digit. pose proof (Z.mod_pos_bound n 10 eq_refl) as Hb.
  assert (Hk : (n mod 10 = 0 \/ n mod 10 = 1 \/ n mod 10 = 2 \/ n mod 10 = 3
               \/ n mod 10 = 4 \/ n mod 10 = 5 \/ n mod 10 = 6 \/ n mod 10 = 7
               \/ n mod 10 = 8 \/ n mod 10 = 9)%Z) by lia.
  repeat (destruct Hk as [-> | Hk]; [cbn; tauto |]). rewrite Hk. cbn. tauto.
Qed.

Lemma digit_is_digit (n : Z) : Js.is_digit (JsDate.digit n) = true.
Proof.
  pose proof (digit_char_cases n) as H. cbn [In] in H.
  repeat (destruct H as [<- | H]; [reflexivity |]). destruct H.
Qed.

Lemma digit_not_separator (n : Z) : is_separator (JsDate.digit n) = false.
Proof.
  pose proof (digit_char_cases n) as H. cbn [In] in H.
  repeat (destruct H as [<- | H]; [reflexivity |]). destruct H.
Qed.

Lemma iso_year_four_digits (y : Z) :
  (0 <= y <= 9999)%Z -> JsDate.iso_year y = JsDate.pad4 y.
Proof.
  intros Hy. unfold JsDate.iso_year.
  destruct (Z.leb_spec 0 y); [| lia]. destruct (Z.leb_spec y 9999); [| lia].
  reflexivity.
Qed.

Lemma unseparate_digit (n : Z) (r : string) :
  Js.filter_chars (fun c => negb (is_separator c)) (String (JsDate.digit n) r)
  = String (JsDate.digit n) (Js.filter_chars (fun c => negb (is_separator c)) r).
Proof. cbn [Js.filter_chars]. rewrite digit_not_separator. reflexivity. Qed.

Lemma unseparate_separator (c : ascii) (r : string) :
  is_separator c = true ->
  Js.filter_chars (fun c => negb (is_separator c)) (String c r)
  = Js.filter_chars (fun c => negb (is_separator c)) r.
Proof. intros H. cbn [Js.filter_chars]. rewrite H. reflexivity. Qed.

Lemma unseparate_keep (c : ascii) (r : string) :
  is_separator c = false ->
  Js.filter_chars (fun c => negb (is_separator c)) (String c r)
  = String c (Js.filter_chars (fun c => negb (is_separator c)) r).
Proof. intros H. cbn [Js.filter_chars]. rewrite H. reflexivity. Qed.

Ltac unseparate :=
  norm_append;
  repeat match goal with
         | |- context [Js.filter_chars _ (String (JsDate.digit ?n) ?r)] =>
             rewrite (unseparate_digit n r)
         | |- context [Js.filter_chars _ (String ?c ?r)] =>
             first [ rewrite (unseparate_separator c r) by reflexivity
                   | rewrite (unseparate_keep c r) by reflexivity ]
         end.

Lemma generateTrackingId_stamp (d : JsDate.utc) :
  four_digit_year d -> generateTrackingId d = "WEB-" +:+ stamp14 d.
Proof.
  intros Hy. unfold generateTrackingId, JsDate.toISOString, stamp14.
  rewrite (iso_year_four_digits _ Hy).
  unfold JsDate.pad4, JsDate.pad3, JsDate.pad2. unseparate.
  cbv [Js.slice0 Js.filter_chars]. reflexivity.
Qed.

Lemma stamp14_is_14_digits (d : JsDate.utc) :
  String.length (stamp14 d) = 14%nat /\ Js.all_chars Js.is_digit (stamp14 d) = true.
Proof.
  unfold stamp14, JsDate.pad4, JsDate.pad3, JsDate.pad2. norm_append.
  cbn [String.length Js.all_chars].
  rewrite !digit_is_digit. split; reflexivity.
Qed.

Lemma is_tracking_id_stamp (d : JsDate.utc) :
  is_tracking_id ("WEB-" +:+ stamp14 d) = true.
Proof.
  unfold is_tracking_id. norm_append.
  change (Js.after_prefix "WEB-" (String "W" (String "E" (String "B" (String "-" (stamp14 d))))))
    with (Some (stamp14 d)).
  destruct (stamp14_is_14_digits d) as [-> ->]. reflexivity.
Qed.

Ltac finish_id :=
  cbn [fst snd]; intros [= <-]; cbn [returned_trackingId json]; congruence.

Lemma sendFax_returns_generated_id (e : env) (req : request) (w : world)
    (resp : response) (t : string) :
  result_of (sendFax e req w) = Done resp ->
  returned_trackingId resp = Some t ->
  t = generateTrackingId (now e).
Proof.
  unfold sendFax, result_of. run_effects.
  destruct (negb _); [finish_id |].
  destruct (storeNumber req) as [sn|]; [| finish_id].
  destruct (pdfBase64 req); [| finish_id].
  destruct (fileName req); [| finish_id].
  destruct (_ || _); [finish_id |].
  destruct (stores e !! sn); [| destruct (doc_refused e sn); finish_id].
  destruct (getFaxGatewayEmail (cfg e)); [| finish_id].
  destruct (negb _); [finish_id |].
  destruct (mail_failure e); finish_id.
Qed.

Lemma sendFaxDirect_returns_generated_id (e : env) (req : request) (w : world)
    (resp : response) (t : string) :
  result_of (sendFaxDirect e req w) = Done resp ->
  returned_trackingId resp = Some t ->
  t = generateTrackingId (now e).
Proof.
  unfold sendFaxDirect, result_of. run_effects.
  destruct (negb _); [finish_id |].
  destruct (faxNumber req) as [fx|]; [| finish_id].
  destruct (pdfBase64 req); [| finish_id].
  destruct (fileName req); [| finish_id].
  destruct (_ || _); [finish_id |].
  destruct (Nat.ltb _ _); [finish_id |].
  destruct (getFaxGatewayEmail (cfg e)); [| finish_id].
  destruct (negb _); [finish_id |].
  destruct (mail_failure e); finish_id.
Qed.

(** C4. The tracking id that [sendFax] and [sendFaxDirect] return is
    [WEB-] followed by the fourteen digits [YYYYMMDDHHMMSS] of the UTC
    instant read by [new Date()], so it matches [^WEB-\d{14}$]: a valid
    request whose mail is delivered returns exactly that id, and no
    response of either handler carries any other.  The year of the instant
    is taken to have four digits. *)
Theorem returned_trackingId_format (e : env) (w : world) :
  four_digit_year (now e) ->
  let tid := "WEB-" +:+ stamp14 (now e) in
  String.length (stamp14 (now e)) = 14%nat /\
  Js.all_chars Js.is_digit (stamp14 (now e)) = true /\
  is_tracking_id tid = true /\
  (forall req sn pdf fn st gw,
     valid_store_request e req sn pdf fn st gw -> mail_failure e = None ->
     exists resp, result_of (sendFax e req w) = Done resp /\
                  code resp = 200%nat /\ returned_trackingId resp = Some tid) /\
  (forall req fx pdf fn gw,
     valid_direct_request e req fx pdf fn gw -> mail_failure e = None ->
     exists resp, result_of (sendFaxDirect e req w) = Done resp /\
                  code resp = 200%nat /\ returned_trackingId resp = Some tid) /\
  (forall req resp t,
     result_of (sendFax e req w) = Done resp \/
     result_of (sendFaxDirect e req w) = Done resp ->
     returned_trackingId resp = Some t -> t = tid).
Proof.
  intros Hy tid. destruct (stamp14_is_14_digits (now e)) as [Hl Hd].
  pose proof (generateTrackingId_stamp _ Hy) as Hg. fold tid in Hg.
  split; [exact Hl |]. split; [exact Hd |].
  split; [apply is_tracking_id_stamp |]. split; [| split].
  - intros req sn pdf fn st gw Hv Hm.
    rewrite (sendFax_valid _ _ _ _ _ _ _ _ Hv). cbv zeta.
    unfold result_of. run_effects. rewrite Hm, Hg. cbn [fst].
    eexists. split; [reflexivity |]. split; reflexivity.
  - intros req fx pdf fn gw Hv Hm.
    rewrite (sendFaxDirect_valid _ _ _ _ _ _ _ Hv). cbv zeta.
    unfold result_of. run_effects. rewrite Hm, Hg. cbn [fst].
    eexists. split; [reflexivity |]. split; reflexivity.
  - intros req resp t Hr Ht. rewrite <- Hg.
    destruct Hr as [Hr | Hr];
      eauto using sendFax_returns_generated_id, sendFaxDirect_returns_generated_id.
Qed.

(** ** Failures *)

(** C6. When the mail transport rejects the dispatch of a valid send
    request, store or direct, the caller gets status 500 with the body
    [{error: 'Failed to send fax', details}] carrying the transport's
    message; the job created just before is the only change to [faxJobs],
    its status is Pending, and the handler performs no further effect: no
    delete, no rewrite, no audit-log entry. *)
Theorem dispatch_failure_leaves_pending_job (e : env) (w : world) (err : string) :
  mail_failure e = Some err ->
  (forall req sn pdf fn st gw,
     valid_store_request e req sn pdf fn st gw ->
     let tid := generateTrackingId (now e) in
     let job := pendingStoreJob (cfg e) tid sn (job_time e) in
     let r := sendFax e req w in
     result_of r = Done {| code := 500; json := ErrorBody "Failed to send fax" (Some err) |} /\
     faxJobs (world_of r) = <[tid := job]> (faxJobs w) /\
     field (faxJobs (world_of r)) tid "status" = Some (VStr "Pending") /\
     fax_log (world_of r) = fax_log w /\
     trace (world_of r) =
       trace w ++ [EvJobSet tid job;
                   EvSendMail (storeMail (cfg e) gw tid sn st fn pdf) false])
  /\
  (forall req fx pdf fn gw,
     valid_direct_request e req fx pdf fn gw ->
     let tid := generateTrackingId (now e) in
     let clean := Js.filter_chars Js.is_digit fx in
     let job := pendingDirectJob (cfg e) tid clean (job_time e) in
     let r := sendFaxDirect e req w in
     result_of r = Done {| code := 500; json := ErrorBody "Failed to send fax" (Some err) |} /\
     faxJobs (world_of r) = <[tid := job]> (faxJobs w) /\
     field (faxJobs (world_of r)) tid "status" = Some (VStr "Pending") /\
     fax_log (world_of r) = fax_log w /\
     trace (world_of r) =
       trace w ++ [EvJobSet tid job;
                   EvSendMail (directMail (cfg e) gw tid clean fn pdf) false]).
Proof.
  intros Hm. split.
  - intros req sn pdf fn st gw Hv tid job r. subst r.
    rewrite (sendFax_valid _ _ _ _ _ _ _ _ Hv). cbv zeta. fold tid. fold job.
    unfold world_of, result_of, field. run_effects. rewrite Hm.
    cbn [fst snd faxJobs fax_log trace]. unfold doc_set.
    rewrite lookup_insert_eq, <- app_assoc. repeat split.
  - intros req fx pdf fn gw Hv tid clean job r. subst r.
    rewrite (sendFaxDirect_valid _ _ _ _ _ _ _ Hv). cbv zeta. fold tid. fold clean. fold job.
    unfold world_of, result_of, field. run_effects. rewrite Hm.
    cbn [fst snd faxJobs fax_log trace]. unfold doc_set.
    rewrite lookup_insert_eq, <- app_assoc. repeat split.
Qed.

(** C7. A store-send request whose store number is not in the directory
    changes nothing: no job record is created, no mail is sent, nothing is
    logged.  When it is a POST carrying the three required fields, the
    response is 404 with the error [Store <storeNumber> not found] if the
    Firestore client takes the store number for the id of a document, and
    500 [Failed to send fax], with the message of the client's error as
    details, if the client refuses the store number. *)
Theorem unknown_store_creates_no_job (e : env) (req : request) (w : world) :
  (forall sn, storeNumber req = Some sn -> stores e !! sn = None) ->
  world_of (sendFax e req w) = w /\
  forall sn pdf fn,
    method req = "POST" ->
    storeNumber req = Some sn -> pdfBase64 req = Some pdf -> fileName req = Some fn ->
    sn <> "" -> pdf <> "" -> fn <> "" ->
    (doc_refused e sn = None ->
     result_of (sendFax e req w) =
       Done {| code := 404; json := ErrorBody ("Store " +:+ sn +:+ " not found") None |}) /\
    (forall msg, doc_refused e sn = Some msg ->
     result_of (sendFax e req w) =
       Done {| code := 500; json := ErrorBody "Failed to send fax" (Some msg) |}).
Proof.
  intros Habsent. split.
  - unfold sendFax, world_of. run_effects.
    destruct (negb _); [reflexivity |].
    destruct (storeNumber req) as [sn|]; [| reflexivity].
    destruct (pdfBase64 req); [| reflexivity].
    destruct (fileName req); [| reflexivity].
    destruct (_ || _); [reflexivity |].
    rewrite (Habsent sn eq_refl). destruct (doc_refused e sn); reflexivity.
  - intros sn pdf fn H1 H2 H3 H4 H5 H6 H7.
    unfold sendFax, result_of. run_effects. rewrite H1, H2, H3, H4.
    rewrite (String.eqb_refl "POST"). cbn [negb].
    rewrite !truthy_nonempty by assumption. cbn [negb orb].
    rewrite (Habsent sn H2). split.
    + intros ->. reflexivity.
    + intros msg ->. reflexivity.
Qed.

(** ** Colliding tracking ids *)

(** The tracking id does not depend on the milliseconds. *)
Lemma same_second_same_id (d1 d2 : JsDate.utc) :
  same_second d1 d2 -> generateTrackingId d1 = generateTrackingId d2.
Proof.
  intros (Hy & Hmo & Hd & Hh & Hmi & Hs).
  unfold generateTrackingId, JsDate.toISOString. rewrite Hy, Hmo, Hd, Hh, Hmi, Hs.
  unfold JsDate.iso_year, JsDate.pad6, JsDate.pad4, JsDate.pad3, JsDate.pad2.
  destruct (_ && _); [| destruct (_ <? _)%Z];
    unseparate; cbv [Js.slice0 Js.filter_chars]; reflexivity.
Qed.

Lemma sendFax_jobs (e : env) (req : request) (w : world) sn pdf fn st gw :
  valid_store_request e req sn pdf fn st gw ->
  faxJobs (world_of (sendFax e req w)) =
    <[generateTrackingId (now e) :=
        pendingStoreJob (cfg e) (generateTrackingId (now e)) sn (job_time e)]> (faxJobs w).
Proof.
  intros Hv. rewrite (sendFax_valid _ _ _ _ _ _ _ _ Hv). cbv zeta.
  unfold world_of. run_effects. destruct (mail_failure e); reflexivity.
Qed.

Lemma sendFaxDirect_jobs (e : env) (req : request) (w : world) fx pdf fn gw :
  valid_direct_request e req fx pdf fn gw ->
  faxJobs (world_of (sendFaxDirect e req w)) =
    <[generateTrackingId (now e) :=
        pendingDirectJob (cfg e) (generateTrackingId (now e))
          (Js.filter_chars Js.is_digit fx) (job_time e)]> (faxJobs w).
Proof.
  intros Hv. rewrite (sendFaxDirect_valid _ _ _ _ _ _ _ Hv). cbv zeta.
  unfold world_of. run_effects. destruct (mail_failure e); reflexivity.
Qed.

(** C10. Creation is a replacement, not a merge: whatever was stored
    under the tracking id, after a valid send the record is exactly the new
    job.  Two valid send requests, one to a store and one direct, issued
    within the same clock second get the same tracking id, so the second
    creation erases the record of the first: after a store send followed
    by a direct send the record has no [storeNumber], and after a direct
    send followed by a store send it has no [faxNumber]. *)
Theorem colliding_send_replaces_job (e1 e2 : env) (w : world) (rs rd : request)
    (sn pdf1 fn1 gw1 fx pdf2 fn2 gw2 : string) (st : store) :
  same_second (now e1) (now e2) ->
  valid_store_request e1 rs sn pdf1 fn1 st gw1 ->
  valid_direct_request e2 rd fx pdf2 fn2 gw2 ->
  let tid := generateTrackingId (now e1) in
  let clean := Js.filter_chars Js.is_digit fx in
  generateTrackingId (now e2) = tid /\
  (forall w', faxJobs (world_of (sendFax e1 rs w')) !! tid
              = Some (pendingStoreJob (cfg e1) tid sn (job_time e1))) /\
  (forall w', faxJobs (world_of (sendFaxDirect e2 rd w')) !! tid
              = Some (pendingDirectJob (cfg e2) tid clean (job_time e2))) /\
  (let w1 := world_of (sendFax e1 rs w) in
   let w2 := world_of (sendFaxDirect e2 rd w1) in
   field (faxJobs w1) tid "storeNumber" = Some (VStr sn) /\
   field (faxJobs w2) tid "storeNumber" = None /\
   field (faxJobs w2) tid "faxNumber" = Some (VStr clean)) /\
  (let w1 := world_of (sendFaxDirect e2 rd w) in
   let w2 := world_of (sendFax e1 rs w1) in
   field (faxJobs w1) tid "faxNumber" = Some (VStr clean) /\
   field (faxJobs w2) tid "faxNumber" = None /\
   field (faxJobs w2) tid "storeNumber" = Some (VStr sn)).
Proof.
  intros Hsame Hs Hd tid clean.
  assert (Hid : generateTrackingId (now e2) = tid)
    by (symmetry; apply same_second_same_id, Hsame).
  split; [exact Hid |]. cbv zeta. unfold field.
  split; [| split].
  - intros w'. rewrite (sendFax_jobs _ _ _ _ _ _ _ _ Hs). apply lookup_insert_eq.
  - intros w'. rewrite (sendFaxDirect_jobs _ _ _ _ _ _ _ Hd), Hid.
    apply lookup_insert_eq.
  - rewrite !(sendFax_jobs _ _ _ _ _ _ _ _ Hs), !(sendFaxDirect_jobs _ _ _ _ _ _ _ Hd).
    rewrite Hid. fold tid. fold clean.
    rewrite !lookup_insert_eq. repeat split.
Qed.

(** ** Merge-writes *)

Lemma field_doc_set (c : collection) (k k' name : string) (data : document) :
  field (doc_set k data c) k' name =
    if decide (k = k') then data !! name else field c k' name.
Proof.
  unfold field, doc_set. rewrite lookup_insert. case_decide; reflexivity.
Qed.

Lemma field_doc_set_merge (c : collection) (k k' name : string) (data : document) :
  field (doc_set_merge k data c) k' name =
    if decide (k = k') then
      match data !! name with
      | Some v => Some v
      | None => field c k' name
      end
    else field c k' name.
Proof.
  unfold field, doc_set_merge. rewrite lookup_insert. case_decide; [| reflexivity].
  subst k'. simpl. rewrite lookup_union.
  destruct (data !! name) as [v|] eqn:Hd.
  - destruct (default ∅ (c !! k) !! name); reflexivity.
  - destruct (c !! k) as [d|]; simpl.
    + destruct (d !! name); reflexivity.
    + rewrite lookup_empty. reflexivity.
Qed.

Lemma doc_set_merge_commute (k1 k2 : string) (d1 d2 : document) (c : collection) :
  k1 <> k2 ->
  doc_set_merge k1 d1 (doc_set_merge k2 d2 c)
  = doc_set_merge k2 d2 (doc_set_merge k1 d1 c).
Proof.
  intros Hne. unfold doc_set_merge.
  rewrite !lookup_insert_ne by congruence. apply insert_insert_ne. congruence.
Qed.

(** ** monitorFaxStatus *)

(** What one message does to [faxJobs]. *)
Lemma processMessage_jobs (t_key t_track : Z) (m : message) (w : world) :
  jobs_after (processMessage t_key t_track m) w =
    match parseCompletion m with
    | None => faxJobs w
    | Some p =>
        let c1 := doc_set_merge (c_faxKey p) (updateByFaxKey p t_key) (faxJobs w) in
        if Js.truthy (c_trackingId p) then
          doc_set_merge (c_trackingId p) (updateByTrackingId p t_track) c1
        else c1
    end.
Proof.
  unfold jobs_after, processMessage. run_effects.
  destruct (parseCompletion m) as [p|]; [| reflexivity].
  cbn [fst snd faxJobs]. destruct (Js.truthy (c_trackingId p)); reflexivity.
Qed.

Lemma processMessage_done (t_key t_track : Z) (m : message) (w : world) :
  result_of (processMessage t_key t_track m w) = Done tt.
Proof.
  unfold result_of, processMessage. run_effects.
  destruct (parseCompletion m) as [p|]; [| reflexivity].
  cbn [fst snd]. destruct (Js.truthy (c_trackingId p)); reflexivity.
Qed.

Lemma updateByFaxKey_lookup (p : completion) (t : Z) :
  updateByFaxKey p t !! "faxKey" = Some (VStr (c_faxKey p)) /\
  updateByFaxKey p t !! "status" = Some (VStr (c_status p)) /\
  updateByFaxKey p t !! "requesterEmail" = Some (VStr (c_requesterEmail p)) /\
  updateByFaxKey p t !! "trackingId" = None.
Proof. repeat split. Qed.

Lemma updateByTrackingId_lookup (p : completion) (t : Z) :
  updateByTrackingId p t !! "faxKey" = Some (VStr (c_faxKey p)) /\
  updateByTrackingId p t !! "status" = Some (VStr (c_status p)) /\
  updateByTrackingId p t !! "requesterEmail" = Some (VStr (c_requesterEmail p)) /\
  updateByTrackingId p t !! "trackingId" = Some (VStr (c_trackingId p)).
Proof. repeat split. Qed.

(** *** The status token *)

Lemma word_not_space (c : ascii) : Js.is_word c = true -> Js.is_space c = false.
Proof.
  destruct c as [[] [] [] [] [] [] [] []]; vm_compute; congruence.
Qed.

Lemma trim_start_word (s : string) :
  Js.all_chars Js.is_word s = true -> Js.trim_start s = s.
Proof.
  destruct s as [| c r]; [reflexivity |]. cbn [Js.all_chars Js.trim_start].
  intros [Hc _]%andb_prop. rewrite (word_not_space _ Hc). reflexivity.
Qed.

Lemma trim_end_word (s : string) :
  Js.all_chars Js.is_word s = true -> Js.trim_end s = s.
Proof.
  induction s as [| c r IH]; [reflexivity |]. cbn [Js.all_chars Js.trim_end].
  intros [Hc Hr]%andb_prop. rewrite (IH Hr), (word_not_space _ Hc). reflexivity.
Qed.

Lemma trim_word (s : string) :
  Js.all_chars Js.is_word s = true -> Js.trim s = s.
Proof.
  intros H. unfold Js.trim. rewrite (trim_start_word _ H). apply trim_end_word, H.
Qed.

Lemma span_all (p : ascii -> bool) (s : string) :
  Js.all_chars p (fst (Js.span p s)) = true.
Proof.
  induction s as [| c r IH]; [reflexivity |]. cbn [Js.span].
  destruct (p c) eqn:Hc; [| reflexivity].
  destruct (Js.span p r) as [a b]. cbn [fst Js.all_chars] in *.
  rewrite Hc, IH. reflexivity.
Qed.

Lemma match_here_word (s g1 g2 : string) :
  match_here s = Some (g1, g2) -> is_status_word g2 = true.
Proof.
  unfold match_here. destruct (Js.after_prefix _ s) as [r|]; [| discriminate].
  destruct (Js.span _ r) as [k r1]. destruct (Js.is_empty k); [discriminate |].
  destruct r1 as [| c r2]; [discriminate |].
  destruct (Ascii.eqb c ":"); [| discriminate].
  pose proof (span_all Js.is_word r2) as Hall.
  destruct (Js.span Js.is_word r2) as [g rest]. cbn [fst] in Hall.
  destruct (Js.is_empty g) eqn:He; [discriminate |]. intros [= <- <-].
  unfold is_status_word, Js.truthy. rewrite He, Hall. reflexivity.
Qed.

Lemma subject_match_word (s g1 g2 : string) :
  subject_match s = Some (g1, g2) -> is_status_word g2 = true.
Proof.
  induction s as [| c r IH]; cbn [subject_match].
  - destruct (match_here "") as [[a b]|] eqn:Hm; [| discriminate].
    intros [= <- <-]. eapply match_here_word, Hm.
  - destruct (match_here (String c r)) as [[a b]|] eqn:Hm; [| exact IH].
    intros [= <- <-]. eapply match_here_word, Hm.
Qed.

Lemma parseCompletion_status_word (m : message) (p : completion) :
  parseCompletion m = Some p -> is_status_word (c_status p) = true.
Proof.
  unfold parseCompletion.
  destruct (subject_match (msg_subject m)) as [[g1 g2]|] eqn:Hm; [| discriminate].
  intros [= <-]. cbn [c_status].
  pose proof (subject_match_word _ _ _ Hm) as Hw.
  unfold is_status_word in Hw. apply andb_prop in Hw as [_ Hall].
  rewrite (trim_word _ Hall). eapply subject_match_word, Hm.
Qed.

(** The pattern on a subject that is exactly a completion notice. *)
Lemma span_append (p : ascii -> bool) (a b : string) :
  Js.all_chars p a = true ->
  match b with EmptyString => True | String c _ => p c = false end ->
  Js.span p (a +:+ b) = (a, b).
Proof.
  intros Ha Hb. induction a as [| c r IH].
  - rewrite append_empty. destruct b as [| c r]; [reflexivity |].
    cbn [Js.span]. rewrite Hb. reflexivity.
  - cbn [Js.all_chars] in Ha. apply andb_prop in Ha as [Hc Hr].
    rewrite append_cons. cbn [Js.span]. rewrite Hc, (IH Hr). reflexivity.
Qed.

Lemma subject_match_notice (K S rest : string) :
  K <> "" -> Js.all_chars (fun c => negb (Ascii.eqb c ":")) K = true ->
  S <> "" -> Js.all_chars Js.is_word S = true ->
  match rest with EmptyString => True | String c _ => Js.is_word c = false end ->
  subject_match ("FAXDONE:" +:+ K +:+ ":" +:+ S +:+ rest) = Some (K, S).
Proof.
  intros HK HKc HS HSw Hrest.
  assert (Hm : match_here ("FAXDONE:" +:+ K +:+ ":" +:+ S +:+ rest) = Some (K, S)).
  { unfold match_here. norm_append.
    change (Js.after_prefix "FAXDONE:" ?s) with (Some (K +:+ String ":" (S +:+ rest))).
    cbv beta iota. rewrite (span_append _ K _ HKc) by reflexivity.
    destruct K; [congruence |]. cbv beta iota delta [Js.is_empty].
    rewrite (Ascii.eqb_refl ":"), (span_append _ S _ HSw Hrest).
    destruct S; [congruence |]. reflexivity. }
  destruct ("FAXDONE:" +:+ K +:+ ":" +:+ S +:+ rest); cbn [subject_match];
    rewrite Hm; reflexivity.
Qed.

(** *** Status *)

Lemma truthy_false_empty (s : string) : Js.truthy s = false -> s = "".
Proof. destruct s; [reflexivity | discriminate]. Qed.

(** C1, as the code has it.  A polled update whose keys are plain
    document ids writes the status carried by the message over the stored
    one, whatever the stored one is: on the record keyed by the fax key,
    and on the record keyed by the tracking id when that is not empty, the
    status after processing is the status of the message. *)
Theorem polled_update_overwrites_status (t_key t_track : Z) (m : message)
    (p : completion) (w : world) (k : string) :
  parseCompletion m = Some p ->
  plain_completion p ->
  k = c_faxKey p \/ (k = c_trackingId p /\ k <> "") ->
  field (jobs_after (processMessage t_key t_track m) w) k "status"
  = Some (VStr (c_status p)).
Proof.
  intros Hp _ Hk. rewrite processMessage_jobs, Hp. cbv zeta.
  destruct (Js.truthy (c_trackingId p)) eqn:Ht.
  - rewrite !field_doc_set_merge.
    destruct (updateByFaxKey_lookup p t_key) as (_ & -> & _).
    destruct (updateByTrackingId_lookup p t_track) as (_ & -> & _).
    repeat case_decide; try reflexivity. destruct Hk as [-> | [-> _]]; congruence.
  - rewrite field_doc_set_merge.
    destruct (updateByFaxKey_lookup p t_key) as (_ & -> & _).
    case_decide; [reflexivity |].
    destruct Hk as [-> | [-> Hne]]; [congruence |].
    apply truthy_false_empty in Ht. congruence.
Qed.

(** *** Both records of a completion notice *)

Lemma or_default_empty (s : string) : Js.or_default (Some s) "" = s.
Proof. destruct s; reflexivity. Qed.

Lemma polled_updates_other_field (p : completion) (t : Z) (name : string) :
  name ∉ polled_fields ->
  updateByFaxKey p t !! name = None /\ updateByTrackingId p t !! name = None.
Proof.
  intros Hn. unfold polled_fields in Hn.
  split; apply not_elem_of_list_to_map_1; cbn [fmap list_fmap fst];
    intros Hin; apply Hn; revert Hin; rewrite !elem_of_cons; tauto.
Qed.

(** C2, as the code has it.  When the pattern finds the groups [K] and
    [S] in the subject and the first line of the body, tags stripped,
    splits on [|] into [E], [T] and possibly more, and [K] trimmed is a
    plain document id, as is [T], trimmed and without one final period,
    unless it is empty: the record keyed by [K] trimmed gets [faxKey] =
    [K] trimmed and [status] = [S]; and when [T], trimmed and without one
    final period, is not empty, the record under that key gets the same
    [faxKey] and [status] and that [trackingId].  The writes are merges:
    no other field of any record changes, and no record under another key
    changes at all. *)
Theorem polled_completion_writes_both_records (t_key t_track : Z) (m : message)
    (w : world) (K S E T : string) (more : list string) :
  subject_match (msg_subject m) = Some (K, S) ->
  Js.split "|" (cleanLineOf (msg_text m)) = E :: T :: more ->
  let key := Js.trim K in
  let tid := Js.strip_final_period (Js.trim T) in
  let jobs := jobs_after (processMessage t_key t_track m) w in
  plain_id key = true -> (tid = "" \/ plain_id tid = true) ->
  field jobs key "faxKey" = Some (VStr key) /\
  field jobs key "status" = Some (VStr S) /\
  (tid <> "" ->
   field jobs tid "faxKey" = Some (VStr key) /\
   field jobs tid "trackingId" = Some (VStr tid) /\
   field jobs tid "status" = Some (VStr S)) /\
  (forall k name, name ∉ polled_fields ->
     field jobs k name = field (faxJobs w) k name) /\
  (forall k, k <> key -> k <> tid -> jobs !! k = faxJobs w !! k).
Proof.
  intros Hs Hb key tid jobs _ _.
  pose proof (subject_match_word _ _ _ Hs) as Hw.
  apply andb_prop in Hw as [_ Hw].
  assert (Hp : parseCompletion m =
               Some {| c_faxKey := key; c_status := S;
                       c_requesterEmail := Js.trim E; c_trackingId := tid |}).
  { unfold parseCompletion. rewrite Hs, Hb. cbn [lookup list_lookup].
    rewrite !or_default_empty, (trim_word _ Hw). reflexivity. }
  subst jobs. rewrite processMessage_jobs, Hp. cbv zeta. cbn [c_faxKey c_trackingId].
  destruct (Js.truthy tid) eqn:Ht.
  - split; [| split; [| split; [| split]]].
    + rewrite !field_doc_set_merge. repeat case_decide; reflexivity || congruence.
    + rewrite !field_doc_set_merge. repeat case_decide; reflexivity || congruence.
    + intros _. rewrite !field_doc_set_merge.
      repeat case_decide; repeat split; reflexivity || congruence.
    + intros k name Hn. rewrite !field_doc_set_merge.
      destruct (polled_updates_other_field
                  {| c_faxKey := key; c_status := S;
                     c_requesterEmail := Js.trim E; c_trackingId := tid |}
                  t_key name Hn) as [-> _].
      destruct (polled_updates_other_field
                  {| c_faxKey := key; c_status := S;
                     c_requesterEmail := Js.trim E; c_trackingId := tid |}
                  t_track name Hn) as [_ ->].
      repeat case_decide; reflexivity.
    + intros k Hk1 Hk2. unfold doc_set_merge.
      rewrite !lookup_insert_ne by congruence. reflexivity.
  - apply truthy_false_empty in Ht.
    split; [| split; [| split; [| split]]].
    + rewrite !field_doc_set_merge. repeat case_decide; reflexivity || congruence.
    + rewrite !field_doc_set_merge. repeat case_decide; reflexivity || congruence.
    + congruence.
    + intros k name Hn. rewrite !field_doc_set_merge.
      destruct (polled_updates_other_field
                  {| c_faxKey := key; c_status := S;
                     c_requesterEmail := Js.trim E; c_trackingId := tid |}
                  t_key name Hn) as [-> _].
      case_decide; reflexivity.
    + intros k Hk1 Hk2. unfold doc_set_merge.
      rewrite !lookup_insert_ne by congruence. reflexivity.
Qed.

(** *** Replay *)

Lemma doc_set_merge_fuse (k : string) (d1 d2 : document) (c : collection) :
  doc_set_merge k d2 (doc_set_merge k d1 c) = doc_set_merge k (d2 ∪ d1) c.
Proof.
  unfold doc_set_merge. rewrite lookup_insert_eq, insert_insert_eq. simpl.
  rewrite (assoc_L (∪)). reflexivity.
Qed.

Lemma updateByFaxKey_again (p : completion) (t t' : Z) :
  updateByFaxKey p t' ∪ updateByFaxKey p t = updateByFaxKey p t'.
Proof. reflexivity. Qed.

Lemma updateByTrackingId_again (p : completion) (t t' : Z) :
  updateByTrackingId p t' ∪ updateByTrackingId p t = updateByTrackingId p t'.
Proof. reflexivity. Qed.

Lemma same_up_to_updatedAt_refl (c : collection) : same_up_to_updatedAt c c.
Proof. intros k. reflexivity. Qed.

Lemma doc_set_merge_same_up_to (k : string) (d d' : document) (c c' : collection) :
  delete "updatedAt" d = delete "updatedAt" d' ->
  same_up_to_updatedAt c c' ->
  same_up_to_updatedAt (doc_set_merge k d c) (doc_set_merge k d' c').
Proof.
  intros Hd Hc k'. unfold doc_set_merge. rewrite !lookup_insert.
  case_decide; [| apply Hc]. simpl. f_equal.
  rewrite !delete_union, Hd. f_equal.
  specialize (Hc k). destruct (c !! k), (c' !! k); simpl in *; congruence.
Qed.

Lemma updateByFaxKey_less_time (p : completion) (t t' : Z) :
  delete "updatedAt" (updateByFaxKey p t) = delete "updatedAt" (updateByFaxKey p t').
Proof. reflexivity. Qed.

Lemma updateByTrackingId_less_time (p : completion) (t t' : Z) :
  delete "updatedAt" (updateByTrackingId p t)
  = delete "updatedAt" (updateByTrackingId p t').
Proof. reflexivity. Qed.

(** C5. Processing a completion message a second time leaves [faxJobs]
    exactly as one processing leaves it: the state after the replay is the
    state that processing the message once, at the time of the replay,
    produces from the original collection, and it agrees on every field
    except the server timestamp [updatedAt] with the state after the first
    processing. *)
Theorem replay_is_idempotent (t1 t2 t3 t4 : Z) (m : message) (w : world) :
  let once := jobs_after (processMessage t1 t2 m) w in
  let twice :=
    jobs_after (processMessage t3 t4 m) (world_of (processMessage t1 t2 m w)) in
  twice = jobs_after (processMessage t3 t4 m) w /\
  same_up_to_updatedAt twice once.
Proof.
  cbv zeta.
  assert (H1 : jobs_after (processMessage t3 t4 m) (world_of (processMessage t1 t2 m w))
               = jobs_after (processMessage t3 t4 m) w).
  { rewrite (processMessage_jobs t3 t4 m (world_of _)).
    change (faxJobs (world_of (processMessage t1 t2 m w)))
      with (jobs_after (processMessage t1 t2 m) w).
    rewrite !processMessage_jobs.
    destruct (parseCompletion m) as [p|]; [| reflexivity]. cbv zeta.
    destruct (Js.truthy (c_trackingId p)).
    - destruct (decide (c_faxKey p = c_trackingId p)) as [He | Hne].
      + rewrite He, !doc_set_merge_fuse.
        apply (f_equal (fun d => doc_set_merge _ d _)). reflexivity.
      + rewrite (doc_set_merge_commute (c_faxKey p) (c_trackingId p)) by exact Hne.
        rewrite (doc_set_merge_fuse (c_trackingId p)), updateByTrackingId_again.
        rewrite (doc_set_merge_fuse (c_faxKey p)), updateByFaxKey_again.
        reflexivity.
    - rewrite doc_set_merge_fuse, updateByFaxKey_again. reflexivity. }
  split; [exact H1 |]. rewrite H1, !processMessage_jobs.
  destruct (parseCompletion m) as [p|]; [| apply same_up_to_updatedAt_refl].
  cbv zeta. destruct (Js.truthy (c_trackingId p));
    repeat (apply doc_set_merge_same_up_to);
    auto using updateByFaxKey_less_time, updateByTrackingId_less_time,
      same_up_to_updatedAt_refl.
Qed.

(** *** The requester *)

Lemma pendingStoreJob_requester c tid sn t :
  pendingStoreJob c tid sn t !! "requesterEmail" = Some (VStr (getFromEmail c)).
Proof. reflexivity. Qed.

Lemma pendingDirectJob_requester c tid fx t :
  pendingDirectJob c tid fx t !! "requesterEmail" = Some (VStr (getFromEmail c)).
Proof. reflexivity. Qed.

Ltac touched_or_not :=
  match goal with
  | H : ~ (_ \/ _) |- _ =>
      apply H; first [left; congruence | right; split; congruence]
  | H : _ \/ _ |- _ => destruct H as [? | [? ?]]; congruence
  end.

(** C8, as the code has it.  A job is created with [requesterEmail] set
    to the configured sender address.  A polled update whose keys are plain
    document ids then writes the requester named in the message body over
    it, on the record keyed by the fax key and on the one keyed by the
    non-empty tracking id; on every other record [requesterEmail] is left
    as it was. *)
Theorem polled_update_rewrites_requesterEmail (w : world) :
  (forall e req sn pdf fn st gw,
     valid_store_request e req sn pdf fn st gw ->
     field (faxJobs (world_of (sendFax e req w))) (generateTrackingId (now e))
       "requesterEmail" = Some (VStr (getFromEmail (cfg e))))
  /\
  (forall e req fx pdf fn gw,
     valid_direct_request e req fx pdf fn gw ->
     field (faxJobs (world_of (sendFaxDirect e req w))) (generateTrackingId (now e))
       "requesterEmail" = Some (VStr (getFromEmail (cfg e))))
  /\
  (forall t_key t_track m p k,
     parseCompletion m = Some p ->
     plain_completion p ->
     field (jobs_after (processMessage t_key t_track m) w) k "requesterEmail" =
       if decide (k = c_faxKey p \/ (k = c_trackingId p /\ k <> ""))
       then Some (VStr (c_requesterEmail p))
       else field (faxJobs w) k "requesterEmail").
Proof.
  split; [| split].
  - intros e req sn pdf fn st gw Hv. rewrite (sendFax_jobs _ _ _ _ _ _ _ _ Hv).
    unfold field. rewrite lookup_insert_eq. reflexivity.
  - intros e req fx pdf fn gw Hv. rewrite (sendFaxDirect_jobs _ _ _ _ _ _ _ Hv).
    unfold field. rewrite lookup_insert_eq. reflexivity.
  - intros t_key t_track m p k Hp _. rewrite processMessage_jobs, Hp. cbv zeta.
    destruct (Js.truthy (c_trackingId p)) eqn:Ht.
    + apply truthy_true_nonempty in Ht. rewrite !field_doc_set_merge.
      destruct (updateByFaxKey_lookup p t_key) as (_ & _ & -> & _).
      destruct (updateByTrackingId_lookup p t_track) as (_ & _ & -> & _).
      repeat case_decide; try reflexivity; exfalso; touched_or_not.
    + apply truthy_false_empty in Ht. rewrite field_doc_set_merge.
      destruct (updateByFaxKey_lookup p t_key) as (_ & _ & -> & _).
      repeat case_decide; try reflexivity; exfalso; touched_or_not.
Qed.

(** The webhook update of the specification leaves [requesterEmail]
    untouched. *)
Lemma webhook_keeps_requesterEmail (t : Z) (tid status : string)
    (faxKey : option string) (w : world) (k : string) :
  field (jobs_after (applyWebhookUpdate t tid status faxKey) w) k "requesterEmail"
  = field (faxJobs w) k "requesterEmail".
Proof.
  unfold jobs_after, applyWebhookUpdate. run_effects.
  rewrite field_doc_set_merge. case_decide; [| reflexivity].
  destruct faxKey; reflexivity.
Qed.

(** *** The stored status values *)

Lemma statuses_after_set (c : collection) (k : string) (job : document) :
  job !! "status" = Some (VStr "Pending") ->
  statuses_are_words c -> statuses_are_words (<[k := job]> c).
Proof.
  intros Hj Hc k' v. change (<[k := job]> c) with (doc_set k job c).
  rewrite field_doc_set. case_decide; [| apply Hc].
  rewrite Hj. intros [= <-]. exists "Pending". split; reflexivity.
Qed.

Lemma statuses_after_merge (c : collection) (k s : string) (upd : document) :
  upd !! "status" = Some (VStr s) -> is_status_word s = true ->
  statuses_are_words c -> statuses_are_words (doc_set_merge k upd c).
Proof.
  intros Hu Hs Hc k' v. rewrite field_doc_set_merge. case_decide; [| apply Hc].
  rewrite Hu. intros [= <-]. exists s. split; [reflexivity | exact Hs].
Qed.

Lemma sendFax_jobs_cases (e : env) (req : request) (w : world) :
  faxJobs (world_of (sendFax e req w)) = faxJobs w \/
  exists tid sn,
    faxJobs (world_of (sendFax e req w))
    = <[tid := pendingStoreJob (cfg e) tid sn (job_time e)]> (faxJobs w).
Proof.
  unfold sendFax, world_of. run_effects.
  destruct (negb _); [left; reflexivity |].
  destruct (storeNumber req) as [sn|]; [| left; reflexivity].
  destruct (pdfBase64 req); [| left; reflexivity].
  destruct (fileName req); [| left; reflexivity].
  destruct (_ || _); [left; reflexivity |].
  destruct (stores e !! sn); [| destruct (doc_refused e sn); left; reflexivity].
  destruct (getFaxGatewayEmail (cfg e)); [| left; reflexivity].
  destruct (negb _); [left; reflexivity |].
  right. exists (generateTrackingId (now e)), sn.
  destruct (mail_failure e); reflexivity.
Qed.

Lemma sendFaxDirect_jobs_cases (e : env) (req : request) (w : world) :
  faxJobs (world_of (sendFaxDirect e req w)) = faxJobs w \/
  exists tid fx,
    faxJobs (world_of (sendFaxDirect e req w))
    = <[tid := pendingDirectJob (cfg e) tid fx (job_time e)]> (faxJobs w).
Proof.
  unfold sendFaxDirect, world_of. run_effects.
  destruct (negb _); [left; reflexivity |].
  destruct (faxNumber req) as [fx|]; [| left; reflexivity].
  destruct (pdfBase64 req); [| left; reflexivity].
  destruct (fileName req); [| left; reflexivity].
  destruct (_ || _); [left; reflexivity |].
  destruct (Nat.ltb _ _); [left; reflexivity |].
  destruct (getFaxGatewayEmail (cfg e)); [| left; reflexivity].
  destruct (negb _); [left; reflexivity |].
  right. exists (generateTrackingId (now e)), (Js.filter_chars Js.is_digit fx).
  destruct (mail_failure e); reflexivity.
Qed.

Lemma processMessage_statuses (t_key t_track : Z) (m : message) (w : world) :
  statuses_are_words (faxJobs w) ->
  statuses_are_words (jobs_after (processMessage t_key t_track m) w).
Proof.
  intros Hw. rewrite processMessage_jobs.
  destruct (parseCompletion m) as [p|] eqn:Hp; [| exact Hw]. cbv zeta.
  pose proof (parseCompletion_status_word _ _ Hp) as Hs.
  destruct (Js.truthy (c_trackingId p));
    repeat (eapply statuses_after_merge; [reflexivity | exact Hs |]); exact Hw.
Qed.

Lemma monitorFaxStatus_step (t_key t_track : Z) (m : message)
    (rest : list (Z * Z * message)) (w : world) :
  monitorFaxStatus ((t_key, t_track, m) :: rest) w
  = monitorFaxStatus rest (world_of (processMessage t_key t_track m w)).
Proof.
  cbn [monitorFaxStatus]. unfold bind, world_of.
  pose proof (processMessage_done t_key t_track m w) as Hd. unfold result_of in Hd.
  destruct (processMessage t_key t_track m w) as [r w']. cbn [fst snd] in *.
  rewrite Hd. reflexivity.
Qed.

(** C9, as the code has it.  Every status that creation or a polled
    update stores is a non-empty run of the code units [[A-Za-z0-9_]]:
    [Pending] at creation, and in a polled update whatever such run the
    subject of the message carries.  The property is kept by both send
    handlers and by a whole sweep. *)
Theorem stored_statuses_are_words (w : world) :
  statuses_are_words (faxJobs w) ->
  (forall e req, statuses_are_words (jobs_after (sendFax e req) w)) /\
  (forall e req, statuses_are_words (jobs_after (sendFaxDirect e req) w)) /\
  (forall messages, statuses_are_words (jobs_after (monitorFaxStatus messages) w)).
Proof.
  intros Hw. split; [| split].
  - intros e req. unfold jobs_after. fold (world_of (sendFax e req w)).
    destruct (sendFax_jobs_cases e req w) as [-> | (tid & sn & ->)]; [exact Hw |].
    apply statuses_after_set; [reflexivity | exact Hw].
  - intros e req. unfold jobs_after. fold (world_of (sendFaxDirect e req w)).
    destruct (sendFaxDirect_jobs_cases e req w) as [-> | (tid & fx & ->)]; [exact Hw |].
    apply statuses_after_set; [reflexivity | exact Hw].
  - intros messages. revert w Hw.
    induction messages as [| [[t_key t_track] m] rest IH]; intros w Hw; [exact Hw |].
    unfold jobs_after. rewrite monitorFaxStatus_step. apply IH.
    apply processMessage_statuses, Hw.
Qed.

(** * Concrete runs *)

Import Sample.

Ltac check_valid :=
  repeat split; try reflexivity; try discriminate; try (vm_compute; lia).

Lemma pending_job_created_before_dispatch_witness :
  valid_store_request env0 req_store "#023" "JVBERi0=" "Ack.pdf" albany
    "fax@gateway.example" /\
  created_then_dispatched [] (trace (world_of (sendFax env0 req_store empty_world)))
    tid0 (pendingStoreJob cfg0 tid0 "#023" 100)
    (storeMail cfg0 "fax@gateway.example" tid0 "#023" albany "Ack.pdf" "JVBERi0=") /\
  faxJobs (world_of (sendFax env0 req_store empty_world)) !! tid0
  = Some (pendingStoreJob cfg0 tid0 "#023" 100).
Proof.
  split; [check_valid |].
  destruct (proj1 (pending_job_created_before_dispatch env0 empty_world)
              req_store "#023" "JVBERi0=" "Ack.pdf" albany "fax@gateway.example")
    as (H1 & _ & H3 & _); [check_valid |].
  split; [exact H1 | exact H3].
Defined.

Lemma returned_trackingId_format_witness :
  four_digit_year now0 /\
  is_tracking_id tid0 = true /\
  exists resp, result_of (sendFax env0 req_store empty_world) = Done resp /\
               code resp = 200%nat /\ returned_trackingId resp = Some tid0.
Proof.
  assert (Hy : four_digit_year (now env0)) by (vm_compute; split; discriminate).
  split; [exact Hy |].
  destruct (returned_trackingId_format env0 empty_world Hy) as (_ & _ & H3 & H4 & _).
  split; [exact H3 |].
  apply (H4 req_store "#023" "JVBERi0=" "Ack.pdf" albany "fax@gateway.example");
    check_valid.
Defined.

Lemma dispatch_failure_leaves_pending_job_witness :
  mail_failure env_rejecting = Some "connect ECONNREFUSED" /\
  result_of (sendFax env_rejecting req_store empty_world)
  = Done {| code := 500;
            json := ErrorBody "Failed to send fax" (Some "connect ECONNREFUSED") |} /\
  field (faxJobs (world_of (sendFax env_rejecting req_store empty_world))) tid0 "status"
  = Some (VStr "Pending").
Proof.
  split; [reflexivity |].
  destruct (proj1 (dispatch_failure_leaves_pending_job env_rejecting empty_world
                     "connect ECONNREFUSED" eq_refl)
              req_store "#023" "JVBERi0=" "Ack.pdf" albany "fax@gateway.example")
    as (H1 & _ & H3 & _); [check_valid |].
  split; [exact H1 | exact H3].
Defined.

(** C7 at an unknown store number that the client takes for an id, and
    at one that it refuses. *)
Lemma unknown_store_creates_no_job_witness :
  (stores env0 !! "#999" = None /\ doc_refused env0 "#999" = None /\
   world_of (sendFax env0 req_unknown_store empty_world) = empty_world /\
   result_of (sendFax env0 req_unknown_store empty_world)
   = Done {| code := 404; json := ErrorBody "Store #999 not found" None |}) /\
  (stores env0 !! "a/b" = None /\ doc_refused env0 "a/b" = Some (not_a_document "a/b") /\
   world_of (sendFax env0 req_slash_store empty_world) = empty_world /\
   result_of (sendFax env0 req_slash_store empty_world)
   = Done {| code := 500;
             json := ErrorBody "Failed to send fax" (Some (not_a_document "a/b")) |}).
Proof.
  split.
  - split; [reflexivity |]. split; [reflexivity |].
    destruct (unknown_store_creates_no_job env0 req_unknown_store empty_world)
      as [H1 H2].
    + intros sn [= <-]. reflexivity.
    + split; [exact H1 |].
      apply (H2 "#999" "JVBERi0=" "Ack.pdf"); reflexivity || discriminate.
  - split; [reflexivity |]. split; [reflexivity |].
    destruct (unknown_store_creates_no_job env0 req_slash_store empty_world)
      as [H1 H2].
    + intros sn [= <-]. reflexivity.
    + split; [exact H1 |].
      apply (H2 "a/b" "JVBERi0=" "Ack.pdf"); reflexivity || discriminate.
Defined.

Lemma colliding_send_replaces_job_witness :
  same_second now0 now1 /\
  generateTrackingId now1 = tid0 /\
  field (faxJobs (world_of (sendFax env0 req_store empty_world))) tid0 "storeNumber"
  = Some (VStr "#023") /\
  field (faxJobs (world_of (sendFaxDirect env1 req_direct
                              (world_of (sendFax env0 req_store empty_world)))))
    tid0 "storeNumber" = None.
Proof.
  split; [check_valid |].
  destruct (colliding_send_replaces_job env0 env1 empty_world req_store req_direct
              "#023" "JVBERi0=" "Ack.pdf" "fax@gateway.example"
              "1 (555) 341-2222" "JVBERi0=" "Blank.pdf" "fax@gateway.example" albany)
    as (H1 & _ & _ & (H2 & H3 & _) & _); [check_valid .. |].
  split; [exact H1 |]. split; [exact H2 | exact H3].
Defined.

(** C1 fails on the code: after the webhook has set Success, a polled
    notice that carries Pending for the same job sets the status back to
    Pending; so does a polled Pending after a polled Success. *)
Lemma stale_pending_overwrites_success :
  is_terminal "Success" = true /\
  (field (faxJobs w_webhook) tid0 "status" = Some (VStr "Success") /\
   field (jobs_after (processMessage 300 301 msg_pending) w_webhook) tid0 "status"
   = Some (VStr "Pending")) /\
  (let w1 := world_of (processMessage 200 201 msg_success w_created) in
   field (faxJobs w1) tid0 "status" = Some (VStr "Success") /\
   field (faxJobs w1) "K1" "status" = Some (VStr "Success") /\
   field (jobs_after (processMessage 300 301 msg_pending) w1) tid0 "status"
   = Some (VStr "Pending") /\
   field (jobs_after (processMessage 300 301 msg_pending) w1) "K1" "status"
   = Some (VStr "Pending")).
Proof. vm_compute. repeat split. Qed.

Lemma polled_update_overwrites_status_witness :
  parseCompletion msg_pending = Some (parsed "Pending") /\
  plain_completion (parsed "Pending") /\
  field (jobs_after (processMessage 300 301 msg_pending) w_webhook) tid0 "status"
  = Some (VStr "Pending").
Proof.
  assert (Hplain : plain_completion (parsed "Pending"))
    by (split; [reflexivity | right; reflexivity]).
  split; [reflexivity |]. split; [exact Hplain |].
  apply (polled_update_overwrites_status 300 301 msg_pending (parsed "Pending")
           w_webhook tid0).
  - reflexivity.
  - exact Hplain.
  - right. split; [reflexivity | discriminate].
Defined.

(** C2 fails on the code for a key with blanks around it: the subject
    [FAXDONE: K1 :Success] contains [FAXDONE:K:S] with [K] the colon-free
    [ K1 ], yet no record is keyed by [K]; the record written is keyed by
    [K1].  It also fails when an earlier part of the subject matches the
    pattern: [FAXDONE:A:B FAXDONE:K1:Success] contains
    [FAXDONE:K1:Success], and the records written carry the key [A] and
    the status [B]. *)
Lemma spaced_key_is_trimmed :
  (msg_subject msg_spaced = "FAXDONE:" +:+ " K1 " +:+ ":" +:+ "Success" /\
   Js.all_chars (fun c => negb (Ascii.eqb c ":")) " K1 " = true /\
   Js.all_chars Js.is_word "Success" = true /\
   let jobs := jobs_after (processMessage 300 301 msg_spaced) empty_world in
   jobs !! " K1 " = None /\
   field jobs " K1 " "faxKey" <> Some (VStr " K1 ") /\
   field jobs "K1" "faxKey" = Some (VStr "K1")) /\
  (msg_subject msg_two_notices = "FAXDONE:A:B " +:+ "FAXDONE:" +:+ "K1" +:+ ":" +:+ "Success" /\
   let jobs := jobs_after (processMessage 300 301 msg_two_notices) empty_world in
   jobs !! "K1" = None /\
   field jobs tid0 "faxKey" = Some (VStr "A") /\
   field jobs tid0 "status" = Some (VStr "B")).
Proof. vm_compute. repeat split; discriminate. Qed.

Lemma polled_completion_writes_both_records_witness :
  subject_match (msg_subject msg_success) = Some ("K1", "Success") /\
  Js.split "|" (cleanLineOf (msg_text msg_success))
  = ["user@x.com"; "WEB-20260205125013."] /\
  plain_id (Js.trim "K1") = true /\
  plain_id (Js.strip_final_period (Js.trim "WEB-20260205125013.")) = true /\
  let jobs := jobs_after (processMessage 300 301 msg_success) empty_world in
  field jobs "K1" "status" = Some (VStr "Success") /\
  field jobs "K1" "faxKey" = Some (VStr "K1") /\
  field jobs "WEB-20260205125013" "status" = Some (VStr "Success") /\
  field jobs "WEB-20260205125013" "faxKey" = Some (VStr "K1").
Proof.
  split; [reflexivity |]. split; [reflexivity |].
  split; [reflexivity |]. split; [reflexivity |].
  destruct (polled_completion_writes_both_records 300 301 msg_success empty_world
              "K1" "Success" "user@x.com" "WEB-20260205125013." [] eq_refl eq_refl
              eq_refl (or_intror eq_refl))
    as (H1 & H2 & H3 & _).
  destruct H3 as (H4 & _ & H6); [discriminate |].
  cbv zeta. split; [exact H2 |]. split; [exact H1 |]. split; [exact H6 | exact H4].
Defined.

(** C8 fails on the code: the job is created with the configured sender
    as [requesterEmail], and the polled notice replaces it with the
    address found in the message body. *)
Lemma polled_update_changes_requesterEmail :
  field (faxJobs w_created) tid0 "requesterEmail" = Some (VStr "handbook@company.com") /\
  field (jobs_after (processMessage 300 301 msg_success) w_created) tid0 "requesterEmail"
  = Some (VStr "user@x.com").
Proof. vm_compute. split; reflexivity. Qed.

Lemma polled_update_rewrites_requesterEmail_witness :
  parseCompletion msg_success = Some (parsed "Success") /\
  plain_completion (parsed "Success") /\
  field (jobs_after (processMessage 300 301 msg_success) w_created) tid0 "requesterEmail"
  = Some (VStr "user@x.com").
Proof.
  assert (Hplain : plain_completion (parsed "Success"))
    by (split; [reflexivity | right; reflexivity]).
  split; [reflexivity |]. split; [exact Hplain |].
  exact (proj2 (proj2 (polled_update_rewrites_requesterEmail w_created))
           300%Z 301%Z msg_success (parsed "Success") tid0 eq_refl Hplain).
Defined.

(** C9 fails on the code: a notice whose subject carries the token
    [Bogus] stores that token as the status. *)
Lemma bogus_status_is_stored :
  parseCompletion msg_bogus = Some (parsed "Bogus") /\
  field (jobs_after (processMessage 300 301 msg_bogus) w_created) tid0 "status"
  = Some (VStr "Bogus") /\
  is_lifecycle_status "Bogus" = false.
Proof. vm_compute. repeat split. Qed.

Lemma stored_statuses_are_words_witness :
  statuses_are_words (faxJobs empty_world) /\
  statuses_are_words (jobs_after (monitorFaxStatus [(300%Z, 301%Z, msg_bogus)]) empty_world).
Proof.
  assert (H0 : statuses_are_words (faxJobs empty_world)).
  { intros k v. unfold field. cbn [faxJobs empty_world].
    rewrite lookup_empty. discriminate. }
  split; [exact H0 |].
  exact (proj2 (proj2 (stored_statuses_are_words empty_world H0))
           [(300%Z, 301%Z, msg_bogus)]).
Defined.

(** * Further properties of the send handlers *)

Lemma truthy_falsy (s : string) : Js.truthy s = negb (falsy (Some s)).
Proof. reflexivity. Qed.

Lemma eqb_POST (s : string) : negb (String.eqb s "POST") = false -> s = "POST".
Proof. intros H. apply negb_false_iff in H. apply String.eqb_eq, H. Qed.

(** Every run of [sendFax] is a refusal or a failed lookup, which leave
    the world as it was, or the run of a valid request. *)
Lemma sendFax_cases (e : env) (req : request) (w : world) :
  (exists resp, sendFax e req w = (Done resp, w) /\
     (is_refusal resp \/
      exists msg, resp = {| code := 500;
                            json := ErrorBody "Failed to send fax" (Some msg) |})) \/
  (exists sn pdf fn st gw, valid_store_request e req sn pdf fn st gw).
Proof.
  unfold sendFax, is_refusal. run_effects.
  destruct (negb _) eqn:Hm;
    [left; eexists; split; [reflexivity | left; eexists; cbn; eauto] |].
  apply eqb_POST in Hm.
  destruct (storeNumber req) as [sn|] eqn:H1;
    [| left; eexists; split; [reflexivity | left; eexists; cbn; eauto]].
  destruct (pdfBase64 req) as [pdf|] eqn:H2;
    [| left; eexists; split; [reflexivity | left; eexists; cbn; eauto]].
  destruct (fileName req) as [fn|] eqn:H3;
    [| left; eexists; split; [reflexivity | left; eexists; cbn; eauto]].
  destruct (Js.truthy sn) eqn:T1; cbn [negb orb];
    [| left; eexists; split; [reflexivity | left; eexists; cbn; eauto]].
  destruct (Js.truthy pdf) eqn:T2; cbn [negb orb];
    [| left; eexists; split; [reflexivity | left; eexists; cbn; eauto]].
  destruct (Js.truthy fn) eqn:T3; cbn [negb orb];
    [| left; eexists; split; [reflexivity | left; eexists; cbn; eauto]].
  destruct (stores e !! sn) as [st|] eqn:H4.
  2: { left. destruct (doc_refused e sn) as [msg|].
       - eexists. split; [reflexivity | right; eexists; reflexivity].
       - eexists. split; [reflexivity | left; eexists; cbn; eauto 6]. }
  destruct (getFaxGatewayEmail (cfg e)) as [gw|] eqn:H5;
    [| left; eexists; split; [reflexivity | left; eexists; cbn; eauto 6]].
  destruct (Js.truthy gw) eqn:T4; cbn [negb];
    [| left; eexists; split; [reflexivity | left; eexists; cbn; eauto 6]].
  right. exists sn, pdf, fn, st, gw. unfold valid_store_request.
  repeat split; auto using truthy_true_nonempty.
Qed.

Lemma sendFaxDirect_cases (e : env) (req : request) (w : world) :
  (exists resp, sendFaxDirect e req w = (Done resp, w) /\ is_refusal resp
                /\ code resp <> 404%nat) \/
  (exists fx pdf fn gw, valid_direct_request e req fx pdf fn gw).
Proof.
  unfold sendFaxDirect, is_refusal. run_effects.
  destruct (negb _) eqn:Hm;
    [left; eexists; split; [reflexivity | split; [eexists; cbn; eauto | discriminate]] |].
  apply eqb_POST in Hm.
  destruct (faxNumber req) as [fx|] eqn:H1;
    [| left; eexists; split; [reflexivity | split; [eexists; cbn; eauto | discriminate]]].
  destruct (pdfBase64 req) as [pdf|] eqn:H2;
    [| left; eexists; split; [reflexivity | split; [eexists; cbn; eauto | discriminate]]].
  destruct (fileName req) as [fn|] eqn:H3;
    [| left; eexists; split; [reflexivity | split; [eexists; cbn; eauto | discriminate]]].
  destruct (Js.truthy fx) eqn:T1; cbn [negb orb];
    [| left; eexists; split; [reflexivity | split; [eexists; cbn; eauto | discriminate]]].
  destruct (Js.truthy pdf) eqn:T2; cbn [negb orb];
    [| left; eexists; split; [reflexivity | split; [eexists; cbn; eauto | discriminate]]].
  destruct (Js.truthy fn) eqn:T3; cbn [negb orb];
    [| left; eexists; split; [reflexivity | split; [eexists; cbn; eauto | discriminate]]].
  destruct (Nat.ltb _ _) eqn:Hl;
    [left; eexists; split; [reflexivity | split; [eexists; cbn; eauto | discriminate]] |].
  destruct (getFaxGatewayEmail (cfg e)) as [gw|] eqn:H5;
    [| left; eexists; split; [reflexivity | split; [eexists; cbn; eauto 6 | discriminate]]].
  destruct (Js.truthy gw) eqn:T4; cbn [negb];
    [| left; eexists; split; [reflexivity | split; [eexists; cbn; eauto 6 | discriminate]]].
  right. exists fx, pdf, fn, gw. unfold valid_direct_request.
  apply Nat.ltb_ge in Hl. repeat split; auto using truthy_true_nonempty.
Qed.

Lemma refusal_not_200 (r : response) : is_refusal r -> code r <> 200%nat.
Proof. intros (err & _ & [H | [H | [H | H]]]); rewrite H; discriminate. Qed.

Lemma corsHandler_result {A} (req : request) (next : M A) (w : world) (a : A) :
  is_preflight req = false -> result_of (next w) = Done a ->
  result_of (corsHandler req next w) = Done (Answer a).
Proof.
  intros Hp Hr. unfold corsHandler, result_of, bind, ret in *. rewrite Hp.
  destruct (next w) as [[a' | msg] w']; cbn [fst] in *; congruence.
Qed.

Lemma corsHandler_done {A} (req : request) (next : M A) (w w' : world) (a : A) :
  is_preflight req = false -> next w = (Done a, w') ->
  corsHandler req next w = (Done (Answer a), w').
Proof. intros Hp Hr. unfold corsHandler, bind, ret. rewrite Hp, Hr. reflexivity. Qed.

Lemma corsHandler_preflight {A} (req : request) (next : M A) (w : world) :
  is_preflight req = true -> corsHandler req next w = (Done NoContent, w).
Proof. intros Hp. unfold corsHandler. rewrite Hp. reflexivity. Qed.

(** The functions handed to [corsHandler] let no exception escape. *)
Lemma send_callbacks_answer (e : env) (req : request) (w : world) :
  (exists resp, result_of (sendFax e req w) = Done resp /\
     (code resp = 200 \/ code resp = 400 \/ code resp = 404 \/ code resp = 405
      \/ code resp = 500)%nat) /\
  (exists resp, result_of (sendFaxDirect e req w) = Done resp /\
     (code resp = 200 \/ code resp = 400 \/ code resp = 405 \/ code resp = 500)%nat).
Proof.
  split.
  - destruct (sendFax_cases e req w)
      as [(resp & -> & [(err & _ & Hc) | (msg & ->)]) | Hv].
    + exists resp. split; [reflexivity | tauto].
    + eexists. split; [reflexivity | cbn; tauto].
    + destruct Hv as (sn & pdf & fn & st & gw & Hv).
      rewrite (sendFax_valid _ _ _ _ _ _ _ _ Hv). cbv zeta. unfold result_of. run_effects.
      destruct (mail_failure e); cbn [fst]; eexists; (split; [reflexivity |]); cbn; auto.
  - destruct (sendFaxDirect_cases e req w) as [(resp & -> & (err & _ & Hc) & Hn) | Hv].
    + exists resp. split; [reflexivity | tauto].
    + destruct Hv as (fx & pdf & fn & gw & Hv).
      rewrite (sendFaxDirect_valid _ _ _ _ _ _ _ Hv). cbv zeta. unfold result_of. run_effects.
      destruct (mail_failure e); cbn [fst]; eexists; (split; [reflexivity |]); cbn; auto.
Qed.

(** X1. Every request to an exported send function is answered and no
    exception escapes: a preflight request gets 204 from [cors] and has no
    effect; any other request is answered by the function itself,
    [sendFax] with one of the codes 200, 400, 404, 405, 500 and
    [sendFaxDirect] with one of 200, 400, 405, 500. *)
Theorem send_handlers_always_answer (e : env) (req : request) (w : world) :
  (if is_preflight req
   then exports_sendFax e req w = (Done NoContent, w)
   else exists resp,
          result_of (exports_sendFax e req w) = Done (Answer resp) /\
          (code resp = 200 \/ code resp = 400 \/ code resp = 404 \/ code resp = 405
           \/ code resp = 500)%nat) /\
  (if is_preflight req
   then exports_sendFaxDirect e req w = (Done NoContent, w)
   else exists resp,
          result_of (exports_sendFaxDirect e req w) = Done (Answer resp) /\
          (code resp = 200 \/ code resp = 400 \/ code resp = 405
           \/ code resp = 500)%nat).
Proof.
  destruct (send_callbacks_answer e req w) as [(r1 & H1 & C1) (r2 & H2 & C2)].
  unfold exports_sendFax, exports_sendFaxDirect.
  destruct (is_preflight req) eqn:Hp.
  - split; apply corsHandler_preflight, Hp.
  - split; eexists; (split; [apply corsHandler_result; eassumption | assumption]).
Qed.

(** X2. A refusal (an error response without [details]: 400, 404, 405 or
    the 500 of a missing gateway address) comes with no effect at all: no
    job record, no mail, no audit entry. *)
Theorem refused_request_changes_nothing (e : env) (req : request) (w : world)
    (resp : response) :
  is_refusal resp ->
  (result_of (sendFax e req w) = Done resp -> world_of (sendFax e req w) = w) /\
  (result_of (sendFaxDirect e req w) = Done resp -> world_of (sendFaxDirect e req w) = w).
Proof.
  intros (err & Hj & Hc). split.
  - destruct (sendFax_cases e req w) as [(resp' & -> & _) | Hv]; [reflexivity |].
    destruct Hv as (sn & pdf & fn & st & gw & Hv).
    rewrite (sendFax_valid _ _ _ _ _ _ _ _ Hv). cbv zeta.
    unfold result_of, world_of. run_effects.
    destruct (mail_failure e); cbn [fst snd]; intros [= <-]; discriminate.
  - destruct (sendFaxDirect_cases e req w) as [(resp' & -> & _) | Hv]; [reflexivity |].
    destruct Hv as (fx & pdf & fn & gw & Hv).
    rewrite (sendFaxDirect_valid _ _ _ _ _ _ _ Hv). cbv zeta.
    unfold result_of, world_of. run_effects.
    destruct (mail_failure e); cbn [fst snd]; intros [= <-]; discriminate.
Qed.

(** X3. The audit log grows exactly when the handler answers 200, and
    then by one entry with status [sent], the file name of the request and
    its type, [unknown] when the request has none; a direct send logs a
    null store number under the location [Direct Fax].  With any other
    answer the log is untouched. *)
Theorem audit_entry_exactly_on_200 (e : env) (req : request) (w : world) :
  (forall resp, result_of (sendFax e req w) = Done resp ->
     (code resp = 200%nat ->
      exists entry, fax_log (world_of (sendFax e req w)) = fax_log w ++ [entry] /\
        log_status entry = "sent" /\ Some (log_fileName entry) = fileName req /\
        log_storeNumber entry = storeNumber req /\
        log_type entry = Js.or_default (type req) "unknown" /\
        log_sentAt entry = log_time e) /\
     (code resp <> 200%nat -> fax_log (world_of (sendFax e req w)) = fax_log w)) /\
  (forall resp, result_of (sendFaxDirect e req w) = Done resp ->
     (code resp = 200%nat ->
      exists entry, fax_log (world_of (sendFaxDirect e req w)) = fax_log w ++ [entry] /\
        log_status entry = "sent" /\ Some (log_fileName entry) = fileName req /\
        log_storeNumber entry = None /\ log_location entry = "Direct Fax" /\
        log_type entry = Js.or_default (type req) "unknown" /\
        log_sentAt entry = log_time e) /\
     (code resp <> 200%nat -> fax_log (world_of (sendFaxDirect e req w)) = fax_log w)).
Proof.
  split.
  - intros resp. destruct (sendFax_cases e req w) as [(resp' & -> & Hr) | Hv].
    + intros [= <-]. split; [| reflexivity].
      intros H. destruct Hr as [Hr | (msg & ->)];
        [destruct (refusal_not_200 _ Hr H) | discriminate H].
    + destruct Hv as (sn & pdf & fn & st & gw & Hv).
      rewrite (sendFax_valid _ _ _ _ _ _ _ _ Hv). cbv zeta.
      destruct Hv as (_ & H2 & _ & H4 & _).
      unfold result_of, world_of. run_effects.
      destruct (mail_failure e); cbn [fst snd fax_log]; intros [= <-]; cbn [code].
      * split; [discriminate | reflexivity].
      * split; [| congruence]. intros _. eexists. split; [reflexivity |].
        cbn. rewrite H2, H4. repeat split.
  - intros resp. destruct (sendFaxDirect_cases e req w) as [(resp' & -> & Hr & _) | Hv].
    + intros [= <-]. split; [intros H; destruct (refusal_not_200 _ Hr H) | reflexivity].
    + destruct Hv as (fx & pdf & fn & gw & Hv).
      rewrite (sendFaxDirect_valid _ _ _ _ _ _ _ Hv). cbv zeta.
      destruct Hv as (_ & H2 & _ & H4 & _).
      unfold result_of, world_of. run_effects.
      destruct (mail_failure e); cbn [fst snd fax_log]; intros [= <-]; cbn [code].
      * split; [discriminate | reflexivity].
      * split; [| congruence]. intros _. eexists. split; [reflexivity |].
        cbn. rewrite H4. repeat split.
Qed.

Lemma falsy_not_truthy (o : option string) :
  falsy o = true ->
  match o with Some s => Js.truthy s = false | None => True end.
Proof. destruct o as [s|]; [destruct s; [reflexivity | discriminate] | trivial]. Qed.

(** X4. A POST in which a required field is missing or is the empty
    string is answered 400 with the list of the required fields, and has
    no effect; the check comes before the store lookup, the digit count and
    the gateway lookup. *)
Theorem missing_field_is_400 (e : env) (req : request) (w : world) :
  method req = "POST" ->
  (falsy (storeNumber req) || falsy (pdfBase64 req) || falsy (fileName req) = true ->
   sendFax e req w =
     (Done {| code := 400;
              json := ErrorBody "Missing required fields: storeNumber, pdfBase64, fileName"
                        None |}, w)) /\
  (falsy (faxNumber req) || falsy (pdfBase64 req) || falsy (fileName req) = true ->
   sendFaxDirect e req w =
     (Done {| code := 400;
              json := ErrorBody "Missing required fields: faxNumber, pdfBase64, fileName"
                        None |}, w)).
Proof.
  intros Hm. split; intros Hf.
  - unfold sendFax. run_effects. rewrite Hm, (String.eqb_refl "POST"). cbn [negb].
    destruct (storeNumber req) as [sn|]; [| reflexivity].
    destruct (pdfBase64 req) as [pdf|]; [| reflexivity].
    destruct (fileName req) as [fn|]; [| reflexivity].
    cbn [falsy] in Hf. unfold Js.truthy. rewrite !negb_involutive, Hf. reflexivity.
  - unfold sendFaxDirect. run_effects. rewrite Hm, (String.eqb_refl "POST"). cbn [negb].
    destruct (faxNumber req) as [fx|]; [| reflexivity].
    destruct (pdfBase64 req) as [pdf|]; [| reflexivity].
    destruct (fileName req) as [fn|]; [| reflexivity].
    cbn [falsy] in Hf. unfold Js.truthy. rewrite !negb_involutive, Hf. reflexivity.
Qed.

(** X5. A direct send whose fax number keeps fewer than ten digits once
    everything but digits is removed is answered 400 and has no effect,
    whatever else the number contains. *)
Theorem short_fax_number_is_400 (e : env) (req : request) (w : world)
    (fx pdf fn : string) :
  method req = "POST" ->
  faxNumber req = Some fx -> pdfBase64 req = Some pdf -> fileName req = Some fn ->
  fx <> "" -> pdf <> "" -> fn <> "" ->
  (String.length (Js.filter_chars Js.is_digit fx) < 10)%nat ->
  sendFaxDirect e req w =
    (Done {| code := 400;
             json := ErrorBody "Invalid fax number - must be at least 10 digits" None |},
     w).
Proof.
  intros Hm H1 H2 H3 N1 N2 N3 Hl.
  unfold sendFaxDirect. run_effects. rewrite Hm, H1, H2, H3, (String.eqb_refl "POST").
  cbn [negb]. rewrite !truthy_nonempty by assumption. cbn [negb orb].
  apply Nat.ltb_lt in Hl. rewrite Hl. reflexivity.
Qed.

Lemma getFaxGatewayEmail_falsy (c : config) :
  falsy (getFaxGatewayEmail c)
  = falsy (fax_gateway_email c) && falsy (FAX_GATEWAY_EMAIL c).
Proof.
  unfold getFaxGatewayEmail, Js.or_else, Js.truthy.
  destruct (fax_gateway_email c) as [[| a s]|]; reflexivity.
Qed.

(** X6. When neither [fax.gateway_email] nor [FAX_GATEWAY_EMAIL] holds a
    non-empty address, a request that passes every other check is answered
    500 [Fax gateway email not configured] before a tracking id is
    generated: no job record is created and nothing is sent. *)
Theorem unconfigured_gateway_is_500 (e : env) (req : request) (w : world) :
  falsy (fax_gateway_email (cfg e)) = true ->
  falsy (FAX_GATEWAY_EMAIL (cfg e)) = true ->
  method req = "POST" ->
  (forall sn pdf fn st,
     storeNumber req = Some sn -> pdfBase64 req = Some pdf -> fileName req = Some fn ->
     sn <> "" -> pdf <> "" -> fn <> "" -> stores e !! sn = Some st ->
     sendFax e req w =
       (Done {| code := 500; json := ErrorBody "Fax gateway email not configured" None |},
        w)) /\
  (forall fx pdf fn,
     faxNumber req = Some fx -> pdfBase64 req = Some pdf -> fileName req = Some fn ->
     fx <> "" -> pdf <> "" -> fn <> "" ->
     (10 <= String.length (Js.filter_chars Js.is_digit fx))%nat ->
     sendFaxDirect e req w =
       (Done {| code := 500; json := ErrorBody "Fax gateway email not configured" None |},
        w)).
Proof.
  intros Hc He Hm.
  assert (Hg : falsy (getFaxGatewayEmail (cfg e)) = true)
    by (rewrite getFaxGatewayEmail_falsy, Hc, He; reflexivity).
  apply falsy_not_truthy in Hg. split.
  - intros sn pdf fn st H1 H2 H3 N1 N2 N3 H4.
    unfold sendFax. run_effects. rewrite Hm, H1, H2, H3, (String.eqb_refl "POST").
    cbn [negb]. rewrite !truthy_nonempty by assumption. cbn [negb orb]. rewrite H4.
    destruct (getFaxGatewayEmail (cfg e)) as [gw|]; [rewrite Hg |]; reflexivity.
  - intros fx pdf fn H1 H2 H3 N1 N2 N3 Hl.
    unfold sendFaxDirect. run_effects. rewrite Hm, H1, H2, H3, (String.eqb_refl "POST").
    cbn [negb]. rewrite !truthy_nonempty by assumption. cbn [negb orb].
    apply Nat.ltb_ge in Hl. rewrite Hl.
    destruct (getFaxGatewayEmail (cfg e)) as [gw|]; [rewrite Hg |]; reflexivity.
Qed.

(** X7. The sender address is never empty: it is [smtp.from] when that is
    set and not empty, else [SMTP_FROM] when that is set and not empty,
    else [handbook@company.com]. *)
Theorem getFromEmail_precedence (c : config) :
  getFromEmail c <> "" /\
  (falsy (smtp_from c) = false -> Some (getFromEmail c) = smtp_from c) /\
  (falsy (smtp_from c) = true -> falsy (SMTP_FROM c) = false ->
   Some (getFromEmail c) = SMTP_FROM c) /\
  (falsy (smtp_from c) = true -> falsy (SMTP_FROM c) = true ->
   getFromEmail c = "handbook@company.com").
Proof.
  unfold getFromEmail, Js.or_default, Js.or_else, Js.truthy.
  destruct (smtp_from c) as [[| a s]|], (SMTP_FROM c) as [[| b t]|];
    cbn [falsy Js.is_empty negb]; repeat split; congruence.
Qed.

(** X8. The gateway address counts as configured exactly when one of its
    two sources holds a non-empty string; [fax.gateway_email] is preferred
    to [FAX_GATEWAY_EMAIL]. *)
Theorem getFaxGatewayEmail_precedence (c : config) :
  falsy (getFaxGatewayEmail c)
  = falsy (fax_gateway_email c) && falsy (FAX_GATEWAY_EMAIL c) /\
  (falsy (fax_gateway_email c) = false ->
   getFaxGatewayEmail c = fax_gateway_email c) /\
  (falsy (fax_gateway_email c) = true ->
   getFaxGatewayEmail c = FAX_GATEWAY_EMAIL c).
Proof.
  unfold getFaxGatewayEmail, Js.or_else, Js.truthy.
  destruct (fax_gateway_email c) as [[| a s]|];
    cbn [falsy Js.is_empty negb]; repeat split; congruence.
Qed.

(** ** The fax number of a direct send *)

Lemma filter_chars_all (p : ascii -> bool) (s : string) :
  Js.all_chars p (Js.filter_chars p s) = true.
Proof.
  induction s as [| c r IH]; [reflexivity |]. cbn [Js.filter_chars].
  destruct (p c) eqn:Hc; [| exact IH]. cbn [Js.all_chars]. rewrite Hc, IH. reflexivity.
Qed.

Lemma filter_chars_id (p : ascii -> bool) (s : string) :
  Js.all_chars p s = true -> Js.filter_chars p s = s.
Proof.
  induction s as [| c r IH]; [reflexivity |]. cbn [Js.all_chars Js.filter_chars].
  intros [Hc Hr]%andb_prop. rewrite Hc, (IH Hr). reflexivity.
Qed.

Lemma filter_chars_length (p : ascii -> bool) (s : string) :
  (String.length (Js.filter_chars p s) <= String.length s)%nat.
Proof.
  induction s as [| c r IH]; [reflexivity |]. cbn [Js.filter_chars].
  destruct (p c); cbn [String.length]; lia.
Qed.

(** X9. Removing the non-digits of a fax number leaves digits only, never
    lengthens it, changes nothing in a number that is all digits, and so
    does nothing when applied a second time. *)
Theorem cleanFaxNumber_is_digits (fx : string) :
  let clean := Js.filter_chars Js.is_digit fx in
  Js.all_chars Js.is_digit clean = true /\
  (String.length clean <= String.length fx)%nat /\
  Js.filter_chars Js.is_digit clean = clean /\
  (Js.all_chars Js.is_digit fx = true -> clean = fx).
Proof.
  cbv zeta. split; [apply filter_chars_all |]. split; [apply filter_chars_length |].
  split; [apply filter_chars_id, filter_chars_all | apply filter_chars_id].
Qed.

(** X10. [sendFaxDirect] sees a fax number only through its digits: two
    requests that differ in nothing but the punctuation and spacing of
    their non-empty fax numbers get the same answer and have the same
    effects. *)
Theorem sendFaxDirect_ignores_formatting (e : env) (w : world) (r1 r2 : request)
    (fx1 fx2 : string) :
  faxNumber r1 = Some fx1 -> faxNumber r2 = Some fx2 ->
  fx1 <> "" -> fx2 <> "" ->
  Js.filter_chars Js.is_digit fx1 = Js.filter_chars Js.is_digit fx2 ->
  method r1 = method r2 -> pdfBase64 r1 = pdfBase64 r2 ->
  fileName r1 = fileName r2 -> type r1 = type r2 ->
  sendFaxDirect e r1 w = sendFaxDirect e r2 w.
Proof.
  intros H1 H2 N1 N2 Hd Hm Hp Hf Ht.
  unfold sendFaxDirect. rewrite H1, H2, Hm, Hp, Hf, Ht, Hd.
  rewrite (truthy_nonempty _ N1), (truthy_nonempty _ N2). reflexivity.
Qed.

(** ** What is mailed *)

(** Among the events of one run, the one that is a dispatch. *)
Ltac the_mail_event Hin :=
  cbn [In app] in Hin;
  repeat match type of Hin with
         | _ \/ _ => destruct Hin as [Hin | Hin]
         | False => destruct Hin
         | EvJobSet _ _ = _ => discriminate Hin
         | EvLogAdd _ = _ => discriminate Hin
         end;
  injection Hin as <- <-.

(** X11. A send handler hands at most one message to the transport, and
    only for a request it accepts: the recipient is the configured,
    non-empty gateway address, the sender the configured sender, the
    attachment the file name and payload of the request, and the subject
    the destination (the store number, or [Fax#] and the digits of the fax
    number), a blank and the tracking id of this request. *)
Theorem mail_goes_to_gateway_once (e : env) (req : request) (w : world) :
  (exists evs,
     trace (world_of (sendFax e req w)) = trace w ++ evs /\
     (length (List.filter is_mail_event evs) <= 1)%nat /\
     forall m ok, In (EvSendMail m ok) evs ->
       getFaxGatewayEmail (cfg e) = Some (mail_to m) /\ mail_to m <> "" /\
       mail_from m = getFromEmail (cfg e) /\
       fileName req = Some (att_filename m) /\ pdfBase64 req = Some (att_content m) /\
       (exists sn, storeNumber req = Some sn /\
          mail_subject m = sn +:+ " " +:+ generateTrackingId (now e)) /\
       (ok = true <-> mail_failure e = None)) /\
  (exists evs,
     trace (world_of (sendFaxDirect e req w)) = trace w ++ evs /\
     (length (List.filter is_mail_event evs) <= 1)%nat /\
     forall m ok, In (EvSendMail m ok) evs ->
       getFaxGatewayEmail (cfg e) = Some (mail_to m) /\ mail_to m <> "" /\
       mail_from m = getFromEmail (cfg e) /\
       fileName req = Some (att_filename m) /\ pdfBase64 req = Some (att_content m) /\
       (exists fx, faxNumber req = Some fx /\
          mail_subject m = "Fax#" +:+ Js.filter_chars Js.is_digit fx +:+ " "
                             +:+ generateTrackingId (now e)) /\
       (ok = true <-> mail_failure e = None)).
Proof.
  split.
  - destruct (sendFax_cases e req w) as [(resp & -> & _) | Hv].
    + exists []. cbn [world_of snd]. rewrite app_nil_r.
      split; [reflexivity |]. split; [cbn; lia | intros m ok []].
    + destruct Hv as (sn & pdf & fn & st & gw & Hv).
      rewrite (sendFax_valid _ _ _ _ _ _ _ _ Hv). cbv zeta.
      destruct Hv as (_ & H2 & H3 & H4 & _ & _ & _ & _ & H9 & H10).
      unfold world_of. run_effects.
      destruct (mail_failure e) as [err|]; cbn [fst snd trace];
        rewrite <- ?app_assoc; eexists; (split; [reflexivity |]);
        (split; [cbn; lia |]); intros m ok Hin; the_mail_event Hin;
        cbn [storeMail mail_to mail_from att_filename att_content mail_subject];
        repeat split; eauto; congruence.
  - destruct (sendFaxDirect_cases e req w) as [(resp & -> & _) | Hv].
    + exists []. cbn [world_of snd]. rewrite app_nil_r.
      split; [reflexivity |]. split; [cbn; lia | intros m ok []].
    + destruct Hv as (fx & pdf & fn & gw & Hv).
      rewrite (sendFaxDirect_valid _ _ _ _ _ _ _ Hv). cbv zeta.
      destruct Hv as (_ & H2 & H3 & H4 & _ & _ & _ & _ & H9 & H10).
      unfold world_of. run_effects.
      destruct (mail_failure e) as [err|]; cbn [fst snd trace];
        rewrite <- ?app_assoc; eexists; (split; [reflexivity |]);
        (split; [cbn; lia |]); intros m ok Hin; the_mail_event Hin;
        cbn [directMail mail_to mail_from att_filename att_content mail_subject];
        repeat split; eauto; congruence.
Qed.

(** * Further properties of the sweep *)

Lemma monitorFaxStatus_run (messages : list (Z * Z * message)) (w : world) :
  monitorFaxStatus messages w = (Done tt, world_of (monitorFaxStatus messages w)).
Proof.
  revert w. induction messages as [| [[t_key t_track] m] rest IH]; intros w.
  - reflexivity.
  - rewrite monitorFaxStatus_step. apply IH.
Qed.

Lemma processMessage_unparsed (t_key t_track : Z) (m : message) (w : world) :
  subject_match (msg_subject m) = None ->
  processMessage t_key t_track m w = (Done tt, w).
Proof.
  intros Hs. unfold processMessage, parseCompletion. rewrite Hs. reflexivity.
Qed.

(** X12. Sweeps compose: running the loop over a list of messages and
    then over a second list leaves exactly the world that one sweep over
    both lists, in that order, leaves. *)
Theorem sweep_of_concatenation (l1 l2 : list (Z * Z * message)) (w : world) :
  monitorFaxStatus (l1 ++ l2) w
  = monitorFaxStatus l2 (world_of (monitorFaxStatus l1 w)).
Proof.
  revert w. induction l1 as [| [[t_key t_track] m] rest IH]; intros w.
  - reflexivity.
  - cbn [app]. rewrite !monitorFaxStatus_step. apply IH.
Qed.

(** X13. A message whose subject the pattern does not match is skipped:
    it causes no write and does not stop the loop, so the sweep ends in the
    same world as the sweep over the other messages. *)
Theorem sweep_skips_unparseable (l1 l2 : list (Z * Z * message))
    (t_key t_track : Z) (m : message) (w : world) :
  subject_match (msg_subject m) = None ->
  monitorFaxStatus (l1 ++ (t_key, t_track, m) :: l2) w = monitorFaxStatus (l1 ++ l2) w.
Proof.
  intros Hs. revert w. induction l1 as [| [[t1 t2] m1] rest IH]; intros w.
  - cbn [app]. rewrite monitorFaxStatus_step, (processMessage_unparsed _ _ _ _ Hs).
    reflexivity.
  - cbn [app]. rewrite !monitorFaxStatus_step. apply IH.
Qed.

(** X14. When the first line of the body has no [|], the notice has no
    tracking id and is applied by a single merge-write, to the record keyed
    by the trimmed fax key (a plain document id); no record is written
    under the empty id. *)
Theorem notice_without_tracking_id (t_key t_track : Z) (m : message) (w : world)
    (K S E : string) :
  subject_match (msg_subject m) = Some (K, S) ->
  plain_id (Js.trim K) = true ->
  Js.split "|" (cleanLineOf (msg_text m)) = [E] ->
  let p := {| c_faxKey := Js.trim K; c_status := S;
              c_requesterEmail := Js.trim E; c_trackingId := "" |} in
  processMessage t_key t_track m w =
    (Done tt,
     {| faxJobs := doc_set_merge (Js.trim K) (updateByFaxKey p t_key) (faxJobs w);
        fax_log := fax_log w;
        trace := trace w ++ [EvJobMerge (Js.trim K) (updateByFaxKey p t_key)] |}).
Proof.
  intros Hs _ Hb p. pose proof (subject_match_word _ _ _ Hs) as Hw.
  apply andb_prop in Hw as [_ Hw].
  unfold processMessage, parseCompletion. rewrite Hs, Hb. cbn [lookup list_lookup].
  rewrite or_default_empty, (trim_word _ Hw). reflexivity.
Qed.

Lemma processMessage_other_field (t_key t_track : Z) (m : message) (w : world)
    (k name : string) :
  name ∉ polled_fields ->
  field (jobs_after (processMessage t_key t_track m) w) k name
  = field (faxJobs w) k name.
Proof.
  intros Hn. rewrite processMessage_jobs.
  destruct (parseCompletion m) as [p|]; [| reflexivity]. cbv zeta.
  destruct (polled_updates_other_field p t_key name Hn) as [H1 _].
  destruct (polled_updates_other_field p t_track name Hn) as [_ H2].
  destruct (Js.truthy (c_trackingId p)); rewrite !field_doc_set_merge, ?H1, ?H2;
    repeat case_decide; reflexivity.
Qed.

Lemma processMessage_keeps_records (t_key t_track : Z) (m : message) (w : world)
    (k : string) :
  is_Some (faxJobs w !! k) ->
  is_Some (jobs_after (processMessage t_key t_track m) w !! k).
Proof.
  intros Hk. rewrite processMessage_jobs.
  destruct (parseCompletion m) as [p|]; [| exact Hk]. cbv zeta.
  destruct (Js.truthy (c_trackingId p)); unfold doc_set_merge;
    rewrite !lookup_insert; repeat case_decide; eauto.
Qed.

(** X15. A whole sweep never deletes a job record and never changes a
    field other than [faxKey], [trackingId], [status], [requesterEmail] and
    [updatedAt]: the destination and [createdAt] written at creation
    survive every polled update. *)
Theorem sweep_keeps_creation_fields (messages : list (Z * Z * message)) (w : world) :
  (forall k, is_Some (faxJobs w !! k) ->
     is_Some (jobs_after (monitorFaxStatus messages) w !! k)) /\
  (forall k name, name ∉ polled_fields ->
     field (jobs_after (monitorFaxStatus messages) w) k name = field (faxJobs w) k name).
Proof.
  revert w. induction messages as [| [[t_key t_track] m] rest IH]; intros w.
  - split; [intros k Hk; exact Hk | reflexivity].
  - unfold jobs_after. rewrite monitorFaxStatus_step.
    destruct (IH (world_of (processMessage t_key t_track m w))) as [IH1 IH2].
    split.
    + intros k Hk. apply IH1. apply processMessage_keeps_records, Hk.
    + intros k name Hn. unfold jobs_after in IH2. rewrite (IH2 k name Hn).
      apply processMessage_other_field, Hn.
Qed.

(** * From creation to reconciliation *)

Lemma generateTrackingId_truthy (d : JsDate.utc) :
  Js.truthy (generateTrackingId d) = true.
Proof. unfold generateTrackingId. rewrite append_cons. reflexivity. Qed.

(** X16. A polled notice that names the tracking id of a job created by
    a send, and whose fax key is a plain document id, completes that job
    without losing what creation wrote: the
    record keeps its tracking id, its destination and [createdAt], and
    takes the status, fax key and requester of the notice and the time of
    the tracking-id write as [updatedAt]. *)
Theorem created_job_is_completed_in_place (e : env) (w : world)
    (t_key t_track : Z) (m : message) (p : completion) :
  parseCompletion m = Some p ->
  plain_id (c_faxKey p) = true ->
  c_trackingId p = generateTrackingId (now e) ->
  let tid := generateTrackingId (now e) in
  (forall req sn pdf fn st gw,
     valid_store_request e req sn pdf fn st gw ->
     jobs_after (processMessage t_key t_track m) (world_of (sendFax e req w)) !! tid
     = Some (obj [("trackingId", VStr tid);
                  ("status", VStr (c_status p));
                  ("requesterEmail", VStr (c_requesterEmail p));
                  ("storeNumber", VStr sn);
                  ("createdAt", VTime (job_time e));
                  ("updatedAt", VTime t_track);
                  ("faxKey", VStr (c_faxKey p))])) /\
  (forall req fx pdf fn gw,
     valid_direct_request e req fx pdf fn gw ->
     jobs_after (processMessage t_key t_track m) (world_of (sendFaxDirect e req w)) !! tid
     = Some (obj [("trackingId", VStr tid);
                  ("status", VStr (c_status p));
                  ("faxNumber", VStr (Js.filter_chars Js.is_digit fx));
                  ("requesterEmail", VStr (c_requesterEmail p));
                  ("createdAt", VTime (job_time e));
                  ("updatedAt", VTime t_track);
                  ("faxKey", VStr (c_faxKey p))])).
Proof.
  intros Hp _ Ht tid. split.
  - intros req sn pdf fn st gw Hv.
    rewrite processMessage_jobs, Hp. cbv zeta.
    rewrite Ht, generateTrackingId_truthy, (sendFax_jobs _ _ _ _ _ _ _ _ Hv).
    fold tid. unfold doc_set_merge, updateByTrackingId, updateByFaxKey. rewrite Ht. fold tid.
    rewrite lookup_insert_eq.
    destruct (decide (c_faxKey p = tid)) as [-> | Hne].
    + rewrite !lookup_insert_eq. reflexivity.
    + rewrite lookup_insert_ne, lookup_insert_eq by exact Hne. reflexivity.
  - intros req fx pdf fn gw Hv.
    rewrite processMessage_jobs, Hp. cbv zeta.
    rewrite Ht, generateTrackingId_truthy, (sendFaxDirect_jobs _ _ _ _ _ _ _ Hv).
    fold tid. unfold doc_set_merge, updateByTrackingId, updateByFaxKey. rewrite Ht. fold tid.
    rewrite lookup_insert_eq.
    destruct (decide (c_faxKey p = tid)) as [-> | Hne].
    + rewrite !lookup_insert_eq. reflexivity.
    + rewrite lookup_insert_ne, lookup_insert_eq by exact Hne. reflexivity.
Qed.

(** ** The tracking id through the body of a notice *)

Lemma all_chars_app (p : ascii -> bool) (a b : string) :
  Js.all_chars p (a +:+ b) = Js.all_chars p a && Js.all_chars p b.
Proof.
  induction a as [| c r IH]; [reflexivity |].
  rewrite append_cons. cbn [Js.all_chars]. rewrite IH, andb_assoc. reflexivity.
Qed.

Lemma all_chars_impl (p q : ascii -> bool) (s : string) :
  (forall c, p c = true -> q c = true) ->
  Js.all_chars p s = true -> Js.all_chars q s = true.
Proof.
  intros Hpq. induction s as [| c r IH]; [reflexivity |]. cbn [Js.all_chars].
  intros [Hc Hr]%andb_prop. rewrite (Hpq _ Hc), (IH Hr). reflexivity.
Qed.

Lemma all_chars_trim_start (p : ascii -> bool) (s : string) :
  Js.all_chars p s = true -> Js.all_chars p (Js.trim_start s) = true.
Proof.
  induction s as [| c r IH]; [reflexivity |]. cbn [Js.trim_start].
  destruct (Js.is_space c); [| trivial].
  cbn [Js.all_chars]. intros [_ Hr]%andb_prop. apply IH, Hr.
Qed.

Lemma trim_start_idempotent (s : string) :
  Js.trim_start (Js.trim_start s) = Js.trim_start s.
Proof.
  induction s as [| c r IH]; [reflexivity |]. cbn [Js.trim_start].
  destruct (Js.is_space c) eqn:Hc; [exact IH |]. cbn [Js.trim_start]. rewrite Hc.
  reflexivity.
Qed.

Lemma trim_start_app (a : string) (c : ascii) (r : string) :
  Js.is_space c = false ->
  Js.trim_start (a +:+ String c r) = Js.trim_start a +:+ String c r.
Proof.
  intros Hc. induction a as [| x a IH].
  - rewrite append_empty. cbn [Js.trim_start]. rewrite Hc. reflexivity.
  - rewrite append_cons. cbn [Js.trim_start].
    destruct (Js.is_space x); [exact IH | rewrite append_cons; reflexivity].
Qed.

Lemma trim_end_solid (s : string) :
  Js.all_chars (fun c => negb (Js.is_space c)) s = true -> Js.trim_end s = s.
Proof.
  induction s as [| c r IH]; [reflexivity |]. cbn [Js.all_chars Js.trim_end].
  intros [Hc Hr]%andb_prop. apply negb_true_iff in Hc. rewrite (IH Hr), Hc. reflexivity.
Qed.

Lemma is_empty_app (a b : string) :
  Js.is_empty b = false -> Js.is_empty (a +:+ b) = false.
Proof. intros Hb. destruct a; [rewrite append_empty; exact Hb | reflexivity]. Qed.

Lemma trim_end_app (a b : string) :
  Js.is_empty b = false ->
  Js.all_chars (fun c => negb (Js.is_space c)) b = true ->
  Js.trim_end (a +:+ b) = a +:+ b.
Proof.
  intros Hb Hs. induction a as [| x a IH].
  - rewrite append_empty. apply trim_end_solid, Hs.
  - rewrite append_cons. cbn [Js.trim_end].
    rewrite IH, (is_empty_app _ _ Hb), andb_false_r. reflexivity.
Qed.

Lemma split_whole (sep : ascii) (s : string) :
  Js.all_chars (fun c => negb (Ascii.eqb c sep)) s = true -> Js.split sep s = [s].
Proof.
  induction s as [| c r IH]; [reflexivity |]. cbn [Js.all_chars Js.split].
  intros [Hc Hr]%andb_prop. apply negb_true_iff in Hc. rewrite Hc, (IH Hr). reflexivity.
Qed.

Lemma split_app (sep : ascii) (a b : string) :
  Js.all_chars (fun c => negb (Ascii.eqb c sep)) a = true ->
  Js.split sep (a +:+ String sep b) = a :: Js.split sep b.
Proof.
  induction a as [| c r IH].
  - intros _. rewrite append_empty. cbn [Js.split]. rewrite Ascii.eqb_refl. reflexivity.
  - cbn [Js.all_chars]. intros [Hc Hr]%andb_prop. apply negb_true_iff in Hc.
    rewrite append_cons. cbn [Js.split]. rewrite Hc, (IH Hr). reflexivity.
Qed.

Lemma strip_tags_none (s : string) :
  Js.all_chars (fun c => negb (Ascii.eqb c "<")) s = true -> Js.strip_tags s = s.
Proof.
  unfold Js.strip_tags. induction s as [| c r IH]; [reflexivity |].
  cbn [Js.all_chars Js.strip_tags_from].
  intros [Hc Hr]%andb_prop. apply negb_true_iff in Hc. rewrite Hc, (IH Hr). reflexivity.
Qed.

Lemma strip_final_period_snoc (s : string) :
  Js.strip_final_period (s +:+ ".") = s.
Proof.
  induction s as [| c r IH]; [reflexivity |].
  rewrite append_cons. cbn [Js.strip_final_period].
  rewrite (is_empty_app r "." eq_refl), IH. reflexivity.
Qed.

Lemma strip_final_period_none (s : string) :
  Js.all_chars (fun c => negb (Ascii.eqb c ".")) s = true ->
  Js.strip_final_period s = s.
Proof.
  induction s as [| c r IH]; [reflexivity |]. cbn [Js.all_chars Js.strip_final_period].
  intros [Hc Hr]%andb_prop. apply negb_true_iff in Hc. rewrite Hc, (IH Hr).
  destruct (Js.is_empty r); reflexivity.
Qed.

Lemma ordinary_cases (c : ascii) :
  ordinary c = true ->
  negb (Ascii.eqb c "|") = true /\ negb (Ascii.eqb c "<") = true
  /\ negb (Ascii.eqb c newline) = true.
Proof.
  unfold ordinary. destruct (Ascii.eqb c "|"), (Ascii.eqb c "<"), (Ascii.eqb c newline);
    cbn; intuition congruence.
Qed.

Lemma solid_cases (c : ascii) :
  solid c = true -> negb (Js.is_space c) = true /\ ordinary c = true.
Proof. unfold solid. intros [H1 H2]%andb_prop. split; assumption. Qed.

Lemma digit_or_dash_solid (c : ascii) :
  Js.is_word c || Ascii.eqb c "-" = true ->
  solid c = true /\ negb (Ascii.eqb c ".") = true.
Proof.
  destruct c as [[] [] [] [] [] [] [] []]; vm_compute; intuition congruence.
Qed.

Lemma generateTrackingId_chars (d : JsDate.utc) :
  four_digit_year d ->
  Js.all_chars (fun c => Js.is_word c || Ascii.eqb c "-") (generateTrackingId d) = true.
Proof.
  intros Hy. rewrite (generateTrackingId_stamp _ Hy), all_chars_app.
  apply andb_true_intro. split; [reflexivity |].
  apply (all_chars_impl Js.is_digit); [| apply stamp14_is_14_digits].
  intros c Hc. destruct c as [[] [] [] [] [] [] [] []]; vm_compute in Hc |- *; congruence.
Qed.

(** The body [requester|field] with an ordinary requester and a solid,
    non-empty second field parses into exactly these two fields. *)
Lemma notice_body_fields (E B : string) :
  Js.all_chars ordinary E = true ->
  Js.all_chars solid B = true -> Js.is_empty B = false ->
  Js.split "|" (cleanLineOf (E +:+ "|" +:+ B)) = [Js.trim_start E; B].
Proof.
  intros HE HB Hne.
  assert (HBs : Js.all_chars (fun c => negb (Js.is_space c)) B = true)
    by (apply (all_chars_impl solid); [apply solid_cases | exact HB]).
  assert (HBo : Js.all_chars ordinary B = true)
    by (apply (all_chars_impl solid); [apply solid_cases | exact HB]).
  set (cl := Js.trim_start E +:+ String "|" B).
  assert (HE' : Js.all_chars ordinary (Js.trim_start E) = true)
    by apply all_chars_trim_start, HE.
  assert (Hnl : Js.all_chars (fun c => negb (Ascii.eqb c newline)) cl = true).
  { unfold cl. rewrite all_chars_app. cbn [Js.all_chars].
    rewrite (all_chars_impl ordinary _ _ (fun c H => proj2 (proj2 (ordinary_cases c H))) HE').
    rewrite (all_chars_impl ordinary _ _ (fun c H => proj2 (proj2 (ordinary_cases c H))) HBo).
    reflexivity. }
  assert (Hlt : Js.all_chars (fun c => negb (Ascii.eqb c "<")) cl = true).
  { unfold cl. rewrite all_chars_app. cbn [Js.all_chars].
    rewrite (all_chars_impl ordinary _ _ (fun c H => proj1 (proj2 (ordinary_cases c H))) HE').
    rewrite (all_chars_impl ordinary _ _ (fun c H => proj1 (proj2 (ordinary_cases c H))) HBo).
    reflexivity. }
  assert (Htrim : forall a, Js.trim_end (a +:+ String "|" B) = a +:+ String "|" B).
  { intros a. apply trim_end_app; [reflexivity |]. cbn [Js.all_chars].
    rewrite HBs. reflexivity. }
  unfold cleanLineOf. rewrite append_cons, append_empty.
  unfold Js.trim at 2. rewrite trim_start_app by reflexivity. rewrite Htrim. fold cl.
  rewrite (split_whole newline cl Hnl). change (default "" ([cl] !! 0%nat)) with cl.
  assert (Hcl' : Js.trim cl = cl).
  { unfold Js.trim, cl. rewrite trim_start_app by reflexivity.
    rewrite trim_start_idempotent. apply Htrim. }
  rewrite Hcl', (strip_tags_none cl Hlt).
  unfold cl. rewrite split_app.
  - rewrite split_whole; [reflexivity |].
    apply (all_chars_impl ordinary); [apply ordinary_cases | exact HBo].
  - apply (all_chars_impl ordinary); [apply ordinary_cases | exact HE'].
Qed.

Lemma trim_solid (s : string) :
  Js.all_chars (fun c => negb (Js.is_space c)) s = true -> Js.trim s = s.
Proof.
  intros H. unfold Js.trim.
  assert (Hs : Js.trim_start s = s).
  { destruct s as [| c r]; [reflexivity |]. cbn [Js.all_chars] in H.
    apply andb_prop in H as [Hc _]. apply negb_true_iff in Hc.
    cbn [Js.trim_start]. rewrite Hc. reflexivity. }
  rewrite Hs. apply trim_end_solid, H.
Qed.

(** X17. The tracking id minted by a send comes back unchanged from the
    body of a completion notice: for a body [requester|id.] or
    [requester|id], whose requester part holds no [|], no [<] and no line
    feed, the parsed tracking id is the generated id (the final period is
    dropped, nothing else), and the parsed requester is the requester part
    trimmed. *)
Theorem tracking_id_survives_notice (d : JsDate.utc) (m : message) (K S E : string) :
  four_digit_year d ->
  subject_match (msg_subject m) = Some (K, S) ->
  Js.all_chars ordinary E = true ->
  msg_text m = E +:+ "|" +:+ generateTrackingId d +:+ "." \/
  msg_text m = E +:+ "|" +:+ generateTrackingId d ->
  parseCompletion m =
    Some {| c_faxKey := Js.trim K; c_status := S;
            c_requesterEmail := Js.trim E; c_trackingId := generateTrackingId d |}.
Proof.
  intros Hy Hs HE Ht.
  pose proof (subject_match_word _ _ _ Hs) as Hw. apply andb_prop in Hw as [_ Hw].
  pose proof (generateTrackingId_chars d Hy) as Hc.
  set (tid := generateTrackingId d) in *.
  assert (Hsolid : Js.all_chars solid tid = true)
    by (apply (all_chars_impl _ _ _ (fun c H => proj1 (digit_or_dash_solid c H)) Hc)).
  assert (Hnodot : Js.all_chars (fun c => negb (Ascii.eqb c ".")) tid = true)
    by (apply (all_chars_impl _ _ _ (fun c H => proj2 (digit_or_dash_solid c H)) Hc)).
  assert (Hne : Js.is_empty tid = false).
  { pose proof (generateTrackingId_truthy d) as Hg. fold tid in Hg.
    unfold Js.truthy in Hg. apply negb_true_iff, Hg. }
  assert (Hfields : exists B,
             Js.split "|" (cleanLineOf (msg_text m)) = [Js.trim_start E; B] /\
             Js.all_chars solid B = true /\ Js.strip_final_period B = tid).
  { destruct Ht as [-> | ->].
    - exists (tid +:+ ".").
      assert (HB : Js.all_chars solid (tid +:+ ".") = true)
        by (rewrite all_chars_app, Hsolid; reflexivity).
      split; [| split; [exact HB | apply strip_final_period_snoc]].
      apply notice_body_fields; [exact HE | exact HB | apply is_empty_app; reflexivity].
    - exists tid. split; [| split; [exact Hsolid | apply strip_final_period_none, Hnodot]].
      apply notice_body_fields; assumption. }
  destruct Hfields as (B & Hsplit & HB & Hstrip).
  unfold parseCompletion. rewrite Hs, Hsplit. cbn [lookup list_lookup].
  rewrite !or_default_empty, (trim_word _ Hw).
  rewrite (trim_solid B)
    by (apply (all_chars_impl solid); [apply solid_cases | exact HB]).
  rewrite Hstrip. unfold Js.trim at 2. rewrite trim_start_idempotent. reflexivity.
Qed.

(** ** When tracking ids collide *)

Lemma digit_inj (a b : Z) : JsDate.digit a = JsDate.digit b -> (a mod 10 = b mod 10)%Z.
Proof.
  unfold JsDate.digit. intros H. apply (f_equal N_of_ascii) in H.
  pose proof (Z.mod_pos_bound a 10 eq_refl). pose proof (Z.mod_pos_bound b 10 eq_refl).
  rewrite !N_ascii_embedding in H by lia. lia.
Qed.

Lemma pad2_inj (a b : Z) :
  (0 <= a < 100)%Z -> (0 <= b < 100)%Z -> JsDate.pad2 a = JsDate.pad2 b -> a = b.
Proof.
  intros Ha Hb. unfold JsDate.pad2. intros [= H1%digit_inj H0%digit_inj].
  Z.div_mod_to_equations. lia.
Qed.

Lemma pad4_inj (a b : Z) :
  (0 <= a <= 9999)%Z -> (0 <= b <= 9999)%Z -> JsDate.pad4 a = JsDate.pad4 b -> a = b.
Proof.
  intros Ha Hb. unfold JsDate.pad4, JsDate.pad3, JsDate.pad2.
  intros [= H3%digit_inj H2%digit_inj H1%digit_inj H0%digit_inj].
  Z.div_mod_to_equations. lia.
Qed.

Lemma append_inj_length (a a' b b' : string) :
  String.length a = String.length a' -> a +:+ b = a' +:+ b' -> a = a' /\ b = b'.
Proof.
  revert a'. induction a as [| c r IH]; intros [| c' r'] Hl; try discriminate Hl.
  - rewrite !append_empty. auto.
  - rewrite !append_cons. intros [= -> H]. injection Hl as Hl.
    destruct (IH _ Hl H) as [-> ->]. auto.
Qed.

(** X18. Within the four-digit years, two instants get the same tracking
    id exactly when they lie in the same clock second: ids of different
    seconds never collide, ids of the same second always do. *)
Theorem tracking_ids_collide_within_a_second (d1 d2 : JsDate.utc) :
  calendar_fields d1 -> calendar_fields d2 ->
  (generateTrackingId d1 = generateTrackingId d2 <-> same_second d1 d2).
Proof.
  intros (Hy1 & Hmo1 & Hd1 & Hh1 & Hmi1 & Hs1) (Hy2 & Hmo2 & Hd2 & Hh2 & Hmi2 & Hs2).
  split; [| apply same_second_same_id].
  rewrite (generateTrackingId_stamp d1 Hy1), (generateTrackingId_stamp d2 Hy2).
  intros H. apply append_inj_length in H as [_ H]; [| reflexivity].
  unfold stamp14 in H.
  apply append_inj_length in H as [Hy H]; [| reflexivity].
  apply append_inj_length in H as [Hmo H]; [| reflexivity].
  apply append_inj_length in H as [Hd H]; [| reflexivity].
  apply append_inj_length in H as [Hh H]; [| reflexivity].
  apply append_inj_length in H as [Hmi Hs]; [| reflexivity].
  unfold same_second. split; [apply pad4_inj; [lia | lia | exact Hy] |].
  repeat split; apply pad2_inj; assumption || lia.
Qed.

(** * getStores *)

#[global] Instance entry_le_total : Total entry_le.
Proof.
  intros a b. unfold entry_le.
  destruct (decide (st_storeNumber a.2 = st_storeNumber b.2)) as [He | Hne].
  - destruct (String.le_total a.1 b.1); [left | right]; right; split; congruence.
  - destruct (String.le_total (st_storeNumber a.2) (st_storeNumber b.2));
      [left | right]; left; split; congruence.
Qed.

#[global] Instance entry_le_trans : Transitive entry_le.
Proof.
  intros a b c. unfold entry_le.
  intros [[H1 N1] | [E1 L1]] [[H2 N2] | [E2 L2]].
  - left. split; [etrans; eassumption |]. intros He. rewrite <- He in H2.
    apply N1. apply (anti_symm String.le); assumption.
  - left. rewrite <- E2. split; assumption.
  - left. rewrite E1. split; assumption.
  - right. split; [congruence | etrans; eassumption].
Qed.

Lemma entry_le_storeNumber (a b : string * store) :
  entry_le a b -> String.le (st_storeNumber a.2) (st_storeNumber b.2).
Proof. intros [[H _] | [-> _]]; [exact H | reflexivity]. Qed.

(** The function that [exports.getStores] hands to [corsHandler]. *)
Lemma getStores_callback (e : env) (req : request) (w : world) :
  (method req = "GET" ->
   exists listed,
     getStores e req w
     = (Done {| s_code := 200; s_json := StoresListed (length listed) listed |}, w) /\
     length listed = size (stores e) /\
     ascending listed /\
     NoDup (entry_id <$> listed) /\
     forall id st,
       stores e !! id = Some st <-> {| entry_id := id; entry_data := st |} ∈ listed) /\
  (method req <> "GET" ->
   getStores e req w
   = (Done {| s_code := 405; s_json := StoresError "Method not allowed" None |}, w)).
Proof.
  split.
  2: { intros Hm. unfold getStores.
       destruct (String.eqb (method req) "GET") eqn:He; [| reflexivity].
       apply String.eqb_eq in He. contradiction. }
  intros Hm. unfold getStores. rewrite Hm, (String.eqb_refl "GET").
  cbn [negb]. unfold try_catch, ret.
  set (mk := fun doc : string * store => {| entry_id := doc.1; entry_data := doc.2 |}).
  pose proof (merge_sort_Permutation entry_le (map_to_list (stores e))) as Hperm.
  fold (orderByStoreNumber (stores e)) in Hperm.
  exists (mk <$> orderByStoreNumber (stores e)). split; [reflexivity |].
  split; [| split; [| split]].
  - rewrite length_fmap, Hperm. apply length_map_to_list.
  - unfold ascending.
    eapply StronglySorted_fmap; [| apply StronglySorted_merge_sort; apply _].
    intros x y. apply entry_le_storeNumber.
  - rewrite <- list_fmap_compose.
    change (entry_id ∘ mk) with (@fst string store).
    rewrite Hperm. apply NoDup_fst_map_to_list.
  - intros id st. rewrite <- elem_of_map_to_list, <- Hperm.
    rewrite list_elem_of_fmap. split.
    + intros Hin. exists (id, st). split; [reflexivity | exact Hin].
    + intros ([id' st'] & [= -> ->] & Hin). exact Hin.
Qed.

Lemma GET_is_no_preflight (req : request) : method req = "GET" -> is_preflight req = false.
Proof. intros Hm. unfold is_preflight. rewrite Hm. reflexivity. Qed.

(** X19. A GET to the exported [getStores] answers 200 with the whole
    directory and nothing else: every document appears once, under its id
    and with its data, the entries ascend in [storeNumber], and [count] is
    the number of documents.  A preflight request gets 204 from [cors];
    any other method is answered 405.  Nothing is written in any case. *)
Theorem getStores_lists_directory_in_order (e : env) (req : request) (w : world) :
  (method req = "GET" ->
   exists listed,
     exports_getStores e req w
     = (Done (Answer {| s_code := 200; s_json := StoresListed (length listed) listed |}),
        w) /\
     length listed = size (stores e) /\
     ascending listed /\
     NoDup (entry_id <$> listed) /\
     forall id st,
       stores e !! id = Some st <-> {| entry_id := id; entry_data := st |} ∈ listed) /\
  (is_preflight req = true -> exports_getStores e req w = (Done NoContent, w)) /\
  (method req <> "GET" -> is_preflight req = false ->
   exports_getStores e req w
   = (Done (Answer {| s_code := 405; s_json := StoresError "Method not allowed" None |}),
      w)).
Proof.
  destruct (getStores_callback e req w) as [Hget Hother].
  unfold exports_getStores. split; [| split].
  - intros Hm. destruct (Hget Hm) as (listed & Hrun & Hrest).
    exists listed. split; [| exact Hrest].
    apply corsHandler_done; [apply GET_is_no_preflight, Hm | exact Hrun].
  - apply corsHandler_preflight.
  - intros Hm Hp. apply corsHandler_done; [exact Hp | exact (Hother Hm)].
Qed.

(** * The seed script *)

Lemma commitBatch_app (l1 l2 : list store) (c : gmap string store) :
  commitBatch (l1 ++ l2) c = commitBatch l2 (commitBatch l1 c).
Proof. apply foldl_app. Qed.

Lemma commitBatch_lookup_other (l : list store) (c : gmap string store) (k : string) :
  k ∉ (st_storeNumber <$> l) -> commitBatch l c !! k = c !! k.
Proof.
  revert c. induction l as [| x l IH]; intros c Hk; [reflexivity |].
  rewrite fmap_cons, not_elem_of_cons in Hk. destruct Hk as [Hne Hk].
  cbn [commitBatch foldl]. fold (commitBatch l (<[st_storeNumber x := x]> c)).
  rewrite (IH _ Hk). apply lookup_insert_ne. congruence.
Qed.

Lemma commitBatch_lookup_written (l : list store) (c c' : gmap string store)
    (k : string) :
  k ∈ (st_storeNumber <$> l) -> commitBatch l c !! k = commitBatch l c' !! k.
Proof.
  revert c c'. induction l as [| x l IH]; intros c c' Hk; [inversion Hk |].
  cbn [commitBatch foldl].
  fold (commitBatch l (<[st_storeNumber x := x]> c)).
  fold (commitBatch l (<[st_storeNumber x := x]> c')).
  destruct (decide (k ∈ st_storeNumber <$> l)) as [Hin | Hout]; [apply IH, Hin |].
  rewrite !(commitBatch_lookup_other _ _ _ Hout).
  rewrite fmap_cons, elem_of_cons in Hk. destruct Hk as [-> | Hk]; [| contradiction].
  rewrite !lookup_insert_eq. reflexivity.
Qed.

Lemma commitBatch_lookup_unique (l : list store) (c : gmap string store) (st : store) :
  NoDup (st_storeNumber <$> l) -> st ∈ l ->
  commitBatch l c !! st_storeNumber st = Some st.
Proof.
  revert c. induction l as [| x l IH]; intros c Hnd Hin; [inversion Hin |].
  rewrite fmap_cons in Hnd. apply NoDup_cons in Hnd as [Hx Hnd].
  cbn [commitBatch foldl]. fold (commitBatch l (<[st_storeNumber x := x]> c)).
  apply elem_of_cons in Hin as [-> | Hin].
  - rewrite (commitBatch_lookup_other _ _ _ Hx). apply lookup_insert_eq.
  - apply IH; assumption.
Qed.

Lemma commitBatch_idempotent (l : list store) (c : gmap string store) :
  commitBatch l (commitBatch l c) = commitBatch l c.
Proof.
  apply map_eq. intros k.
  destruct (decide (k ∈ st_storeNumber <$> l)) as [Hin | Hout].
  - apply commitBatch_lookup_written, Hin.
  - apply commitBatch_lookup_other, Hout.
Qed.

Lemma slice_chunk {A} (i : nat) (l : list A) :
  slice i (i + batchSize) l = take batchSize (drop i l).
Proof. unfold slice. f_equal. lia. Qed.

Lemma chunk_then_rest {A} (i : nat) (l : list A) :
  take batchSize (drop i l) ++ drop (i + batchSize) l = drop i l.
Proof. rewrite <- drop_drop. apply take_drop. Qed.

Lemma forallb_drop {A} (p : A -> bool) (n : nat) (l : list A) :
  forallb p l = true -> forallb p (drop n l) = true.
Proof.
  revert n. induction l as [| x l IH]; intros [| n] H; try exact H.
  cbn [forallb] in H. apply andb_prop in H as [_ H]. apply (IH n H).
Qed.

Lemma forallb_take {A} (p : A -> bool) (n : nat) (l : list A) :
  forallb p l = true -> forallb p (take n l) = true.
Proof.
  revert n. induction l as [| x l IH]; intros [| n] H; try reflexivity.
  cbn [forallb] in H. apply andb_prop in H as [Hx H].
  cbn [take forallb]. rewrite Hx. apply (IH n H).
Qed.

Lemma plain_chunk (i : nat) (storesData : list store) :
  plain_stores storesData = true ->
  plain_stores (take batchSize (drop i storesData)) = true.
Proof. intros H. apply forallb_take, forallb_drop, H. Qed.

Lemma plain_id_not_empty (k : string) : plain_id k = true -> k <> "".
Proof.
  unfold plain_id. intros H ->. discriminate H.
Qed.

Lemma plain_stores_elem (l : list store) (st : store) :
  plain_stores l = true -> st ∈ l -> plain_id (st_storeNumber st) = true.
Proof.
  intros H Hin. apply list_elem_of_In in Hin. unfold plain_stores in H.
  rewrite forallb_forall in H. apply (H st Hin).
Qed.

(** With every commit accepted, the loop from index [i] writes the rest
    of the data. *)
Lemma seed_loop_accepted (fuel : nat) (commit_fails : nat -> bool)
    (storesData : list store) (i : nat) (st : seed_state) :
  plain_stores storesData = true ->
  (forall k, commit_fails k = false) ->
  length storesData - i <= fuel ->
  seed_loop fuel commit_fails storesData i st
  = Some (0, {| seeded := commitBatch (drop i storesData) (seeded st);
                totalWritten := totalWritten st + length (drop i storesData) |}).
Proof.
  intros Hplain Hok. revert i st. induction fuel as [| fuel IH]; intros i st Hf.
  - cbn [seed_loop]. destruct (Nat.ltb_spec i (length storesData)); [lia |].
    rewrite drop_ge by lia. destruct st. cbn. repeat f_equal. lia.
  - cbn [seed_loop]. destruct (Nat.ltb_spec i (length storesData)) as [Hlt | Hge].
    + cbv zeta. rewrite slice_chunk, (plain_chunk _ _ Hplain). cbn [negb].
      rewrite Hok, IH by (unfold batchSize; lia). cbn [seeded totalWritten].
      rewrite <- commitBatch_app, chunk_then_rest.
      pose proof (f_equal length (chunk_then_rest i storesData)) as Hl.
      rewrite length_app in Hl. do 3 f_equal. lia.
    + rewrite drop_ge by lia. destruct st. cbn. repeat f_equal. lia.
Qed.

(** X20. When every commit is accepted the script exits with code 0
    having written every store of the file (its store numbers being plain
    document ids), in order, whatever the number of batches: the count it reports is the length of the file, a store
    whose number occurs once in the file is stored under that number as it
    stands in the file, and no other document is touched. *)
Theorem seeding_writes_every_store (storesData : list store)
    (commit_fails : nat -> bool) (c : gmap string store) :
  plain_stores storesData = true ->
  (forall k, commit_fails k = false) ->
  seedStores (Some storesData) commit_fails c
  = Some (0, {| seeded := commitBatch storesData c;
                totalWritten := length storesData |}) /\
  (NoDup (st_storeNumber <$> storesData) ->
   forall st, st ∈ storesData ->
     commitBatch storesData c !! st_storeNumber st = Some st) /\
  (forall k, k ∉ (st_storeNumber <$> storesData) ->
     commitBatch storesData c !! k = c !! k).
Proof.
  intros Hplain Hok. split; [| split].
  - unfold seedStores. rewrite seed_loop_accepted by (assumption || lia).
    rewrite drop_0. reflexivity.
  - intros Hnd st Hin. apply commitBatch_lookup_unique; assumption.
  - intros k Hk. apply commitBatch_lookup_other, Hk.
Qed.

(** X21. Running the script again on the same file changes nothing: the
    directory after the second run is the directory after the first. *)
Theorem seeding_is_repeatable (storesData : list store)
    (commit_fails : nat -> bool) (c : gmap string store) :
  plain_stores storesData = true ->
  (forall k, commit_fails k = false) ->
  exists st1,
    seedStores (Some storesData) commit_fails c = Some (0, st1) /\
    seedStores (Some storesData) commit_fails (seeded st1) = Some (0, st1).
Proof.
  intros Hplain Hok. eexists. split.
  - unfold seedStores. rewrite seed_loop_accepted by (assumption || lia).
    rewrite drop_0. reflexivity.
  - unfold seedStores. rewrite seed_loop_accepted by (assumption || lia).
    rewrite drop_0. cbn [seeded totalWritten]. rewrite commitBatch_idempotent.
    reflexivity.
Qed.

Lemma seed_loop_rejected (fuel : nat) (commit_fails : nat -> bool)
    (storesData : list store) (j k : nat) (st : seed_state) :
  plain_stores storesData = true ->
  (forall n, n < k -> commit_fails n = false) -> commit_fails k = true ->
  j <= k -> k * batchSize < length storesData ->
  length storesData - j * batchSize <= fuel ->
  seed_loop fuel commit_fails storesData (j * batchSize) st
  = Some (1, {| seeded :=
                  commitBatch (take ((k - j) * batchSize) (drop (j * batchSize) storesData))
                    (seeded st);
                totalWritten := totalWritten st + (k - j) * batchSize |}).
Proof.
  intros Hplain Hok Hfail. revert j st.
  induction fuel as [| fuel IH]; intros j st Hj Hk Hf.
  - unfold batchSize in *. lia.
  - cbn [seed_loop].
    destruct (Nat.ltb_spec (j * batchSize) (length storesData)) as [_ | Hge];
      [| unfold batchSize in *; lia].
    assert (Hdiv : j * batchSize / batchSize = j) by (apply Nat.div_mul; discriminate).
    cbv zeta. rewrite Hdiv, slice_chunk, (plain_chunk _ _ Hplain). cbn [negb].
    destruct (decide (j = k)) as [-> | Hne].
    + rewrite Hfail, Nat.sub_diag. destruct st. cbn. do 3 f_equal. lia.
    + rewrite Hok by lia.
      replace (j * batchSize + batchSize) with (S j * batchSize) by lia.
      rewrite IH by (unfold batchSize in *; lia). cbn [seeded totalWritten].
      replace (S j * batchSize) with (j * batchSize + batchSize) by lia.
      rewrite <- commitBatch_app, <- drop_drop, take_take_drop.
      assert (Hlen : length (take batchSize (drop (j * batchSize) storesData)) = batchSize).
      { rewrite length_take, length_drop. unfold batchSize in *. lia. }
      assert (Heq : batchSize + (k - S j) * batchSize = (k - j) * batchSize)
        by (unfold batchSize; lia).
      rewrite Hlen, <- Nat.add_assoc, Heq. reflexivity.
Qed.

(** X22. When the commit of a batch is rejected (the store numbers of
    the file being plain document ids) the script exits with code 1 at
    once: the batches before it stay written, in whole, the
    rejected batch and everything after it are not written, and the count
    is the number of stores in the batches before. *)
Theorem seeding_stops_at_rejected_batch (storesData : list store)
    (commit_fails : nat -> bool) (c : gmap string store) (k : nat) :
  plain_stores storesData = true ->
  (forall n, n < k -> commit_fails n = false) -> commit_fails k = true ->
  k * batchSize < length storesData ->
  seedStores (Some storesData) commit_fails c
  = Some (1, {| seeded := commitBatch (take (k * batchSize) storesData) c;
                totalWritten := k * batchSize |}).
Proof.
  intros Hplain Hok Hfail Hk. unfold seedStores.
  change 0 with (0 * batchSize) at 1.
  rewrite (seed_loop_rejected _ _ _ 0 k) by (assumption || unfold batchSize in *; lia).
  cbn [seeded totalWritten]. rewrite Nat.sub_0_r, drop_0. reflexivity.
Qed.

(** * The directory and the store send *)

(** X23. [sendFax] answers 404 only for a well-formed request whose store
    number is not a document id of the directory: a POST with the three
    required fields present and not empty. *)
Theorem not_found_only_for_unknown_store (e : env) (req : request) (w : world)
    (resp : response) :
  result_of (sendFax e req w) = Done resp -> code resp = 404%nat ->
  method req = "POST" /\
  exists sn pdf fn,
    storeNumber req = Some sn /\ pdfBase64 req = Some pdf /\ fileName req = Some fn /\
    sn <> "" /\ pdf <> "" /\ fn <> "" /\ stores e !! sn = None /\
    json resp = ErrorBody ("Store " +:+ sn +:+ " not found") None.
Proof.
  unfold sendFax, result_of. run_effects.
  destruct (negb _) eqn:Hm; [cbn [fst]; intros [= <-]; discriminate |].
  apply eqb_POST in Hm.
  destruct (storeNumber req) as [sn|]; [| cbn [fst]; intros [= <-]; discriminate].
  destruct (pdfBase64 req) as [pdf|]; [| cbn [fst]; intros [= <-]; discriminate].
  destruct (fileName req) as [fn|]; [| cbn [fst]; intros [= <-]; discriminate].
  destruct (Js.truthy sn) eqn:T1; cbn [negb orb];
    [| cbn [fst]; intros [= <-]; discriminate].
  destruct (Js.truthy pdf) eqn:T2; cbn [negb orb];
    [| cbn [fst]; intros [= <-]; discriminate].
  destruct (Js.truthy fn) eqn:T3; cbn [negb orb];
    [| cbn [fst]; intros [= <-]; discriminate].
  destruct (stores e !! sn) as [st|] eqn:Hs.
  - destruct (getFaxGatewayEmail (cfg e)) as [gw|];
      [| cbn [fst]; intros [= <-]; discriminate].
    destruct (negb _); [cbn [fst]; intros [= <-]; discriminate |].
    destruct (mail_failure e); cbn [fst]; intros [= <-]; discriminate.
  - destruct (doc_refused e sn); [cbn [fst]; intros [= <-]; discriminate |].
    cbn [fst]. intros [= <-] _. split; [exact Hm |].
    exists sn, pdf, fn. repeat split; auto using truthy_true_nonempty.
Qed.

(** X24. Seeding and sending fit together: once the script has run to
    the end on a file in which each store number is a plain document id
    and occurs once, a store send
    to a store of the file passes the lookup and, with the gateway
    configured and the mail delivered, is answered 200 with the number and
    the location that the file gives. *)
Theorem seeded_store_can_be_sent_to (storesData : list store)
    (commit_fails : nat -> bool) (c : gmap string store) (st : store)
    (e : env) (req : request) (w : world) (pdf fn gw : string) :
  plain_stores storesData = true ->
  (forall k, commit_fails k = false) ->
  NoDup (st_storeNumber <$> storesData) -> st ∈ storesData ->
  (exists n, seedStores (Some storesData) commit_fails c
             = Some (0, {| seeded := stores e; totalWritten := n |})) ->
  method req = "POST" -> storeNumber req = Some (st_storeNumber st) ->
  pdfBase64 req = Some pdf -> fileName req = Some fn ->
  pdf <> "" -> fn <> "" ->
  getFaxGatewayEmail (cfg e) = Some gw -> gw <> "" -> mail_failure e = None ->
  result_of (sendFax e req w)
  = Done {| code := 200;
            json := StoreSent
                      ("Fax sent to " +:+ st_location st +:+ " ("
                       +:+ st_storeNumber st +:+ ")")
                      (generateTrackingId (now e)) (st_storeNumber st)
                      (st_location st) |}.
Proof.
  intros Hplain Hok Hnd Hin (n & Hseed) Hm H1 H2 H3 N2 N3 Hg Ng Hmail.
  pose proof (plain_id_not_empty _ (plain_stores_elem _ _ Hplain Hin)) as N1.
  unfold seedStores in Hseed. rewrite seed_loop_accepted in Hseed by (assumption || lia).
  rewrite drop_0 in Hseed. injection Hseed as Hstores _.
  assert (Hv : valid_store_request e req (st_storeNumber st) pdf fn st gw).
  { unfold valid_store_request. rewrite <- Hstores.
    repeat split; auto using commitBatch_lookup_unique. }
  rewrite (sendFax_valid _ _ _ _ _ _ _ _ Hv). cbv zeta.
  unfold result_of. run_effects. rewrite Hmail. reflexivity.
Qed.

(** * The two copies of the send handlers *)

Ltac same_answer := eexists; repeat split; reflexivity.

(** X25. The handlers with tracking answer every request as the handlers
    of the second copy do, but for the tracking id: same status code, same
    message and destination, same audit entries.  The second copy never
    writes to [faxJobs]. *)
Theorem tracking_keeps_the_answers (e : env) (req : request) (w : world) :
  (exists resp,
     result_of (sendFax e req w) = Done resp /\
     result_of (sendFaxPlain e req w) = Done (without_trackingId resp) /\
     fax_log (world_of (sendFaxPlain e req w)) = fax_log (world_of (sendFax e req w)) /\
     faxJobs (world_of (sendFaxPlain e req w)) = faxJobs w) /\
  (exists resp,
     result_of (sendFaxDirect e req w) = Done resp /\
     result_of (sendFaxDirectPlain e req w) = Done (without_trackingId resp) /\
     fax_log (world_of (sendFaxDirectPlain e req w))
     = fax_log (world_of (sendFaxDirect e req w)) /\
     faxJobs (world_of (sendFaxDirectPlain e req w)) = faxJobs w).
Proof.
  split.
  - unfold sendFax, sendFaxPlain, result_of, world_of. run_effects.
    destruct (negb _); [same_answer |].
    destruct (storeNumber req) as [sn|]; [| same_answer].
    destruct (pdfBase64 req) as [pdf|]; [| same_answer].
    destruct (fileName req) as [fn|]; [| same_answer].
    destruct (_ || _); [same_answer |].
    destruct (stores e !! sn) as [st|]; [| destruct (doc_refused e sn); same_answer].
    destruct (getFaxGatewayEmail (cfg e)) as [gw|]; [| same_answer].
    destruct (negb _); [same_answer |].
    destruct (mail_failure e); same_answer.
  - unfold sendFaxDirect, sendFaxDirectPlain, result_of, world_of. run_effects.
    destruct (negb _); [same_answer |].
    destruct (faxNumber req) as [fx|]; [| same_answer].
    destruct (pdfBase64 req) as [pdf|]; [| same_answer].
    destruct (fileName req) as [fn|]; [| same_answer].
    destruct (_ || _); [same_answer |].
    destruct (Nat.ltb _ _); [same_answer |].
    destruct (getFaxGatewayEmail (cfg e)) as [gw|]; [| same_answer].
    destruct (negb _); [same_answer |].
    destruct (mail_failure e); same_answer.
Qed.

(** * The subject pattern *)

Lemma after_prefix_inv (p s r : string) : Js.after_prefix p s = Some r -> s = p +:+ r.
Proof.
  revert s. induction p as [| a p IH]; intros s H.
  - destruct s; cbn [Js.after_prefix] in H; injection H as <-;
      rewrite append_empty; reflexivity.
  - destruct s as [| b s]; cbn [Js.after_prefix] in H; [discriminate |].
    destruct (Ascii.eqb a b) eqn:E; [| discriminate].
    apply Ascii.eqb_eq in E as ->. rewrite append_cons. f_equal. apply IH, H.
Qed.

Lemma span_spec (p : ascii -> bool) (s : string) :
  s = (Js.span p s).1 +:+ (Js.span p s).2 /\
  Js.all_chars p (Js.span p s).1 = true /\
  match (Js.span p s).2 with EmptyString => True | String c _ => p c = false end.
Proof.
  induction s as [| c r IH]; cbn [Js.span].
  - repeat split.
  - destruct (p c) eqn:Hc.
    + destruct (Js.span p r) as [a b]. cbn [fst snd] in *.
      destruct IH as (H1 & H2 & H3). rewrite append_cons. cbn [Js.all_chars].
      rewrite Hc, H2. repeat split; [f_equal; exact H1 | exact H3].
    + cbn [fst snd]. rewrite append_empty. repeat split. exact Hc.
Qed.

Lemma span_app_all (p : ascii -> bool) (a b : string) :
  Js.all_chars p a = true ->
  Js.span p (a +:+ b) = (a +:+ (Js.span p b).1, (Js.span p b).2).
Proof.
  intros Ha. induction a as [| c r IH].
  - rewrite !append_empty. destruct (Js.span p b); reflexivity.
  - cbn [Js.all_chars] in Ha. apply andb_prop in Ha as [Hc Hr].
    rewrite !append_cons. cbn [Js.span]. rewrite Hc, (IH Hr). reflexivity.
Qed.

Lemma match_here_sound (s K S : string) :
  match_here s = Some (K, S) ->
  exists post,
    s = "FAXDONE:" +:+ K +:+ ":" +:+ S +:+ post /\
    K <> "" /\ Js.all_chars (fun c => negb (Ascii.eqb c ":")) K = true /\
    S <> "" /\ Js.all_chars Js.is_word S = true /\
    match post with EmptyString => True | String c _ => Js.is_word c = false end.
Proof.
  unfold match_here. intros H.
  destruct (Js.after_prefix "FAXDONE:" s) as [r|] eqn:Hp; [| discriminate].
  apply after_prefix_inv in Hp as ->.
  destruct (span_spec (fun c => negb (Ascii.eqb c ":")) r) as (Hr & Hg1 & _).
  destruct (Js.span (fun c => negb (Ascii.eqb c ":")) r) as [g1 r1].
  cbn [fst snd] in Hr, Hg1.
  destruct (Js.is_empty g1) eqn:He; [discriminate |].
  destruct r1 as [| c r2]; [discriminate |].
  destruct (Ascii.eqb c ":") eqn:Hc; [| discriminate].
  apply Ascii.eqb_eq in Hc as ->.
  destruct (span_spec Js.is_word r2) as (Hr2 & Hg2 & Hpost).
  destruct (Js.span Js.is_word r2) as [g2 post]. cbn [fst snd] in Hr2, Hg2, Hpost.
  destruct (Js.is_empty g2) eqn:He2; [discriminate |].
  injection H as <- <-. exists post.
  split; [| repeat split].
  - rewrite Hr, Hr2. reflexivity.
  - intros ->. discriminate He.
  - exact Hg1.
  - intros ->. discriminate He2.
  - exact Hg2.
  - exact Hpost.
Qed.

Lemma match_here_complete (K S post : string) :
  K <> "" -> Js.all_chars (fun c => negb (Ascii.eqb c ":")) K = true ->
  S <> "" -> Js.all_chars Js.is_word S = true ->
  match_here ("FAXDONE:" +:+ K +:+ ":" +:+ S +:+ post)
  = Some (K, S +:+ (Js.span Js.is_word post).1).
Proof.
  intros HK HKc HS HSw.
  unfold match_here. norm_append.
  change (Js.after_prefix "FAXDONE:" ?s) with (Some (K +:+ String ":" (S +:+ post))).
  cbv beta iota. rewrite (span_append _ K _ HKc) by reflexivity.
  destruct K; [congruence |]. cbv beta iota delta [Js.is_empty].
  rewrite (Ascii.eqb_refl ":"), (span_app_all _ S _ HSw).
  destruct S; [congruence |]. rewrite append_cons. reflexivity.
Qed.

(** X26. The subject pattern finds a notice exactly when there is one: a
    match [(K, S)] comes from an occurrence of [FAXDONE:K:S] in the
    subject, with [K] a non-empty run without colon and [S] a non-empty
    run of word characters that stops at the end or before a character
    that is no word character; and a subject without a match holds no
    such occurrence at all. *)
Theorem subject_match_finds_notices (s : string) :
  (forall K S, subject_match s = Some (K, S) ->
     exists pre post,
       s = pre +:+ "FAXDONE:" +:+ K +:+ ":" +:+ S +:+ post /\
       K <> "" /\ Js.all_chars (fun c => negb (Ascii.eqb c ":")) K = true /\
       S <> "" /\ Js.all_chars Js.is_word S = true /\
       match post with EmptyString => True | String c _ => Js.is_word c = false end) /\
  (subject_match s = None ->
   forall pre K S post,
     K <> "" -> Js.all_chars (fun c => negb (Ascii.eqb c ":")) K = true ->
     S <> "" -> Js.all_chars Js.is_word S = true ->
     s <> pre +:+ "FAXDONE:" +:+ K +:+ ":" +:+ S +:+ post).
Proof.
  split.
  - induction s as [| c r IH]; intros K S H; cbn [subject_match] in H.
    + discriminate H.
    + destruct (match_here (String c r)) as [[g1 g2]|] eqn:Hm.
      * injection H as <- <-. apply match_here_sound in Hm as (post & Hs & Hrest).
        exists "", post. rewrite append_empty. split; [exact Hs | exact Hrest].
      * destruct (IH K S H) as (pre & post & Hs & Hrest).
        exists (String c pre), post. rewrite append_cons, <- Hs.
        split; [reflexivity | exact Hrest].
  - intros Hnone pre K S post HK HKc HS HSw ->.
    induction pre as [| c pre IH].
    + rewrite append_empty in Hnone.
      pose proof (match_here_complete K S post HK HKc HS HSw) as Hm.
      destruct ("FAXDONE:" +:+ K +:+ ":" +:+ S +:+ post);
        cbn [subject_match] in Hnone; rewrite Hm in Hnone; discriminate Hnone.
    + rewrite append_cons in Hnone. cbn [subject_match] in Hnone.
      destruct (match_here _); [discriminate Hnone | exact (IH Hnone)].
Qed.

(** * Concrete runs of the further properties *)

Lemma refused_request_changes_nothing_witness :
  is_refusal {| code := 404; json := ErrorBody "Store #999 not found" None |} /\
  world_of (sendFax env0 req_unknown_store empty_world) = empty_world.
Proof.
  assert (H : is_refusal {| code := 404; json := ErrorBody "Store #999 not found" None |}).
  { eexists. split; [reflexivity | right; left; reflexivity]. }
  split; [exact H |].
  apply (proj1 (refused_request_changes_nothing env0 req_unknown_store empty_world _ H)).
  reflexivity.
Defined.

Lemma audit_entry_exactly_on_200_witness :
  fax_log (world_of (sendFax env0 req_unknown_store empty_world)) = fax_log empty_world /\
  exists entry,
    fax_log (world_of (sendFaxDirect env0 req_direct empty_world))
    = fax_log empty_world ++ [entry] /\
    log_status entry = "sent" /\ Some (log_fileName entry) = fileName req_direct /\
    log_storeNumber entry = None /\ log_location entry = "Direct Fax" /\
    log_type entry = Js.or_default (type req_direct) "unknown" /\
    log_sentAt entry = log_time env0.
Proof.
  split.
  - apply (proj1 (audit_entry_exactly_on_200 env0 req_unknown_store empty_world)
             {| code := 404; json := ErrorBody "Store #999 not found" None |} eq_refl).
    discriminate.
  - exact (proj1 (proj2 (audit_entry_exactly_on_200 env0 req_direct empty_world)
                    {| code := 200;
                       json := DirectSent "Fax sent to 15553412222" tid0 "15553412222" |}
                    eq_refl) eq_refl).
Defined.

Lemma missing_field_is_400_witness :
  method req_empty_name = "POST" /\
  falsy (storeNumber req_empty_name) || falsy (pdfBase64 req_empty_name)
  || falsy (fileName req_empty_name) = true /\
  sendFax env0 req_empty_name empty_world
  = (Done {| code := 400;
             json := ErrorBody "Missing required fields: storeNumber, pdfBase64, fileName"
                       None |}, empty_world).
Proof.
  split; [reflexivity |]. split; [reflexivity |].
  apply (proj1 (missing_field_is_400 env0 req_empty_name empty_world eq_refl)).
  reflexivity.
Defined.

Lemma short_fax_number_is_400_witness :
  (String.length (Js.filter_chars Js.is_digit "555-1234") < 10)%nat /\
  sendFaxDirect env0 req_short empty_world
  = (Done {| code := 400;
             json := ErrorBody "Invalid fax number - must be at least 10 digits" None |},
     empty_world).
Proof.
  assert (H : (String.length (Js.filter_chars Js.is_digit "555-1234") < 10)%nat)
    by (vm_compute; lia).
  split; [exact H |].
  apply (short_fax_number_is_400 env0 req_short empty_world
           "555-1234" "JVBERi0=" "Blank.pdf");
    reflexivity || discriminate || exact H.
Defined.

Lemma unconfigured_gateway_is_500_witness :
  falsy (fax_gateway_email (cfg env_no_gateway)) = true /\
  falsy (FAX_GATEWAY_EMAIL (cfg env_no_gateway)) = true /\
  sendFax env_no_gateway req_store empty_world
  = (Done {| code := 500; json := ErrorBody "Fax gateway email not configured" None |},
     empty_world) /\
  sendFaxDirect env_no_gateway req_direct empty_world
  = (Done {| code := 500; json := ErrorBody "Fax gateway email not configured" None |},
     empty_world).
Proof.
  split; [reflexivity |]. split; [reflexivity |].
  destruct (unconfigured_gateway_is_500 env_no_gateway req_store empty_world
              eq_refl eq_refl eq_refl) as [H1 _].
  destruct (unconfigured_gateway_is_500 env_no_gateway req_direct empty_world
              eq_refl eq_refl eq_refl) as [_ H2].
  split.
  - apply (H1 "#023" "JVBERi0=" "Ack.pdf" albany); reflexivity || discriminate.
  - apply (H2 "1 (555) 341-2222" "JVBERi0=" "Blank.pdf");
      reflexivity || discriminate || (vm_compute; lia).
Defined.

Lemma getFromEmail_precedence_witness :
  falsy (smtp_from cfg_from_env) = true /\ falsy (SMTP_FROM cfg_from_env) = false /\
  Some (getFromEmail cfg_from_env) = SMTP_FROM cfg_from_env.
Proof.
  split; [reflexivity |]. split; [reflexivity |].
  exact (proj1 (proj2 (proj2 (getFromEmail_precedence cfg_from_env))) eq_refl eq_refl).
Defined.

Lemma getFaxGatewayEmail_precedence_witness :
  falsy (fax_gateway_email cfg_from_env) = true /\
  getFaxGatewayEmail cfg_from_env = FAX_GATEWAY_EMAIL cfg_from_env.
Proof.
  split; [reflexivity |].
  exact (proj2 (proj2 (getFaxGatewayEmail_precedence cfg_from_env)) eq_refl).
Defined.

Lemma cleanFaxNumber_is_digits_witness :
  Js.all_chars Js.is_digit "15553412222" = true /\
  Js.filter_chars Js.is_digit "15553412222" = "15553412222".
Proof.
  split; [reflexivity |].
  destruct (cleanFaxNumber_is_digits "15553412222") as (_ & _ & _ & H).
  exact (H eq_refl).
Defined.

Lemma sendFaxDirect_ignores_formatting_witness :
  Js.filter_chars Js.is_digit "1 (555) 341-2222"
  = Js.filter_chars Js.is_digit "15553412222" /\
  sendFaxDirect env0 req_direct empty_world
  = sendFaxDirect env0 req_direct_digits empty_world.
Proof.
  split; [reflexivity |].
  apply (sendFaxDirect_ignores_formatting env0 empty_world req_direct req_direct_digits
           "1 (555) 341-2222" "15553412222");
    reflexivity || discriminate.
Defined.

Lemma mail_goes_to_gateway_once_witness :
  let m := storeMail cfg0 "fax@gateway.example" tid0 "#023" albany "Ack.pdf" "JVBERi0=" in
  In (EvSendMail m true) (trace (world_of (sendFax env0 req_store empty_world))) /\
  getFaxGatewayEmail (cfg env0) = Some (mail_to m) /\
  mail_from m = getFromEmail (cfg env0) /\
  fileName req_store = Some (att_filename m) /\
  pdfBase64 req_store = Some (att_content m).
Proof.
  cbv zeta.
  assert (Hin : In (EvSendMail
                      (storeMail cfg0 "fax@gateway.example" tid0 "#023" albany
                         "Ack.pdf" "JVBERi0=") true)
                  (trace (world_of (sendFax env0 req_store empty_world)))).
  { right. left. reflexivity. }
  split; [exact Hin |].
  destruct (mail_goes_to_gateway_once env0 req_store empty_world)
    as [(evs & Htr & _ & Hm) _].
  change (trace empty_world ++ evs) with evs in Htr. rewrite Htr in Hin.
  destruct (Hm _ _ Hin) as (H1 & _ & H3 & H4 & H5 & _).
  repeat split; assumption.
Defined.

Lemma sweep_skips_unparseable_witness :
  subject_match (msg_subject msg_other) = None /\
  monitorFaxStatus ([(300%Z, 301%Z, msg_success)]
                    ++ (302%Z, 303%Z, msg_other) :: [(304%Z, 305%Z, msg_pending)]) w_created
  = monitorFaxStatus ([(300%Z, 301%Z, msg_success)] ++ [(304%Z, 305%Z, msg_pending)])
      w_created.
Proof.
  split; [reflexivity |].
  apply sweep_skips_unparseable. reflexivity.
Defined.

Lemma notice_without_tracking_id_witness :
  subject_match (msg_subject msg_no_id) = Some ("K1", "Success") /\
  plain_id (Js.trim "K1") = true /\
  Js.split "|" (cleanLineOf (msg_text msg_no_id)) = ["user@x.com"] /\
  trace (world_of (processMessage 300 301 msg_no_id empty_world))
  = [EvJobMerge "K1"
       (updateByFaxKey {| c_faxKey := "K1"; c_status := "Success";
                          c_requesterEmail := "user@x.com"; c_trackingId := "" |} 300)] /\
  jobs_after (processMessage 300 301 msg_no_id) empty_world !! "" = None.
Proof.
  split; [reflexivity |]. split; [reflexivity |]. split; [reflexivity |].
  pose proof (notice_without_tracking_id 300 301 msg_no_id empty_world
                "K1" "Success" "user@x.com" eq_refl eq_refl eq_refl) as H.
  cbv zeta in H. unfold jobs_after. rewrite H. split; reflexivity.
Defined.

Lemma sweep_keeps_creation_fields_witness :
  ("storeNumber" ∉ polled_fields) /\
  field (jobs_after (monitorFaxStatus [(300%Z, 301%Z, msg_success)]) w_created)
    tid0 "storeNumber"
  = field (faxJobs w_created) tid0 "storeNumber".
Proof.
  assert (H : "storeNumber" ∉ polled_fields).
  { unfold polled_fields. rewrite !not_elem_of_cons. repeat split; try discriminate.
    apply not_elem_of_nil. }
  split; [exact H |].
  exact (proj2 (sweep_keeps_creation_fields [(300%Z, 301%Z, msg_success)] w_created)
           tid0 "storeNumber" H).
Defined.

Lemma created_job_is_completed_in_place_witness :
  parseCompletion msg_success = Some (parsed "Success") /\
  plain_id (c_faxKey (parsed "Success")) = true /\
  c_trackingId (parsed "Success") = generateTrackingId (now env0) /\
  jobs_after (processMessage 300 301 msg_success)
    (world_of (sendFax env0 req_store empty_world)) !! generateTrackingId (now env0)
  = Some (obj [("trackingId", VStr (generateTrackingId (now env0)));
               ("status", VStr (c_status (parsed "Success")));
               ("requesterEmail", VStr (c_requesterEmail (parsed "Success")));
               ("storeNumber", VStr "#023");
               ("createdAt", VTime (job_time env0));
               ("updatedAt", VTime 301);
               ("faxKey", VStr (c_faxKey (parsed "Success")))]).
Proof.
  split; [reflexivity |]. split; [reflexivity |]. split; [reflexivity |].
  apply (proj1 (created_job_is_completed_in_place env0 empty_world 300 301 msg_success
                  (parsed "Success") eq_refl eq_refl eq_refl)
           req_store "#023" "JVBERi0=" "Ack.pdf" albany "fax@gateway.example").
  check_valid.
Defined.

Lemma tracking_id_survives_notice_witness :
  four_digit_year now0 /\
  subject_match (msg_subject msg_success) = Some ("K1", "Success") /\
  Js.all_chars ordinary "user@x.com" = true /\
  msg_text msg_success = "user@x.com" +:+ "|" +:+ generateTrackingId now0 +:+ "." /\
  parseCompletion msg_success
  = Some {| c_faxKey := Js.trim "K1"; c_status := "Success";
            c_requesterEmail := Js.trim "user@x.com";
            c_trackingId := generateTrackingId now0 |}.
Proof.
  assert (Hy : four_digit_year now0) by (vm_compute; split; discriminate).
  split; [exact Hy |]. split; [reflexivity |]. split; [reflexivity |].
  split; [reflexivity |].
  apply (tracking_id_survives_notice now0 msg_success "K1" "Success" "user@x.com"
           Hy eq_refl eq_refl).
  left. reflexivity.
Defined.

Lemma tracking_ids_collide_within_a_second_witness :
  calendar_fields now0 /\ calendar_fields now1 /\ same_second now0 now1 /\
  generateTrackingId now0 = generateTrackingId now1.
Proof.
  assert (H0 : calendar_fields now0) by (unfold calendar_fields; simpl; lia).
  assert (H1 : calendar_fields now1) by (unfold calendar_fields; simpl; lia).
  assert (Hs : same_second now0 now1) by check_valid.
  split; [exact H0 |]. split; [exact H1 |]. split; [exact Hs |].
  exact (proj2 (tracking_ids_collide_within_a_second now0 now1 H0 H1) Hs).
Defined.

Lemma getStores_lists_directory_in_order_witness :
  method req_list = "GET" /\ method req_store <> "GET" /\
  is_preflight req_store = false /\ is_preflight req_preflight = true /\
  (exists listed,
     exports_getStores env_two_stores req_list empty_world
     = (Done (Answer {| s_code := 200; s_json := StoresListed (length listed) listed |}),
        empty_world) /\
     length listed = size (stores env_two_stores) /\
     ascending listed /\
     NoDup (entry_id <$> listed) /\
     forall id st,
       stores env_two_stores !! id = Some st
       <-> {| entry_id := id; entry_data := st |} ∈ listed) /\
  exports_getStores env_two_stores req_preflight empty_world
  = (Done NoContent, empty_world) /\
  exports_getStores env_two_stores req_store empty_world
  = (Done (Answer {| s_code := 405; s_json := StoresError "Method not allowed" None |}),
     empty_world).
Proof.
  assert (Hne : method req_store <> "GET") by discriminate.
  split; [reflexivity |]. split; [exact Hne |].
  split; [reflexivity |]. split; [reflexivity |]. split; [| split].
  - exact (proj1 (getStores_lists_directory_in_order env_two_stores req_list empty_world)
             eq_refl).
  - exact (proj1 (proj2 (getStores_lists_directory_in_order env_two_stores req_preflight
                           empty_world)) eq_refl).
  - exact (proj2 (proj2 (getStores_lists_directory_in_order env_two_stores req_store
                           empty_world)) Hne eq_refl).
Defined.

Lemma seeding_writes_every_store_witness :
  plain_stores store_file = true /\
  (forall k, every_commit_accepted k = false) /\
  NoDup (st_storeNumber <$> store_file) /\ eugene ∈ store_file /\
  seedStores (Some store_file) every_commit_accepted ∅
  = Some (0, {| seeded := commitBatch store_file ∅;
                totalWritten := length store_file |}) /\
  commitBatch store_file ∅ !! st_storeNumber eugene = Some eugene.
Proof.
  assert (Hc : forall k, every_commit_accepted k = false) by reflexivity.
  assert (Hn : NoDup (st_storeNumber <$> store_file)).
  { apply (bool_decide_unpack _). vm_compute. exact I. }
  assert (He : eugene ∈ store_file).
  { unfold store_file. rewrite !elem_of_cons. right; left; reflexivity. }
  split; [reflexivity |].
  split; [exact Hc |]. split; [exact Hn |]. split; [exact He |].
  destruct (seeding_writes_every_store store_file every_commit_accepted ∅ eq_refl Hc)
    as (H1 & H2 & _).
  split; [exact H1 | exact (H2 Hn eugene He)].
Defined.

Lemma seeding_is_repeatable_witness :
  plain_stores store_file = true /\
  (forall k, every_commit_accepted k = false) /\
  exists st1,
    seedStores (Some store_file) every_commit_accepted {["#023" := eugene]}
    = Some (0, st1) /\
    seedStores (Some store_file) every_commit_accepted (seeded st1) = Some (0, st1).
Proof.
  assert (Hc : forall k, every_commit_accepted k = false) by reflexivity.
  split; [reflexivity |]. split; [exact Hc |].
  exact (seeding_is_repeatable store_file every_commit_accepted {["#023" := eugene]}
           eq_refl Hc).
Defined.

Lemma seeding_stops_at_rejected_batch_witness :
  plain_stores long_file = true /\
  (forall n, n < 1 -> second_commit_rejected n = false) /\
  second_commit_rejected 1 = true /\
  1 * batchSize < length long_file /\
  seedStores (Some long_file) second_commit_rejected ∅
  = Some (1, {| seeded := commitBatch (take (1 * batchSize) long_file) ∅;
                totalWritten := 1 * batchSize |}).
Proof.
  assert (H1 : forall n, n < 1 -> second_commit_rejected n = false).
  { intros n Hn. destruct n; [reflexivity | lia]. }
  assert (H2 : 1 * batchSize < length long_file).
  { unfold long_file, batchSize. rewrite length_app, length_replicate. simpl. lia. }
  assert (Hp : plain_stores long_file = true) by (vm_compute; reflexivity).
  split; [exact Hp |].
  split; [exact H1 |]. split; [reflexivity |]. split; [exact H2 |].
  exact (seeding_stops_at_rejected_batch long_file second_commit_rejected ∅ 1
           Hp H1 eq_refl H2).
Defined.

Lemma not_found_only_for_unknown_store_witness :
  result_of (sendFax env0 req_unknown_store empty_world)
  = Done {| code := 404; json := ErrorBody "Store #999 not found" None |} /\
  method req_unknown_store = "POST" /\
  exists sn pdf fn,
    storeNumber req_unknown_store = Some sn /\ pdfBase64 req_unknown_store = Some pdf /\
    fileName req_unknown_store = Some fn /\
    sn <> "" /\ pdf <> "" /\ fn <> "" /\ stores env0 !! sn = None /\
    json {| code := 404; json := ErrorBody "Store #999 not found" None |}
    = ErrorBody ("Store " +:+ sn +:+ " not found") None.
Proof.
  split; [reflexivity |].
  exact (not_found_only_for_unknown_store env0 req_unknown_store empty_world
           {| code := 404; json := ErrorBody "Store #999 not found" None |}
           eq_refl eq_refl).
Defined.

Lemma seeded_store_can_be_sent_to_witness :
  plain_stores store_file = true /\
  (forall k, every_commit_accepted k = false) /\
  NoDup (st_storeNumber <$> store_file) /\ albany ∈ store_file /\
  seedStores (Some store_file) every_commit_accepted ∅
  = Some (0, {| seeded := stores env_two_stores; totalWritten := 2 |}) /\
  getFaxGatewayEmail (cfg env_two_stores) = Some "fax@gateway.example" /\
  mail_failure env_two_stores = None /\
  result_of (sendFax env_two_stores req_store empty_world)
  = Done {| code := 200;
            json := StoreSent
                      ("Fax sent to " +:+ st_location albany +:+ " ("
                       +:+ st_storeNumber albany +:+ ")")
                      (generateTrackingId (now env_two_stores)) (st_storeNumber albany)
                      (st_location albany) |}.
Proof.
  assert (Hc : forall k, every_commit_accepted k = false) by reflexivity.
  assert (Hn : NoDup (st_storeNumber <$> store_file)).
  { apply (bool_decide_unpack _). vm_compute. exact I. }
  assert (Ha : albany ∈ store_file).
  { unfold store_file. rewrite !elem_of_cons. left; reflexivity. }
  assert (Hs : seedStores (Some store_file) every_commit_accepted ∅
               = Some (0, {| seeded := stores env_two_stores; totalWritten := 2 |}))
    by (vm_compute; reflexivity).
  split; [reflexivity |].
  split; [exact Hc |]. split; [exact Hn |]. split; [exact Ha |]. split; [exact Hs |].
  split; [reflexivity |]. split; [reflexivity |].
  apply (seeded_store_can_be_sent_to store_file every_commit_accepted ∅ albany
           env_two_stores req_store empty_world "JVBERi0=" "Ack.pdf"
           "fax@gateway.example" eq_refl Hc Hn Ha (ex_intro _ 2 Hs));
    reflexivity || discriminate.
Defined.

Lemma subject_match_finds_notices_witness :
  subject_match (msg_subject msg_two_notices) = Some ("A", "B") /\
  exists pre post,
    msg_subject msg_two_notices = pre +:+ "FAXDONE:" +:+ "A" +:+ ":" +:+ "B" +:+ post /\
    "A" <> "" /\ Js.all_chars (fun c => negb (Ascii.eqb c ":")) "A" = true /\
    "B" <> "" /\ Js.all_chars Js.is_word "B" = true /\
    match post with EmptyString => True | String c _ => Js.is_word c = false end.
Proof.
  split; [reflexivity |].
  exact (proj1 (subject_match_finds_notices (msg_subject msg_two_notices))
           "A" "B" eq_refl).
Defined.
